(** * QuantQuest trading platform: execution engine, risk tracker and strategies

    A shallow embedding of the Python sources under [trading_platform/] and of
    the properties stated about them.

    Numbers.  Python [int] is [Z].  A Python [float] that holds an amount of
    money, a price or a rate is a rational [Q]: arithmetic is exact, and [==]
    is [Qeq].  Python's [/] raises [ZeroDivisionError] on a zero divisor, which
    the model keeps ([Py.truediv]).  The indicator code of the strategies runs
    on pandas/numpy floats, where a zero divisor yields [inf] or [nan] instead;
    those values are modelled by [XFloat.t].

    Objects.  A [dict] is an insertion-ordered association list, as in Python.
    [datetime] values are integers (a count of microseconds).  A method that
    mutates [self] takes the object and returns the updated one.

    Exceptions.  A call that can raise returns [Py.result]; [Raise e] stands
    for the exception leaving the call, and what the call had already changed
    by then is not kept. *)

From Stdlib Require Import ZArith QArith Qabs Lqa Lia List String Bool.
Import ListNotations.

Local Open Scope Q_scope.

(** ** Python run-time conventions *)

Module Py.

Inductive exn : Type :=
| ZeroDivisionError
| IndexError
| KeyError
| TypeError
| ValueError
| AttributeError
| OverflowError.

Inductive result (A : Type) : Type :=
| Ok (a : A)
| Raise (e : exn).

Arguments Ok {A} a.
Arguments Raise {A} e.

Definition bind {A B : Type} (m : result A) (k : A -> result B) : result B :=
  match m with
  | Ok a => k a
  | Raise e => Raise e
  end.

Definition datetime : Type := Z.

(** [x < y] and [x > y] on floats. *)
Definition ltb (x y : Q) : bool := negb (Qle_bool y x).
Definition gtb (x y : Q) : bool := ltb y x.

(** [max(a, b)]: the first argument unless the second is strictly greater. *)
Definition max (a b : Q) : Q := if gtb b a then b else a.

(** [x / y] on Python floats. *)
Definition truediv (x y : Q) : result Q :=
  if Qeq_bool y 0 then Raise ZeroDivisionError else Ok (x / y).

(** [abs(n)] of an [int], used as a float. *)
Definition absz (n : Z) : Q := inject_Z (Z.abs n).

(** *** Dictionaries keyed by strings *)

Definition dict (V : Type) : Type := list (string * V).

Fixpoint dict_get {V : Type} (d : dict V) (k : string) : option V :=
  match d with
  | [] => None
  | (k', v) :: d' => if String.eqb k k' then Some v else dict_get d' k
  end.

(** [d.get(k, default)] *)
Definition dict_get_default {V : Type} (d : dict V) (k : string) (default : V) : V :=
  match dict_get d k with
  | Some v => v
  | None => default
  end.

(** [d[k] = v]: an existing key keeps its place, a new key goes last. *)
Fixpoint dict_set {V : Type} (d : dict V) (k : string) (v : V) : dict V :=
  match d with
  | [] => [(k, v)]
  | (k', v') :: d' =>
      if String.eqb k k' then (k', v) :: d' else (k', v') :: dict_set d' k v
  end.

(** [del d[k]] *)
Fixpoint dict_del {V : Type} (d : dict V) (k : string) : result (dict V) :=
  match d with
  | [] => Raise KeyError
  | (k', v') :: d' =>
      if String.eqb k k' then Ok d'
      else bind (dict_del d' k) (fun r => Ok ((k', v') :: r))
  end.

End Py.

Import Py.

Notation "x <- m ;; k" := (Py.bind m (fun x => k))
  (at level 61, m at next level, right associativity).

(** ** engine/order.py *)

Inductive OrderType : Type := MARKET | LIMIT.
Inductive OrderSide : Type := BUY | SELL.
Inductive OrderStatus : Type := PENDING | FILLED | CANCELLED | REJECTED.

Record Order : Type := mkOrder {
  symbol : string;
  side : OrderSide;
  quantity : Z;
  order_type : OrderType;
  timestamp : datetime;
  limit_price : option Q;
  status : OrderStatus;
  fill_price : option Q;
  fill_timestamp : option datetime;
  order_id : string
}.

Module OrderM.

(** [Order.fill] *)
Definition fill (o : Order) (price : Q) (ts : datetime) : Order :=
  mkOrder (symbol o) (side o) (quantity o) (order_type o) (timestamp o)
          (limit_price o) FILLED (Some price) (Some ts) (order_id o).

(** [Order.cancel] *)
Definition cancel (o : Order) : Order :=
  mkOrder (symbol o) (side o) (quantity o) (order_type o) (timestamp o)
          (limit_price o) CANCELLED (fill_price o) (fill_timestamp o) (order_id o).

(** [Order.reject] *)
Definition reject (o : Order) : Order :=
  mkOrder (symbol o) (side o) (quantity o) (order_type o) (timestamp o)
          (limit_price o) REJECTED (fill_price o) (fill_timestamp o) (order_id o).

Definition side_eqb (a b : OrderSide) : bool :=
  match a, b with BUY, BUY | SELL, SELL => true | _, _ => false end.

Definition type_eqb (a b : OrderType) : bool :=
  match a, b with MARKET, MARKET | LIMIT, LIMIT => true | _, _ => false end.

Definition status_eqb (a b : OrderStatus) : bool :=
  match a, b with
  | PENDING, PENDING | FILLED, FILLED | CANCELLED, CANCELLED | REJECTED, REJECTED => true
  | _, _ => false
  end.

Definition opt_eqb {A : Type} (eqb : A -> A -> bool) (a b : option A) : bool :=
  match a, b with
  | Some x, Some y => eqb x y
  | None, None => true
  | _, _ => false
  end.

(** The dataclass's generated [__eq__]: field by field. *)
Definition eqb (a b : Order) : bool :=
  String.eqb (symbol a) (symbol b) && side_eqb (side a) (side b)
  && Z.eqb (quantity a) (quantity b) && type_eqb (order_type a) (order_type b)
  && Z.eqb (timestamp a) (timestamp b)
  && opt_eqb Qeq_bool (limit_price a) (limit_price b)
  && status_eqb (status a) (status b)
  && opt_eqb Qeq_bool (fill_price a) (fill_price b)
  && opt_eqb Z.eqb (fill_timestamp a) (fill_timestamp b)
  && String.eqb (order_id a) (order_id b).

End OrderM.

(** ** engine/position.py *)

Record ClosedPosition : Type := mkClosedPosition {
  cp_symbol : string;
  cp_quantity : Z;
  cp_entry_price : Q;
  cp_exit_price : Q;
  cp_entry_timestamp : datetime;
  cp_exit_timestamp : datetime;
  realized_pnl : Q;
  realized_pnl_pct : Q;
  cp_leverage : Q
}.

Record Position : Type := mkPosition {
  pos_symbol : string;
  pos_quantity : Z;
  entry_price : Q;
  entry_timestamp : datetime;
  leverage : Q
}.

Module PositionM.

Definition calculate_unrealized_pnl (p : Position) (current_price : Q) : Q :=
  let price_diff := current_price - entry_price p in
  price_diff * inject_Z (pos_quantity p).

Definition calculate_unrealized_pnl_percentage (p : Position) (current_price : Q) : Q :=
  if Qeq_bool (entry_price p) 0 then 0
  else
    let price_diff := current_price - entry_price p in
    let pnl_pct := (price_diff / entry_price p) * 100 in
    let pnl_pct := if (pos_quantity p <? 0)%Z then - pnl_pct else pnl_pct in
    pnl_pct * leverage p.

Definition get_position_value (p : Position) (current_price : Q) : Q :=
  absz (pos_quantity p) * current_price.

Definition get_margin_required (p : Position) (current_price : Q) : result Q :=
  let position_value := get_position_value p current_price in
  truediv position_value (leverage p).

Definition is_long (p : Position) : bool := (pos_quantity p >? 0)%Z.
Definition is_short (p : Position) : bool := (pos_quantity p <? 0)%Z.

Definition close (p : Position) (exit_price : Q) (exit_timestamp : datetime)
  : ClosedPosition :=
  let pnl := calculate_unrealized_pnl p exit_price in
  let pnl_pct := calculate_unrealized_pnl_percentage p exit_price in
  mkClosedPosition (pos_symbol p) (pos_quantity p) (entry_price p) exit_price
                   (entry_timestamp p) exit_timestamp pnl pnl_pct (leverage p).

Definition is_profitable (c : ClosedPosition) : bool := gtb (realized_pnl c) 0.

End PositionM.


(** ** engine/execution_engine.py *)

Record ExecutionEngine : Type := mkEngine {
  initial_capital : Q;
  cash : Q;
  max_leverage : Q;
  slippage_pct : Q;
  commission_pct : Q;
  positions : dict Position;
  closed_positions : list ClosedPosition;
  pending_orders : list Order;
  filled_orders : list Order;
  all_orders : list Order
}.

Module Engine.

(** [ExecutionEngine.__init__] *)
Definition init (initial_capital max_leverage slippage_pct commission_pct : Q)
  : ExecutionEngine :=
  mkEngine initial_capital initial_capital max_leverage slippage_pct commission_pct
           [] [] [] [] [].

Definition set_cash (st : ExecutionEngine) (c : Q) : ExecutionEngine :=
  mkEngine (initial_capital st) c (max_leverage st) (slippage_pct st)
           (commission_pct st) (positions st) (closed_positions st)
           (pending_orders st) (filled_orders st) (all_orders st).

Definition set_positions (st : ExecutionEngine) (d : dict Position) : ExecutionEngine :=
  mkEngine (initial_capital st) (cash st) (max_leverage st) (slippage_pct st)
           (commission_pct st) d (closed_positions st)
           (pending_orders st) (filled_orders st) (all_orders st).

Definition set_closed_positions (st : ExecutionEngine) (l : list ClosedPosition)
  : ExecutionEngine :=
  mkEngine (initial_capital st) (cash st) (max_leverage st) (slippage_pct st)
           (commission_pct st) (positions st) l
           (pending_orders st) (filled_orders st) (all_orders st).

Definition set_order_lists (st : ExecutionEngine) (pending filled all : list Order)
  : ExecutionEngine :=
  mkEngine (initial_capital st) (cash st) (max_leverage st) (slippage_pct st)
           (commission_pct st) (positions st) (closed_positions st)
           pending filled all.

Definition get_current_position (st : ExecutionEngine) (symbol : string)
  : option Position :=
  dict_get (positions st) symbol.

Definition get_position_quantity (st : ExecutionEngine) (symbol : string) : Z :=
  match dict_get (positions st) symbol with
  | Some pos => pos_quantity pos
  | None => 0%Z
  end.

(** The loop of [calculate_available_capital] over [self.positions.items()]. *)
Fixpoint margin_used_loop (items : dict Position) (current_prices : dict Q)
  (margin_used : Q) : result Q :=
  match items with
  | [] => Ok margin_used
  | (symbol, position) :: rest =>
      let current_price :=
        dict_get_default current_prices symbol (entry_price position) in
      m <- PositionM.get_margin_required position current_price ;;
      margin_used_loop rest current_prices (margin_used + m)
  end.

Definition calculate_available_capital (st : ExecutionEngine)
  (current_prices : dict Q) : result Q :=
  margin_used <- margin_used_loop (positions st) current_prices 0 ;;
  let max_buying_power := cash st * max_leverage st in
  let available := max_buying_power - margin_used in
  Ok (Py.max available 0).

Definition apply_slippage (st : ExecutionEngine) (price : Q) (sd : OrderSide) : Q :=
  match sd with
  | BUY => price * (1 + slippage_pct st)
  | SELL => price * (1 - slippage_pct st)
  end.

Definition calculate_commission (st : ExecutionEngine) (qty : Z) (price : Q) : Q :=
  let trade_value := absz qty * price in
  trade_value * commission_pct st.

Definition submit_order (st : ExecutionEngine) (o : Order) : bool * ExecutionEngine :=
  (true, set_order_lists st (pending_orders st ++ [o]) (filled_orders st)
                         (all_orders st ++ [o])).

(** The signed quantity of a fill: positive for BUY, negative for SELL. *)
Definition signed_quantity (o : Order) : Z :=
  match side o with
  | BUY => quantity o
  | SELL => (- quantity o)%Z
  end.

(** [(current_pos.quantity > 0 and quantity < 0) or
     (current_pos.quantity < 0 and quantity > 0)] *)
Definition opposite_sign (pq q : Z) : bool :=
  ((pq >? 0)%Z && (q <? 0)%Z) || ((pq <? 0)%Z && (q >? 0)%Z).

(** [_update_position_from_order].  The method is private and runs on an order
    that [fill] has just stamped; on an order without fill price or fill
    timestamp Python fails on the first arithmetic with [None]. *)
Definition _update_position_from_order (st : ExecutionEngine) (o : Order)
  (commission : Q) : result ExecutionEngine :=
  match fill_price o, fill_timestamp o with
  | Some fp, Some fts =>
      let sym := symbol o in
      let q := signed_quantity o in
      match dict_get (positions st) sym with
      | None =>
          (* New position *)
          let st1 := set_positions st
            (dict_set (positions st) sym (mkPosition sym q fp fts (max_leverage st))) in
          let cost := absz q * fp + commission in
          match side o with
          | BUY =>
              d <- truediv cost (max_leverage st) ;;
              Ok (set_cash st1 (cash st1 - d))
          | SELL =>
              d <- truediv (absz q * fp - commission) (max_leverage st) ;;
              Ok (set_cash st1 (cash st1 + d))
          end
      | Some current_pos =>
          let new_quantity := (pos_quantity current_pos + q)%Z in
          if opposite_sign (pos_quantity current_pos) q then
            if (Z.abs q >=? Z.abs (pos_quantity current_pos))%Z then
              (* Fully closing or reversing *)
              let closed := PositionM.close current_pos fp fts in
              let st1 := set_closed_positions st (closed_positions st ++ [closed]) in
              let st2 := set_cash st1 (cash st1 + (realized_pnl closed - commission)) in
              book <- dict_del (positions st2) sym ;;
              let st3 := set_positions st2 book in
              if (Z.abs q >? Z.abs (pos_quantity current_pos))%Z then
                let remaining_qty := new_quantity in
                let st4 := set_positions st3
                  (dict_set (positions st3) sym
                     (mkPosition sym remaining_qty fp fts (max_leverage st))) in
                d <- truediv (absz remaining_qty * fp) (max_leverage st) ;;
                Ok (set_cash st4 (cash st4 - d))
              else Ok st3
            else
              (* Partially closing *)
              let partial_pnl := (fp - entry_price current_pos) * absz q in
              let partial_pnl :=
                if (pos_quantity current_pos <? 0)%Z then - partial_pnl else partial_pnl in
              let st1 := set_cash st (cash st + (partial_pnl - commission)) in
              Ok (set_positions st1
                    (dict_set (positions st1) sym
                       (mkPosition (pos_symbol current_pos) new_quantity
                                   (entry_price current_pos)
                                   (entry_timestamp current_pos)
                                   (leverage current_pos))))
          else
            (* Adding to position *)
            let old_cost := absz (pos_quantity current_pos) * entry_price current_pos in
            let new_cost := absz q * fp in
            let total_quantity := (Z.abs (pos_quantity current_pos) + Z.abs q)%Z in
            avg <- truediv (old_cost + new_cost) (inject_Z total_quantity) ;;
            let st1 := set_positions st
              (dict_set (positions st) sym
                 (mkPosition (pos_symbol current_pos) new_quantity avg
                             (entry_timestamp current_pos) (leverage current_pos))) in
            d <- truediv (absz q * fp + commission) (max_leverage st) ;;
            Ok (set_cash st1 (cash st1 - d))
      end
  | _, _ => Raise TypeError
  end.

(** [if order in self.pending_orders: self.pending_orders.remove(order)].  The
    lists hold the caller's order objects; an entry is the argument itself
    when it has the argument's fields as they were before this call.  The
    model's lists keep each entry as it was stored: in Python [fill()] and
    [reject()] change the order object itself, so the new status of an order
    that was submitted before also shows through its entries. *)
Fixpoint remove_order (o : Order) (l : list Order) : list Order :=
  match l with
  | [] => []
  | x :: l' => if OrderM.eqb x o then l' else x :: remove_order o l'
  end.

(** [execute_market_order]: the returned boolean, the order as the call leaves
    it, and the engine after the call. *)
Definition execute_market_order (st : ExecutionEngine) (o : Order)
  (current_price : Q) (current_prices : dict Q) (ts : datetime)
  : result (bool * Order * ExecutionEngine) :=
  let execution_price := apply_slippage st current_price (side o) in
  let trade_value := absz (quantity o) * execution_price in
  let commission := calculate_commission st (quantity o) execution_price in
  let total_cost := trade_value + commission in
  rejected <-
    match side o with
    | BUY =>
        required_margin <- truediv total_cost (max_leverage st) ;;
        available <- calculate_available_capital st current_prices ;;
        Ok (gtb required_margin available)
    | SELL => Ok false
    end ;;
  if (rejected : bool) then Ok (false, OrderM.reject o, st)
  else
    let o' := OrderM.fill o execution_price ts in
    let st1 := set_order_lists st (remove_order o (pending_orders st))
                               (filled_orders st ++ [o']) (all_orders st) in
    st2 <- _update_position_from_order st1 o' commission ;;
    Ok (true, o', st2).

(** The price a position is valued at:
    [current_prices.get(symbol, position.entry_price)]. *)
Definition price_for (current_prices : dict Q) (symbol : string) (p : Position) : Q :=
  dict_get_default current_prices symbol (entry_price p).

(** The loop shared by [get_total_portfolio_value] and [get_total_unrealized_pnl]:
    [total += position.calculate_unrealized_pnl(current_price)]. *)
Fixpoint unrealized_loop (items : dict Position) (current_prices : dict Q)
  (total : Q) : Q :=
  match items with
  | [] => total
  | (symbol, position) :: rest =>
      let current_price := price_for current_prices symbol position in
      unrealized_loop rest current_prices
        (total + PositionM.calculate_unrealized_pnl position current_price)
  end.

Definition get_total_portfolio_value (st : ExecutionEngine) (current_prices : dict Q)
  : Q :=
  let total_unrealized := unrealized_loop (positions st) current_prices 0 in
  cash st + total_unrealized.

(** [sum(cp.realized_pnl for cp in self.closed_positions)] *)
Definition get_total_realized_pnl (st : ExecutionEngine) : Q :=
  fold_left (fun acc cp => acc + realized_pnl cp) (closed_positions st) 0.

Definition get_total_unrealized_pnl (st : ExecutionEngine) (current_prices : dict Q)
  : Q :=
  unrealized_loop (positions st) current_prices 0.

End Engine.


(** ** portfolio/risk_tracker.py *)

Record RiskTracker : Type := mkRiskTracker {
  engine : ExecutionEngine;
  peak_equity : Q;
  equity_history : list (datetime * Q)
}.

Module Risk.

(** [RiskTracker.__init__] *)
Definition init (e : ExecutionEngine) : RiskTracker :=
  mkRiskTracker e (initial_capital e) [].

Definition update_equity_history (rt : RiskTracker) (ts : datetime)
  (current_prices : dict Q) : RiskTracker :=
  let equity := Engine.get_total_portfolio_value (engine rt) current_prices in
  mkRiskTracker (engine rt)
                (if gtb equity (peak_equity rt) then equity else peak_equity rt)
                (equity_history rt ++ [(ts, equity)]).

(** The loop of [get_max_drawdown] over [self.equity_history]. *)
Fixpoint drawdown_loop (history : list (datetime * Q))
  (max_dd_dollars max_dd_pct peak : Q) : Q * Q :=
  match history with
  | [] => (max_dd_dollars, max_dd_pct)
  | (_, equity) :: rest =>
      let peak := if gtb equity peak then equity else peak in
      let drawdown := peak - equity in
      let drawdown_pct := if gtb peak 0 then drawdown / peak * 100 else 0 in
      if gtb drawdown max_dd_dollars
      then drawdown_loop rest drawdown drawdown_pct peak
      else drawdown_loop rest max_dd_dollars max_dd_pct peak
  end.

Definition get_max_drawdown (rt : RiskTracker) : Q * Q :=
  match equity_history rt with
  | [] => (0, 0)
  | _ :: _ => drawdown_loop (equity_history rt) 0 0 (initial_capital (engine rt))
  end.

Definition get_current_drawdown (rt : RiskTracker) (current_prices : dict Q) : Q * Q :=
  let current_equity := Engine.get_total_portfolio_value (engine rt) current_prices in
  let drawdown := peak_equity rt - current_equity in
  let drawdown_pct :=
    if gtb (peak_equity rt) 0 then drawdown / peak_equity rt * 100 else 0 in
  (drawdown, drawdown_pct).

(** The tracker after the same engine has recorded the equity samples [h]. *)
Definition with_history (rt : RiskTracker) (h : list (datetime * Q)) : RiskTracker :=
  mkRiskTracker (engine rt) (peak_equity rt) h.

End Risk.


(** ** numpy and pandas floats

    The values the indicator code computes with: finite numbers, the two
    infinities and [nan].  Division by zero does not raise here; comparisons
    with [nan] are false.  Signed zeros are not distinguished. *)

Module XFloat.

Inductive t : Type :=
| Fin (q : Q)
| PInf
| NInf
| NaN.

Definition isnan (x : t) : bool :=
  match x with NaN => true | _ => false end.

Definition neg (x : t) : t :=
  match x with
  | Fin q => Fin (- q)
  | PInf => NInf
  | NInf => PInf
  | NaN => NaN
  end.

(** The infinity (or [nan]) that carries the sign [c]. *)
Definition inf_of (c : comparison) : t :=
  match c with Gt => PInf | Lt => NInf | Eq => NaN end.

Definition add (x y : t) : t :=
  match x, y with
  | NaN, _ | _, NaN => NaN
  | Fin a, Fin b => Fin (a + b)
  | PInf, NInf | NInf, PInf => NaN
  | PInf, _ | _, PInf => PInf
  | NInf, _ | _, NInf => NInf
  end.

Definition sub (x y : t) : t := add x (neg y).

Definition mul (x y : t) : t :=
  match x, y with
  | NaN, _ | _, NaN => NaN
  | Fin a, Fin b => Fin (a * b)
  | Fin a, PInf | PInf, Fin a => inf_of (a ?= 0)
  | Fin a, NInf | NInf, Fin a => inf_of (0 ?= a)
  | PInf, PInf | NInf, NInf => PInf
  | PInf, NInf | NInf, PInf => NInf
  end.

Definition div (x y : t) : t :=
  match x, y with
  | NaN, _ | _, NaN => NaN
  | Fin a, Fin b => if Qeq_bool b 0 then inf_of (a ?= 0) else Fin (a / b)
  | Fin _, PInf | Fin _, NInf => Fin 0
  | PInf, Fin b => if Py.ltb b 0 then NInf else PInf
  | NInf, Fin b => if Py.ltb b 0 then PInf else NInf
  | PInf, PInf | PInf, NInf | NInf, PInf | NInf, NInf => NaN
  end.

Definition abs (x : t) : t :=
  match x with
  | Fin q => Fin (Qabs q)
  | PInf | NInf => PInf
  | NaN => NaN
  end.

Definition ltb (x y : t) : bool :=
  match x, y with
  | NaN, _ | _, NaN => false
  | Fin a, Fin b => Py.ltb a b
  | NInf, NInf => false
  | NInf, _ => true
  | _, NInf => false
  | PInf, _ => false
  | Fin _, PInf => true
  end.

Definition gtb (x y : t) : bool := ltb y x.

Definition leb (x y : t) : bool :=
  match x, y with
  | NaN, _ | _, NaN => false
  | Fin a, Fin b => Qle_bool a b
  | NInf, _ => true
  | _, PInf => true
  | _, NInf => false
  | PInf, _ => false
  end.

Definition geb (x y : t) : bool := leb y x.

Definition eqb (x y : t) : bool :=
  match x, y with
  | Fin a, Fin b => Qeq_bool a b
  | PInf, PInf | NInf, NInf => true
  | _, _ => false
  end.

(** [min(x, y)] of Python: the first argument unless the second is smaller. *)
Definition pymin (x y : t) : t := if ltb y x then y else x.

Definition of_nat (n : nat) : t := Fin (inject_Z (Z.of_nat n)).

End XFloat.

Abbreviation Fin := XFloat.Fin.
Abbreviation NaN := XFloat.NaN.

(** ** Series and arrays *)

Module Pd.

Definition Series : Type := list XFloat.t.

(** [s.iloc[-1]] and [l[-1]] *)
Definition iloc_last {A : Type} (l : list A) : result A :=
  match rev l with
  | x :: _ => Ok x
  | [] => Raise IndexError
  end.

(** [s.iloc[-2]] and [l[-2]] *)
Definition iloc_last2 {A : Type} (l : list A) : result A :=
  match rev l with
  | _ :: x :: _ => Ok x
  | _ => Raise IndexError
  end.

(** [a[i]] with Python's negative indices. *)
Definition index {A : Type} (l : list A) (i : Z) : result A :=
  let n := Z.of_nat (List.length l) in
  let j := if (i <? 0)%Z then (i + n)%Z else i in
  if ((j <? 0)%Z || (n <=? j)%Z)%bool then Raise IndexError
  else match nth_error l (Z.to_nat j) with
       | Some x => Ok x
       | None => Raise IndexError
       end.

(** [l[-n:]] *)
Definition tail_slice {A : Type} (n : nat) (l : list A) : list A :=
  match n with
  | O => l
  | S _ => skipn (List.length l - n) l
  end.

(** [l[i:i+n]] *)
Definition window {A : Type} (i n : nat) (l : list A) : list A :=
  firstn n (skipn i l).

(** [Series.diff()] *)
Fixpoint diff_from (prev : Q) (l : list Q) : Series :=
  match l with
  | [] => []
  | x :: r => Fin (x - prev) :: diff_from x r
  end.

Definition diff (l : list Q) : Series :=
  match l with
  | [] => []
  | x :: r => NaN :: diff_from x r
  end.

(** [s.where(cond, 0)] *)
Definition where0 (cond : XFloat.t -> bool) (s : Series) : Series :=
  map (fun x => if cond x then x else Fin 0) s.

Definition sum (s : Series) : XFloat.t := fold_left XFloat.add s (Fin 0).

(** The mean of a window that must hold as many numbers as it has places. *)
Definition mean (s : Series) : XFloat.t :=
  if existsb XFloat.isnan s then NaN
  else XFloat.div (sum s) (XFloat.of_nat (List.length s)).

(** [s.rolling(window=w, min_periods=w).mean()] *)
Definition rolling_mean (w : nat) (s : Series) : Series :=
  map (fun i =>
         if ((i + 1 <? w)%nat || (w =? 0)%nat)%bool then NaN
         else mean (window (i + 1 - w) w s))
      (seq 0 (List.length s)).

(** The recursion of [ewm(adjust=False)]: y0 = x0, y = (1 - a) y' + a x. *)
Fixpoint ewm_from (alpha prev : Q) (l : list Q) : list Q :=
  match l with
  | [] => []
  | x :: r => let y := (1 - alpha) * prev + alpha * x in y :: ewm_from alpha y r
  end.

(** [s.ewm(span=span, adjust=False, min_periods=span).mean()] *)
Definition ewm_mean (span : nat) (l : list Q) : result Series :=
  if (span <? 1)%nat then Raise ValueError
  else
    let alpha := 2 / (inject_Z (Z.of_nat span) + 1) in
    let ys := match l with
              | [] => []
              | x :: r => x :: ewm_from alpha x r
              end in
    Ok (map (fun iy => if (fst iy + 1 <? span)%nat then NaN else Fin (snd iy))
            (combine (seq 0 (List.length ys)) ys)).

(** [np.max(a)] and [np.min(a)]: an empty array is an error. *)
Definition np_max (l : list Q) : result Q :=
  match l with
  | [] => Raise ValueError
  | x :: r => Ok (fold_left (fun m y => if Py.ltb m y then y else m) r x)
  end.

Definition np_min (l : list Q) : result Q :=
  match l with
  | [] => Raise ValueError
  | x :: r => Ok (fold_left (fun m y => if Py.ltb y m then y else m) r x)
  end.

(** Elementwise operation on two arrays of one length. *)
Definition zip_with {A B C : Type} (f : A -> B -> C) (a : list A) (b : list B)
  : list C :=
  map (fun ab => f (fst ab) (snd ab)) (combine a b).

(** A loop body run over a list, stopping at the first error. *)
Fixpoint for_each {A B : Type} (f : A -> result B) (l : list A) : result (list B) :=
  match l with
  | [] => Ok []
  | x :: r => y <- f x ;; ys <- for_each f r ;; Ok (y :: ys)
  end.

End Pd.

(** ** Bars *)

Record Bar : Type := mkBar {
  bar_timestamp : datetime;
  bar_open : Q;
  bar_high : Q;
  bar_low : Q;
  bar_close : Q;
  bar_volume : Q
}.

(** A DataFrame of bars, oldest first. *)
Definition DataFrame : Type := list Bar.

Definition col_close (data : DataFrame) : list Q := map bar_close data.
Definition col_high (data : DataFrame) : list Q := map bar_high data.
Definition col_low (data : DataFrame) : list Q := map bar_low data.
Definition col_volume (data : DataFrame) : list Q := map bar_volume data.
Definition col_timestamp (data : DataFrame) : list datetime := map bar_timestamp data.

(** ** strategies/base_strategy.py *)

Inductive Signal : Type := SIG_BUY | SIG_SELL | SIG_HOLD | SIG_CLOSE.

(** A formatted message: the text of the f-string with its placeholders, and
    the numbers formatted into them. *)
Definition Reason : Type := (string * list XFloat.t)%type.

Record TradeSignal : Type := mkTradeSignal {
  signal : Signal;
  sig_symbol : string;
  sig_price : Q;
  sig_timestamp : datetime;
  strength : XFloat.t;
  reason : Reason
}.

Module Sig.

Definition eqb (a b : Signal) : bool :=
  match a, b with
  | SIG_BUY, SIG_BUY | SIG_SELL, SIG_SELL | SIG_HOLD, SIG_HOLD
  | SIG_CLOSE, SIG_CLOSE => true
  | _, _ => false
  end.

(** [current_position is None or current_position == 0] *)
Definition flat (current_position : option Z) : bool :=
  match current_position with
  | None => true
  | Some z => (z =? 0)%Z
  end.

(** [data['close'].iloc[-1]] and [data['timestamp'].iloc[-1]], in that order,
    handed to the signal under construction. *)
Definition at_last_bar (data : DataFrame) (k : Q -> datetime -> TradeSignal)
  : result TradeSignal :=
  price <- Pd.iloc_last (col_close data) ;;
  ts <- Pd.iloc_last (col_timestamp data) ;;
  Ok (k price ts).

End Sig.


(** ** strategies/rsi_strategy.py *)

Record RSIStrategy : Type := mkRSI {
  rsi_period : nat;
  rsi_oversold : Q;
  rsi_overbought : Q;
  rsi_neutral : Q
}.

Module RSI.

Local Open Scope string_scope.

Definition calculate_rsi (prices : list Q) (period : nat) : Pd.Series :=
  let delta := Pd.diff prices in
  let gains := Pd.where0 (fun d => XFloat.gtb d (Fin 0)) delta in
  let losses := map XFloat.neg (Pd.where0 (fun d => XFloat.ltb d (Fin 0)) delta) in
  let avg_gains := Pd.rolling_mean period gains in
  let avg_losses := Pd.rolling_mean period losses in
  let rs := Pd.zip_with XFloat.div avg_gains avg_losses in
  map (fun r => XFloat.sub (Fin 100) (XFloat.div (Fin 100) (XFloat.add (Fin 1) r))) rs.

Definition generate_signal (s : RSIStrategy) (data : DataFrame) (symbol : string)
  (current_position : option Z) : result TradeSignal :=
  if (List.length data <? rsi_period s + 1)%nat then
    Sig.at_last_bar data (fun price ts =>
      mkTradeSignal SIG_HOLD symbol price ts (Fin 1)
                    ("Insufficient data for RSI calculation", []))
  else
    let rsi := calculate_rsi (col_close data) (rsi_period s) in
    current_rsi <- Pd.iloc_last rsi ;;
    current_price <- Pd.iloc_last (col_close data) ;;
    current_time <- Pd.iloc_last (col_timestamp data) ;;
    if XFloat.isnan current_rsi then
      Ok (mkTradeSignal SIG_HOLD symbol current_price current_time (Fin 1)
                        ("RSI calculation returned NaN", []))
    else
      let hold :=
        mkTradeSignal SIG_HOLD symbol current_price current_time (Fin 1)
                      ("RSI neutral: {:.2f}", [current_rsi]) in
      if Sig.flat current_position then
        if XFloat.ltb current_rsi (Fin (rsi_oversold s)) then
          Ok (mkTradeSignal SIG_BUY symbol current_price current_time
                (XFloat.div (XFloat.sub (Fin (rsi_oversold s)) current_rsi)
                            (Fin (rsi_oversold s)))
                ("RSI oversold: {:.2f} < {}", [current_rsi; Fin (rsi_oversold s)]))
        else if XFloat.gtb current_rsi (Fin (rsi_overbought s)) then
          Ok (mkTradeSignal SIG_SELL symbol current_price current_time
                (XFloat.div (XFloat.sub current_rsi (Fin (rsi_overbought s)))
                            (Fin (100 - rsi_overbought s)))
                ("RSI overbought: {:.2f} > {}", [current_rsi; Fin (rsi_overbought s)]))
        else Ok hold
      else
        match current_position with
        | Some z =>
            if (z >? 0)%Z then
              if (XFloat.gtb current_rsi (Fin (rsi_neutral s))
                  || XFloat.gtb current_rsi (Fin (rsi_overbought s)))%bool
              then Ok (mkTradeSignal SIG_CLOSE symbol current_price current_time (Fin 1)
                         ("RSI exit long: {:.2f}", [current_rsi]))
              else Ok hold
            else if (z <? 0)%Z then
              if (XFloat.ltb current_rsi (Fin (rsi_neutral s))
                  || XFloat.ltb current_rsi (Fin (rsi_oversold s)))%bool
              then Ok (mkTradeSignal SIG_CLOSE symbol current_price current_time (Fin 1)
                         ("RSI exit short: {:.2f}", [current_rsi]))
              else Ok hold
            else Ok hold
        | None => Ok hold
        end.

End RSI.

(** ** strategies/ema_strategy.py *)

Record EMAStrategy : Type := mkEMA {
  ema_short_period : nat;
  ema_long_period : nat
}.

Module EMA.

Local Open Scope string_scope.

Definition calculate_ema (prices : list Q) (period : nat) : result Pd.Series :=
  Pd.ewm_mean period prices.

Definition generate_signal (s : EMAStrategy) (data : DataFrame) (symbol : string)
  (current_position : option Z) : result TradeSignal :=
  if (List.length data <? ema_long_period s + 1)%nat then
    Sig.at_last_bar data (fun price ts =>
      mkTradeSignal SIG_HOLD symbol price ts (Fin 1)
                    ("Insufficient data for EMA calculation", []))
  else
    short_ema <- calculate_ema (col_close data) (ema_short_period s) ;;
    long_ema <- calculate_ema (col_close data) (ema_long_period s) ;;
    current_short <- Pd.iloc_last short_ema ;;
    current_long <- Pd.iloc_last long_ema ;;
    prev_short <- Pd.iloc_last2 short_ema ;;
    prev_long <- Pd.iloc_last2 long_ema ;;
    current_price <- Pd.iloc_last (col_close data) ;;
    current_time <- Pd.iloc_last (col_timestamp data) ;;
    if (XFloat.isnan current_short || XFloat.isnan current_long)%bool then
      Ok (mkTradeSignal SIG_HOLD symbol current_price current_time (Fin 1)
                        ("EMA calculation returned NaN", []))
    else
      let bullish_crossover :=
        (XFloat.leb prev_short prev_long && XFloat.gtb current_short current_long)%bool in
      let bearish_crossover :=
        (XFloat.geb prev_short prev_long && XFloat.ltb current_short current_long)%bool in
      let bullish_trend := XFloat.gtb current_short current_long in
      let separation :=
        XFloat.div (XFloat.abs (XFloat.sub current_short current_long)) current_long in
      let scaled := XFloat.pymin (XFloat.mul separation (Fin 10)) (Fin 1) in
      let hold :=
        mkTradeSignal SIG_HOLD symbol current_price current_time (Fin 1)
          (if bullish_trend
           then ("No crossover, trend: bullish (sep: {:.4f})", [separation])
           else ("No crossover, trend: bearish (sep: {:.4f})", [separation])) in
      if Sig.flat current_position then
        if bullish_crossover then
          Ok (mkTradeSignal SIG_BUY symbol current_price current_time scaled
                ("Bullish EMA crossover: EMA{} > EMA{}",
                 [XFloat.of_nat (ema_short_period s); XFloat.of_nat (ema_long_period s)]))
        else if bearish_crossover then
          Ok (mkTradeSignal SIG_SELL symbol current_price current_time scaled
                ("Bearish EMA crossover: EMA{} < EMA{}",
                 [XFloat.of_nat (ema_short_period s); XFloat.of_nat (ema_long_period s)]))
        else Ok hold
      else
        match current_position with
        | Some z =>
            if (z >? 0)%Z then
              if bearish_crossover
              then Ok (mkTradeSignal SIG_CLOSE symbol current_price current_time (Fin 1)
                         ("Exit long: Bearish EMA crossover", []))
              else Ok hold
            else if (z <? 0)%Z then
              if bullish_crossover
              then Ok (mkTradeSignal SIG_CLOSE symbol current_price current_time (Fin 1)
                         ("Exit short: Bullish EMA crossover", []))
              else Ok hold
            else Ok hold
        | None => Ok hold
        end.

End EMA.

(** ** strategies/ma_crossover.py *)

Record MACrossoverStrategy : Type := mkMA {
  ma_short_period : nat;
  ma_long_period : nat
}.

Module MA.

Local Open Scope string_scope.

Definition calculate_ma (prices : list Q) (period : nat) : Pd.Series :=
  Pd.rolling_mean period (map Fin prices).

Definition generate_signal (s : MACrossoverStrategy) (data : DataFrame)
  (symbol : string) (current_position : option Z) : result TradeSignal :=
  if (List.length data <? ma_long_period s + 1)%nat then
    Sig.at_last_bar data (fun price ts =>
      mkTradeSignal SIG_HOLD symbol price ts (Fin 1)
                    ("Insufficient data for MA calculation", []))
  else
    let short_ma := calculate_ma (col_close data) (ma_short_period s) in
    let long_ma := calculate_ma (col_close data) (ma_long_period s) in
    current_short <- Pd.iloc_last short_ma ;;
    current_long <- Pd.iloc_last long_ma ;;
    prev_short <- Pd.iloc_last2 short_ma ;;
    prev_long <- Pd.iloc_last2 long_ma ;;
    current_price <- Pd.iloc_last (col_close data) ;;
    current_time <- Pd.iloc_last (col_timestamp data) ;;
    if (XFloat.isnan current_short || XFloat.isnan current_long)%bool then
      Ok (mkTradeSignal SIG_HOLD symbol current_price current_time (Fin 1)
                        ("MA calculation returned NaN", []))
    else
      let golden_cross :=
        (XFloat.leb prev_short prev_long && XFloat.gtb current_short current_long)%bool in
      let death_cross :=
        (XFloat.geb prev_short prev_long && XFloat.ltb current_short current_long)%bool in
      let bullish_trend := XFloat.gtb current_short current_long in
      let separation :=
        XFloat.div (XFloat.abs (XFloat.sub current_short current_long)) current_long in
      let hold :=
        mkTradeSignal SIG_HOLD symbol current_price current_time (Fin 1)
          (if bullish_trend
           then ("No crossover, trend: bullish", [])
           else ("No crossover, trend: bearish", [])) in
      if Sig.flat current_position then
        if golden_cross then
          Ok (mkTradeSignal SIG_BUY symbol current_price current_time separation
                ("Golden cross: MA{} crossed above MA{}",
                 [XFloat.of_nat (ma_short_period s); XFloat.of_nat (ma_long_period s)]))
        else if death_cross then
          Ok (mkTradeSignal SIG_SELL symbol current_price current_time separation
                ("Death cross: MA{} crossed below MA{}",
                 [XFloat.of_nat (ma_short_period s); XFloat.of_nat (ma_long_period s)]))
        else Ok hold
      else
        match current_position with
        | Some z =>
            if (z >? 0)%Z then
              if death_cross
              then Ok (mkTradeSignal SIG_CLOSE symbol current_price current_time (Fin 1)
                         ("Exit long: Death cross detected", []))
              else Ok hold
            else if (z <? 0)%Z then
              if golden_cross
              then Ok (mkTradeSignal SIG_CLOSE symbol current_price current_time (Fin 1)
                         ("Exit short: Golden cross detected", []))
              else Ok hold
            else Ok hold
        | None => Ok hold
        end.

End MA.


(** ** strategies/combined_strategy.py *)

Record CombinedStrategy : Type := mkCombined {
  comb_rsi : RSIStrategy;
  comb_ema : EMAStrategy;
  confirmation_threshold : Z
}.

Module Combined.

Local Open Scope string_scope.

(** [CombinedStrategy.__init__] *)
Definition init (rsi_period : nat) (rsi_oversold rsi_overbought : Q)
  (ema_short ema_long : nat) (threshold : Z) : CombinedStrategy :=
  mkCombined (mkRSI rsi_period rsi_oversold rsi_overbought 50)
             (mkEMA ema_short ema_long) threshold.

(** [prefix + ", ".join(reasons)] *)
Definition join_reasons (prefix : Reason) (reasons : list Reason) : Reason :=
  (fst prefix ++ String.concat ", " (map fst reasons),
   (snd prefix ++ List.concat (map snd reasons))%list).

Definition generate_signal (s : CombinedStrategy) (data : DataFrame)
  (symbol : string) (current_position : option Z) : result TradeSignal :=
  if (List.length data
      <? Nat.max (rsi_period (comb_rsi s)) (ema_long_period (comb_ema s)) + 1)%nat then
    Sig.at_last_bar data (fun price ts =>
      mkTradeSignal SIG_HOLD symbol price ts (Fin 1)
                    ("Insufficient data for combined strategy", []))
  else
    rsi_signal <- RSI.generate_signal (comb_rsi s) data symbol current_position ;;
    ema_signal <- EMA.generate_signal (comb_ema s) data symbol current_position ;;
    current_price <- Pd.iloc_last (col_close data) ;;
    current_time <- Pd.iloc_last (col_timestamp data) ;;
    let rsi_values := RSI.calculate_rsi (col_close data) (rsi_period (comb_rsi s)) in
    current_rsi <- Pd.iloc_last rsi_values ;;
    short_ema <- EMA.calculate_ema (col_close data) (ema_short_period (comb_ema s)) ;;
    long_ema <- EMA.calculate_ema (col_close data) (ema_long_period (comb_ema s)) ;;
    current_short_ema <- Pd.iloc_last short_ema ;;
    current_long_ema <- Pd.iloc_last long_ema ;;
    if (XFloat.isnan current_rsi || XFloat.isnan current_short_ema
        || XFloat.isnan current_long_ema)%bool then
      Ok (mkTradeSignal SIG_HOLD symbol current_price current_time (Fin 1)
                        ("Indicator calculation returned NaN", []))
    else
      let bullish_trend := XFloat.gtb current_short_ema current_long_ema in
      let bearish_trend := XFloat.ltb current_short_ema current_long_ema in
      (* votes: (bullish, bearish, reasons) *)
      let v0 : Z * Z * list Reason := (0%Z, 0%Z, []) in
      let v1 :=
        match v0 with
        | (bull, bear, rs) =>
            if Sig.eqb (signal rsi_signal) SIG_BUY
            then ((bull + 1)%Z, bear, (rs ++ [("RSI oversold ({:.1f})", [current_rsi])])%list)
            else if Sig.eqb (signal rsi_signal) SIG_SELL
            then (bull, (bear + 1)%Z,
                  (rs ++ [("RSI overbought ({:.1f})", [current_rsi])])%list)
            else (bull, bear, rs)
        end in
      let v2 :=
        match v1 with
        | (bull, bear, rs) =>
            if bullish_trend
            then ((bull + 1)%Z, bear, (rs ++ [("EMA bullish trend", [])])%list)
            else if bearish_trend
            then (bull, (bear + 1)%Z, (rs ++ [("EMA bearish trend", [])])%list)
            else (bull, bear, rs)
        end in
      let v3 :=
        match v2 with
        | (bull, bear, rs) =>
            if Sig.eqb (signal ema_signal) SIG_BUY
            then ((bull + 1)%Z, bear, (rs ++ [("EMA bullish crossover", [])])%list)
            else if Sig.eqb (signal ema_signal) SIG_SELL
            then (bull, (bear + 1)%Z, (rs ++ [("EMA bearish crossover", [])])%list)
            else (bull, bear, rs)
        end in
      match v3 with
      | (bullish_votes, bearish_votes, reasons) =>
          let votes (n : Z) : XFloat.t := Fin (inject_Z n) in
          let hold :=
            mkTradeSignal SIG_HOLD symbol current_price current_time (Fin 1)
              ("Insufficient confirmation (bull:{}, bear:{})",
               [votes bullish_votes; votes bearish_votes]) in
          if Sig.flat current_position then
            if (bullish_votes >=? confirmation_threshold s)%Z then
              Ok (mkTradeSignal SIG_BUY symbol current_price current_time
                    (Fin (inject_Z bullish_votes / 3))
                    (join_reasons ("Buy confirmed by {}/3 indicators: ",
                                   [votes bullish_votes]) reasons))
            else if (bearish_votes >=? confirmation_threshold s)%Z then
              Ok (mkTradeSignal SIG_SELL symbol current_price current_time
                    (Fin (inject_Z bearish_votes / 3))
                    (join_reasons ("Sell confirmed by {}/3 indicators: ",
                                   [votes bearish_votes]) reasons))
            else Ok hold
          else
            match current_position with
            | Some z =>
                if (z >? 0)%Z then
                  if ((bearish_votes >=? 2)%Z
                      || Sig.eqb (signal rsi_signal) SIG_CLOSE)%bool
                  then Ok (mkTradeSignal SIG_CLOSE symbol current_price current_time
                             (Fin 1)
                             ("Exit long: {} bearish signals", [votes bearish_votes]))
                  else Ok hold
                else if (z <? 0)%Z then
                  if ((bullish_votes >=? 2)%Z
                      || Sig.eqb (signal rsi_signal) SIG_CLOSE)%bool
                  then Ok (mkTradeSignal SIG_CLOSE symbol current_price current_time
                             (Fin 1)
                             ("Exit short: {} bullish signals", [votes bullish_votes]))
                  else Ok hold
                else Ok hold
            | None => Ok hold
            end
      end.

End Combined.

(** ** strategies/stochastic_strategy.py *)

Record StochasticStrategy : Type := mkStochastic {
  k_period : nat;
  d_period : nat;
  sto_oversold : Q;
  sto_overbought : Q
}.

Module Stochastic.

Local Open Scope string_scope.

(** One turn of the loop that fills [k_values]: the window starting at [i]. *)
Definition k_value (k_period : nat) (highs lows closes : list Q) (i : nat)
  : result Q :=
  let window_high := Pd.window i k_period highs in
  let window_low := Pd.window i k_period lows in
  close_price <- Pd.index closes (Z.of_nat i + Z.of_nat k_period - 1)%Z ;;
  highest <- Pd.np_max window_high ;;
  lowest <- Pd.np_min window_low ;;
  if Qeq_bool highest lowest then Ok 50
  else Ok (100 * (close_price - lowest) / (highest - lowest)).

Definition k_values (k_period : nat) (data : DataFrame) : result (list Q) :=
  Pd.for_each (k_value k_period (col_high data) (col_low data) (col_close data))
              (seq 0 (List.length data + 1 - k_period)).

Definition generate_signal (s : StochasticStrategy) (data : DataFrame)
  (symbol : string) (current_position : option Z) : result TradeSignal :=
  if (List.length data <? k_period s + d_period s)%nat then
    Sig.at_last_bar data (fun price ts =>
      mkTradeSignal SIG_HOLD symbol price ts (Fin 0) ("Insufficient data", []))
  else
    ks <- k_values (k_period s) data ;;
    if (List.length ks <? d_period s)%nat then
      Sig.at_last_bar data (fun price ts =>
        mkTradeSignal SIG_HOLD symbol price ts (Fin 0) ("Insufficient K values", []))
    else
      let d_values := Pd.rolling_mean (d_period s) (map Fin ks) in
      current_k <- Pd.iloc_last ks ;;
      current_d <- Pd.iloc_last d_values ;;
      prev_k <- (if (1 <? List.length ks)%nat then Pd.iloc_last2 ks else Ok current_k) ;;
      prev_d <- (if (1 <? List.length d_values)%nat then Pd.iloc_last2 d_values
                 else Ok current_d) ;;
      if (XFloat.isnan current_d || XFloat.isnan prev_d)%bool then
        Sig.at_last_bar data (fun price ts =>
          mkTradeSignal SIG_HOLD symbol price ts (Fin 0) ("Invalid D values", []))
      else
        current_price <- Pd.iloc_last (col_close data) ;;
        ts <- Pd.iloc_last (col_timestamp data) ;;
        let k := Fin current_k in
        let pk := Fin prev_k in
        let hold :=
          mkTradeSignal SIG_HOLD symbol current_price ts (Fin 0)
            ("Stochastic neutral: K={:.1f}, D={:.1f}", [k; current_d]) in
        match current_position with
        | None => Raise TypeError
        | Some z =>
            if (z =? 0)%Z then
              if (XFloat.ltb k (Fin (sto_oversold s)) && XFloat.ltb pk prev_d
                  && XFloat.gtb k current_d)%bool then
                Ok (mkTradeSignal SIG_BUY symbol current_price ts (Fin 1)
                      ("Stochastic oversold crossover: K={:.1f}, D={:.1f}",
                       [k; current_d]))
              else if (XFloat.gtb k (Fin (sto_overbought s)) && XFloat.gtb pk prev_d
                       && XFloat.ltb k current_d)%bool then
                Ok (mkTradeSignal SIG_SELL symbol current_price ts (Fin 1)
                      ("Stochastic overbought crossover: K={:.1f}, D={:.1f}",
                       [k; current_d]))
              else Ok hold
            else if (z >? 0)%Z then
              if (XFloat.gtb k (Fin 60)
                  || (XFloat.ltb k current_d && XFloat.gtb k (Fin (sto_oversold s))))%bool
              then Ok (mkTradeSignal SIG_CLOSE symbol current_price ts (Fin 1)
                         ("Exit long: K={:.1f}, D={:.1f}", [k; current_d]))
              else Ok hold
            else if (z <? 0)%Z then
              if (XFloat.ltb k (Fin 40)
                  || (XFloat.gtb k current_d && XFloat.ltb k (Fin (sto_overbought s))))%bool
              then Ok (mkTradeSignal SIG_CLOSE symbol current_price ts (Fin 1)
                         ("Exit short: K={:.1f}, D={:.1f}", [k; current_d]))
              else Ok hold
            else Ok hold
        end.

End Stochastic.


(** ** analysis/market_regime.py *)

(** The numpy routines whose results are not rational functions of their
    inputs: the slope of [np.polyfit(range(len(y)), y, 1)], [np.std] and
    [np.sqrt].  The analyzer is stated over any implementation of them. *)
Record Numpy : Type := mkNumpy {
  np_polyfit_slope : list Q -> XFloat.t;
  np_std : Pd.Series -> XFloat.t;
  np_sqrt : Q -> XFloat.t
}.

Inductive MarketRegime : Type := UPTREND | DOWNTREND | SIDEWAYS.

Inductive VolumeProfile : Type := VOL_HIGH | VOL_LOW | VOL_NEUTRAL.

Record MarketConditions : Type := mkConditions {
  cond_trend : MarketRegime;
  cond_volatility : XFloat.t;
  cond_adx : XFloat.t;
  cond_volume : VolumeProfile;
  cond_trending : bool;
  cond_sideways : bool
}.

Record MarketRegimeAnalyzer : Type := mkAnalyzer {
  lookback_period : nat
}.

Module Regime.

Definition regime_eqb (a b : MarketRegime) : bool :=
  match a, b with
  | UPTREND, UPTREND | DOWNTREND, DOWNTREND | SIDEWAYS, SIDEWAYS => true
  | _, _ => false
  end.

Definition detect_trend (np : Numpy) (a : MarketRegimeAnalyzer) (prices : list Q)
  : MarketRegime :=
  if (List.length prices <? lookback_period a)%nat then SIDEWAYS
  else
    let recent := Pd.tail_slice (lookback_period a) prices in
    let slope := np_polyfit_slope np recent in
    let std := np_std np (map Fin recent) in
    let threshold := XFloat.mul std (Fin (1 # 10)) in
    if XFloat.gtb slope threshold then UPTREND
    else if XFloat.ltb slope (XFloat.neg threshold) then DOWNTREND
    else SIDEWAYS.

(** [np.diff(prices)]: the successive differences, one fewer than the prices. *)
Definition np_diff (prices : list Q) : list Q :=
  Pd.zip_with (fun next prev => next - prev) (tl prices) (removelast prices).

Definition calculate_volatility (np : Numpy) (prices : list Q) : XFloat.t :=
  if (List.length prices <? 2)%nat then Fin 0
  else
    let returns :=
      Pd.zip_with (fun d p => XFloat.div (Fin d) (Fin p))
                  (np_diff prices) (removelast prices) in
    XFloat.mul (XFloat.mul (np_std np returns) (np_sqrt np 252)) (Fin 100).

(** [np.maximum(a, b)] on two numbers. *)
Definition maximum (a b : Q) : Q := if Py.ltb a b then b else a.

Definition np_mean (l : list Q) : XFloat.t := Pd.mean (map Fin l).

Definition calculate_adx (high low close : list Q) (period : nat) : XFloat.t :=
  if (List.length high <? period + 1)%nat then Fin 0
  else
    let high := Pd.tail_slice (period + 1) high in
    let low := Pd.tail_slice (period + 1) low in
    let close := Pd.tail_slice (period + 1) close in
    let plus_dm :=
      Pd.zip_with (fun h1 h0 => maximum (h1 - h0) 0) (tl high) (removelast high) in
    let minus_dm :=
      Pd.zip_with (fun l0 l1 => maximum (l0 - l1) 0) (removelast low) (tl low) in
    let tr :=
      Pd.zip_with
        (fun hl c0 =>
           maximum (fst hl - snd hl)
                   (maximum (Qabs (fst hl - c0)) (Qabs (snd hl - c0))))
        (combine (tl high) (tl low)) (removelast close) in
    let atr := np_mean tr in
    if XFloat.eqb atr (Fin 0) then Fin 0
    else
      let plus_di := XFloat.div (XFloat.mul (Fin 100) (np_mean plus_dm)) atr in
      let minus_di := XFloat.div (XFloat.mul (Fin 100) (np_mean minus_dm)) atr in
      XFloat.div
        (XFloat.mul (Fin 100) (XFloat.abs (XFloat.sub plus_di minus_di)))
        (XFloat.add (XFloat.add plus_di minus_di) (Fin (1 # 10000000000))).

Definition analyze_volume (volumes : list Q) : VolumeProfile :=
  if (List.length volumes <? 20)%nat then VOL_NEUTRAL
  else
    let recent := Pd.tail_slice 20 volumes in
    let avg := np_mean recent in
    let recent_avg := np_mean (Pd.tail_slice 5 recent) in
    if XFloat.gtb recent_avg (XFloat.mul avg (Fin (12 # 10))) then VOL_HIGH
    else if XFloat.ltb recent_avg (XFloat.mul avg (Fin (8 # 10))) then VOL_LOW
    else VOL_NEUTRAL.

Definition get_market_conditions (np : Numpy) (a : MarketRegimeAnalyzer)
  (data : DataFrame) : MarketConditions :=
  let prices := col_close data in
  let highs := col_high data in
  let lows := col_low data in
  let volumes := col_volume data in
  let trend := detect_trend np a prices in
  let volatility := calculate_volatility np prices in
  let adx := calculate_adx highs lows prices 14 in
  let volume_profile := analyze_volume volumes in
  mkConditions trend volatility adx volume_profile
               (XFloat.gtb adx (Fin 25)) (XFloat.ltb adx (Fin 20)).

End Regime.

(** ** strategies/adaptive_selector.py *)

(** A strategy object; the call [strategy.generate_signal] dispatches on its
    class. *)
Inductive Strategy : Type :=
| StratRSI (s : RSIStrategy)
| StratMA (s : MACrossoverStrategy)
| StratEMA (s : EMAStrategy)
| StratCombined (s : CombinedStrategy)
| StratStochastic (s : StochasticStrategy).

Record AdaptiveStrategySelector : Type := mkSelector {
  regime_analyzer : MarketRegimeAnalyzer;
  current_strategy : option Strategy;
  current_market_conditions : option MarketConditions
}.

Module Strat.

Definition generate_signal (s : Strategy) (data : DataFrame) (symbol : string)
  (current_position : option Z) : result TradeSignal :=
  match s with
  | StratRSI r => RSI.generate_signal r data symbol current_position
  | StratMA m => MA.generate_signal m data symbol current_position
  | StratEMA e => EMA.generate_signal e data symbol current_position
  | StratCombined c => Combined.generate_signal c data symbol current_position
  | StratStochastic k => Stochastic.generate_signal k data symbol current_position
  end.

(** The history length below which the strategy answers "insufficient data". *)
Definition minimum_length (s : Strategy) : nat :=
  match s with
  | StratRSI r => rsi_period r + 1
  | StratMA m => ma_long_period m + 1
  | StratEMA e => ema_long_period e + 1
  | StratCombined c =>
      Nat.max (rsi_period (comb_rsi c)) (ema_long_period (comb_ema c)) + 1
  | StratStochastic k => k_period k + d_period k
  end.

Definition is_stochastic (s : Strategy) : bool :=
  match s with StratStochastic _ => true | _ => false end.

End Strat.

Module Adaptive.

Local Open Scope string_scope.

(** [AdaptiveStrategySelector.__init__] *)
Definition init : AdaptiveStrategySelector :=
  mkSelector (mkAnalyzer 60) None None.

Definition trend_name (t : MarketRegime) : string :=
  match t with
  | UPTREND => "UPTREND"
  | DOWNTREND => "DOWNTREND"
  | SIDEWAYS => "SIDEWAYS"
  end.

(** [select_strategy]: the returned triple and the selector with
    [current_strategy] set. *)
Definition select_strategy (np : Numpy) (sel : AdaptiveStrategySelector)
  (market_data : DataFrame)
  : (Strategy * Reason * MarketConditions) * AdaptiveStrategySelector :=
  let conditions := Regime.get_market_conditions np (regime_analyzer sel) market_data in
  let trend := cond_trend conditions in
  let volatility := cond_volatility conditions in
  let adx := cond_adx conditions in
  let choice : Strategy * Reason :=
    if (cond_sideways conditions || XFloat.ltb adx (Fin 20))%bool then
      (StratStochastic (mkStochastic 14 3 20 80),
       ("Sideways market (ADX={:.1f})", [adx]))
    else if (Regime.regime_eqb trend UPTREND && XFloat.ltb volatility (Fin 20))%bool then
      (StratEMA (mkEMA 12 26),
       ("Uptrend with low volatility (Vol={:.1f}%)", [volatility]))
    else if (Regime.regime_eqb trend DOWNTREND && XFloat.ltb volatility (Fin 20))%bool then
      (StratEMA (mkEMA 12 26),
       ("Downtrend with low volatility (Vol={:.1f}%)", [volatility]))
    else if XFloat.gtb volatility (Fin 30) then
      (StratRSI (mkRSI 14 30 70 50),
       ("High volatility (Vol={:.1f}%)", [volatility]))
    else
      (StratCombined (Combined.init 14 30 70 12 26 2),
       ("Mixed conditions (Trend=" ++ trend_name trend ++ ", Vol={:.1f}%)",
        [volatility])) in
  ((fst choice, snd choice, conditions),
   mkSelector (regime_analyzer sel) (Some (fst choice))
              (current_market_conditions sel)).

(** [generate_signal]: what the call returns or raises, and the selector as
    the call leaves it. *)
Definition generate_signal (np : Numpy) (sel : AdaptiveStrategySelector)
  (data : DataFrame) (symbol : string) (current_position : option Z)
  : result TradeSignal * AdaptiveStrategySelector :=
  let sel1 :=
    match current_strategy sel with
    | None => snd (select_strategy np sel data)
    | Some _ => sel
    end in
  match current_strategy sel1 with
  | Some strategy => (Strat.generate_signal strategy data symbol current_position, sel1)
  | None => (Raise AttributeError, sel1)
  end.

End Adaptive.


(** ** Quantities the statements below refer to *)

Module Terms.

(** The local [total_cost] of [execute_market_order]: trade value plus
    commission at the slipped price. *)
Definition total_cost (st : ExecutionEngine) (o : Order) (current_price : Q) : Q :=
  let execution_price := Engine.apply_slippage st current_price (side o) in
  let trade_value := absz (quantity o) * execution_price in
  let commission := Engine.calculate_commission st (quantity o) execution_price in
  trade_value + commission.

(** The order's required margin, [total_cost / self.max_leverage]. *)
Definition required_margin (st : ExecutionEngine) (o : Order) (current_price : Q)
  : result Q :=
  truediv (total_cost st o current_price) (max_leverage st).

(** The sum of the unrealized P&L of the open positions, each valued at its
    current price (its entry price when the mapping has none). *)
Definition sum_unrealized (items : dict Position) (current_prices : dict Q) : Q :=
  fold_right
    (fun item acc =>
       PositionM.calculate_unrealized_pnl (snd item)
         (Engine.price_for current_prices (fst item) (snd item)) + acc)
    0 items.

(** The position that a fill closes completely (a full close, or the closing
    leg of a reversal): the position held in the order's symbol when the fill
    has the opposite sign and at least its size. *)
Definition closed_by (st : ExecutionEngine) (o : Order) : option Position :=
  match dict_get (positions st) (symbol o) with
  | Some p =>
      if Engine.opposite_sign (pos_quantity p) (Engine.signed_quantity o)
         && (Z.abs (Engine.signed_quantity o) >=? Z.abs (pos_quantity p))%Z
      then Some p else None
  | None => None
  end.

(** A fill that only reduces the position held: opposite sign, smaller size. *)
Definition partially_closes (st : ExecutionEngine) (o : Order) : bool :=
  match dict_get (positions st) (symbol o) with
  | Some p =>
      Engine.opposite_sign (pos_quantity p) (Engine.signed_quantity o)
      && (Z.abs (Engine.signed_quantity o) <? Z.abs (pos_quantity p))%Z
  | None => false
  end.

(** The factor with which a fill's commission reaches cash: 1 when the fill
    closes or reduces a position, [1 / max_leverage] when it opens or adds. *)
Definition commission_weight (st : ExecutionEngine) (o : Order) : Q :=
  match dict_get (positions st) (symbol o) with
  | Some p =>
      if Engine.opposite_sign (pos_quantity p) (Engine.signed_quantity o)
      then 1 else 1 / max_leverage st
  | None => 1 / max_leverage st
  end.

(** The adaptive selector as the specification words it: every call re-runs
    the regime analysis on the bar history it is given and routes to the
    strategy chosen for that call. *)
Definition generate_signal_reselecting (np : Numpy) (sel : AdaptiveStrategySelector)
  (data : DataFrame) (symbol : string) (current_position : option Z)
  : result TradeSignal * AdaptiveStrategySelector :=
  let r := Adaptive.select_strategy np sel data in
  (Strat.generate_signal (fst (fst (fst r))) data symbol current_position, snd r).

(** The indicator values on the last bar that a strategy tests for [nan],
    read the way its [generate_signal] reads them once the history is long
    enough: the RSI; the short and long moving averages; for Combined the RSI
    and both EMAs, after its two sub-strategies have answered; for Stochastic
    the current and previous %D. *)
Definition last_indicators (s : Strategy) (data : DataFrame) (symbol : string)
  (current_position : option Z) : result (list XFloat.t) :=
  match s with
  | StratRSI r =>
      current_rsi <-
        Pd.iloc_last (RSI.calculate_rsi (col_close data) (rsi_period r)) ;;
      Ok [current_rsi]
  | StratMA m =>
      let short_ma := MA.calculate_ma (col_close data) (ma_short_period m) in
      let long_ma := MA.calculate_ma (col_close data) (ma_long_period m) in
      current_short <- Pd.iloc_last short_ma ;;
      current_long <- Pd.iloc_last long_ma ;;
      prev_short <- Pd.iloc_last2 short_ma ;;
      prev_long <- Pd.iloc_last2 long_ma ;;
      Ok [current_short; current_long]
  | StratEMA e =>
      short_ema <- EMA.calculate_ema (col_close data) (ema_short_period e) ;;
      long_ema <- EMA.calculate_ema (col_close data) (ema_long_period e) ;;
      current_short <- Pd.iloc_last short_ema ;;
      current_long <- Pd.iloc_last long_ema ;;
      prev_short <- Pd.iloc_last2 short_ema ;;
      prev_long <- Pd.iloc_last2 long_ema ;;
      Ok [current_short; current_long]
  | StratCombined c =>
      rsi_signal <- RSI.generate_signal (comb_rsi c) data symbol current_position ;;
      ema_signal <- EMA.generate_signal (comb_ema c) data symbol current_position ;;
      current_rsi <-
        Pd.iloc_last (RSI.calculate_rsi (col_close data) (rsi_period (comb_rsi c))) ;;
      short_ema <- EMA.calculate_ema (col_close data) (ema_short_period (comb_ema c)) ;;
      long_ema <- EMA.calculate_ema (col_close data) (ema_long_period (comb_ema c)) ;;
      current_short_ema <- Pd.iloc_last short_ema ;;
      current_long_ema <- Pd.iloc_last long_ema ;;
      Ok [current_rsi; current_short_ema; current_long_ema]
  | StratStochastic k =>
      ks <- Stochastic.k_values (k_period k) data ;;
      let d_values := Pd.rolling_mean (d_period k) (map Fin ks) in
      current_k <- Pd.iloc_last ks ;;
      current_d <- Pd.iloc_last d_values ;;
      prev_k <- (if (1 <? List.length ks)%nat then Pd.iloc_last2 ks else Ok current_k) ;;
      prev_d <- (if (1 <? List.length d_values)%nat then Pd.iloc_last2 d_values
                 else Ok current_d) ;;
      Ok [current_d; prev_d]
  end.

(** The reasons the strategies give when they hold for want of data or of a
    defined indicator value. *)
Definition explanatory_reasons : list Reason :=
  [ ("Insufficient data for RSI calculation", []);
    ("Insufficient data for MA calculation", []);
    ("Insufficient data for EMA calculation", []);
    ("Insufficient data for combined strategy", []);
    ("Insufficient data", []);
    ("Insufficient K values", []);
    ("RSI calculation returned NaN", []);
    ("MA calculation returned NaN", []);
    ("EMA calculation returned NaN", []);
    ("Indicator calculation returned NaN", []);
    ("Invalid D values", []) ]%string.

(** A HOLD signal that carries one of those reasons. *)
Definition holds_with_reason (r : result TradeSignal) : Prop :=
  exists sg, r = Ok sg /\ signal sg = SIG_HOLD /\ In (reason sg) explanatory_reasons.

End Terms.

(** ** The round trip of the specification: buy 10 at 100, sell 10 at 110 *)

Module Scenario.

Local Open Scope string_scope.

Definition start : ExecutionEngine := Engine.init 10000 1 0 0.

Definition buy_order : Order :=
  mkOrder "ACME" BUY 10 MARKET 0%Z None PENDING None None "0_ACME_BUY".

Definition sell_order : Order :=
  mkOrder "ACME" SELL 10 MARKET 1%Z None PENDING None None "1_ACME_SELL".

Definition prices_at (p : Q) : dict Q := [("ACME", p)].

(** The engine after the BUY at 100. *)
Definition after_buy : result (bool * Order * ExecutionEngine) :=
  Engine.execute_market_order start buy_order 100 (prices_at 100) 0%Z.

(** The engine after the BUY at 100 and then the SELL at 110. *)
Definition after_sell : result (bool * Order * ExecutionEngine) :=
  r <- after_buy ;;
  Engine.execute_market_order (snd r) sell_order 110 (prices_at 110) 1%Z.

(** A SELL of 1000 units at 100 against the untouched 10,000 account. *)
Definition big_sell : Order :=
  mkOrder "ACME" SELL 1000 MARKET 0%Z None PENDING None None "0_ACME_SELL".

(** A long position of 10 units entered at 100, then a SELL of 4 at 110. *)
Definition holding : ExecutionEngine :=
  Engine.set_positions (Engine.set_cash start 9000)
    [("ACME", mkPosition "ACME" 10 100 0%Z 1)].

Definition partial_sell : Order :=
  mkOrder "ACME" SELL 4 MARKET 1%Z None PENDING None None "1_ACME_SELL".

(** A SELL of 15 against the long position of 10, stamped at 110. *)
Definition reversal_sell : Order :=
  OrderM.fill (mkOrder "ACME" SELL 15 MARKET 1%Z None PENDING None None "1_ACME_SELL")
              110 1%Z.

(** A bar as the simulation driver builds it from one price tick. *)
Definition tick (i : nat) (price : Q) : Bar :=
  mkBar (Z.of_nat i) price (price * (1001 # 1000)) (price * (999 # 1000)) price 1000.

(** One bar at 100: too short a history for any regime metric. *)
Definition one_bar : DataFrame := [tick 0 100].

(** Fifteen bars rising by 1 from 100. *)
Definition rising : DataFrame :=
  map (fun i => tick i (100 + inject_Z (Z.of_nat i))) (seq 0 15).

(** Three bars ranging from 90 to 100, then fourteen bars flat at 100: the
    last window of 14 has equal high and low. *)
Definition flat_tail : DataFrame :=
  (map (fun i => mkBar (Z.of_nat i) 95 100 90 95 1000) (seq 0 3)
   ++ map (fun i => mkBar (Z.of_nat i) 100 100 100 100 1000) (seq 3 14))%list.

(** Fifteen bars flat at 100. *)
Definition flat : DataFrame :=
  map (fun i => mkBar (Z.of_nat i) 100 100 100 100 1000) (seq 0 15).

End Scenario.

(** ** Books, runs and observations the further statements refer to *)

Module Book.

(** The symbols under which the book holds a position, in the book's order. *)
Definition symbols (d : dict Position) : list string := map fst d.

(** At most one position per symbol, each stored under its own symbol. *)
Definition one_per_symbol (st : ExecutionEngine) : Prop :=
  NoDup (symbols (positions st))
  /\ Forall (fun kp => pos_symbol (snd kp) = fst kp) (positions st).

(** No stored position has quantity zero. *)
Definition no_empty_position (st : ExecutionEngine) : Prop :=
  Forall (fun kp => pos_quantity (snd kp) <> 0%Z) (positions st).

(** Every stored position carries the engine's leverage. *)
Definition engine_leverage (st : ExecutionEngine) : Prop :=
  Forall (fun kp => leverage (snd kp) = max_leverage st) (positions st).

(** One call of [execute_market_order]: the order, the symbol's current
    price, the price mapping and the time stamp. *)
Definition call : Type := (Order * Q * dict Q * datetime)%type.

(** The engine after a sequence of [execute_market_order] calls, rejected
    orders included; an exception ends the run. *)
Fixpoint run (st : ExecutionEngine) (calls : list call) : result ExecutionEngine :=
  match calls with
  | [] => Ok st
  | (o, price, prices, ts) :: rest =>
      r <- Engine.execute_market_order st o price prices ts ;;
      run (snd r) rest
  end.

(** The signed quantities of the calls of a run that were filled for a
    symbol, added up along the run. *)
Fixpoint net_filled (st : ExecutionEngine) (calls : list call) (sym : string) : Z :=
  match calls with
  | [] => 0%Z
  | (o, price, prices, ts) :: rest =>
      match Engine.execute_market_order st o price prices ts with
      | Ok (filled, _, st') =>
          ((if (filled && String.eqb sym (symbol o))%bool
            then Engine.signed_quantity o else 0)
           + net_filled st' rest sym)%Z
      | Raise _ => 0%Z
      end
  end.

(** The P&L of the part of a position that a fill of signed quantity [q]
    closes, at the fill price: the part has quantity [- q]. *)
Definition closed_part_pnl (p : Position) (q : Z) (fill : Q) : Q :=
  (fill - entry_price p) * inject_Z (- q).

End Book.

(** ** portfolio/risk_tracker.py, the other methods *)

Module Tracker.

(** The tracker holds the engine itself, not a copy: [at_engine rt e] is the
    tracker when the engine has reached the state [e]. *)
Definition at_engine (rt : RiskTracker) (e : ExecutionEngine) : RiskTracker :=
  mkRiskTracker e (peak_equity rt) (equity_history rt).

Definition get_margin_used (rt : RiskTracker) (current_prices : dict Q) : result Q :=
  Engine.margin_used_loop (positions (engine rt)) current_prices 0.

Definition get_available_margin (rt : RiskTracker) (current_prices : dict Q)
  : result Q :=
  Engine.calculate_available_capital (engine rt) current_prices.

Definition get_margin_utilization (rt : RiskTracker) (current_prices : dict Q)
  : result Q :=
  margin_used <- get_margin_used rt current_prices ;;
  let total_capital := cash (engine rt) * max_leverage (engine rt) in
  if Qeq_bool total_capital 0 then Ok 0
  else Ok (margin_used / total_capital * 100).

(** The loop of [get_total_exposure]. *)
Fixpoint exposure_loop (items : dict Position) (current_prices : dict Q)
  (total_exposure : Q) : Q :=
  match items with
  | [] => total_exposure
  | (symbol, position) :: rest =>
      let current_price := Engine.price_for current_prices symbol position in
      exposure_loop rest current_prices
        (total_exposure + PositionM.get_position_value position current_price)
  end.

Definition get_total_exposure (rt : RiskTracker) (current_prices : dict Q) : Q :=
  exposure_loop (positions (engine rt)) current_prices 0.

(** The loops of [get_exposure_by_asset] and [get_unrealized_pnl_by_asset]:
    [out[symbol] = value(position, current_price)]. *)
Fixpoint by_asset_loop (value : Position -> Q -> Q) (items : dict Position)
  (current_prices : dict Q) (out : dict Q) : dict Q :=
  match items with
  | [] => out
  | (symbol, position) :: rest =>
      let current_price := Engine.price_for current_prices symbol position in
      by_asset_loop value rest current_prices
        (dict_set out symbol (value position current_price))
  end.

Definition get_exposure_by_asset (rt : RiskTracker) (current_prices : dict Q)
  : dict Q :=
  by_asset_loop PositionM.get_position_value (positions (engine rt)) current_prices [].

Definition get_unrealized_pnl (rt : RiskTracker) (current_prices : dict Q) : Q :=
  Engine.get_total_unrealized_pnl (engine rt) current_prices.

Definition get_unrealized_pnl_by_asset (rt : RiskTracker) (current_prices : dict Q)
  : dict Q :=
  by_asset_loop PositionM.calculate_unrealized_pnl (positions (engine rt))
                current_prices [].

Definition get_realized_pnl (rt : RiskTracker) : Q :=
  Engine.get_total_realized_pnl (engine rt).

(** One call of [update_equity_history]: the engine as it stands at the call,
    the time stamp and the prices. *)
Definition observation : Type := (ExecutionEngine * datetime * dict Q)%type.

(** The tracker after a sequence of [update_equity_history] calls. *)
Fixpoint observe_all (rt : RiskTracker) (obs : list observation) : RiskTracker :=
  match obs with
  | [] => rt
  | (e, ts, prices) :: rest =>
      observe_all (Risk.update_equity_history (at_engine rt e) ts prices) rest
  end.

(** The highest of a starting level and the equity samples of a history. *)
Definition running_peak (start : Q) (history : list (datetime * Q)) : Q :=
  fold_left (fun peak te => if gtb (snd te) peak then snd te else peak) history start.

(** The values of a dictionary, added up. *)
Definition sum_values (d : dict Q) : Q :=
  fold_right (fun kv acc => snd kv + acc) 0 d.

End Tracker.

(** ** portfolio/portfolio_manager.py *)

Record PortfolioManager : Type := mkPortfolioManager {
  pm_engine : ExecutionEngine
}.

Module Portfolio.

(** [sum(xs)]: Python adds from the left, starting at 0. *)
Definition py_sum (xs : list Q) : Q := fold_left Qplus xs 0.

Definition get_total_value (pm : PortfolioManager) (current_prices : dict Q) : Q :=
  Engine.get_total_portfolio_value (pm_engine pm) current_prices.

Definition get_cash_balance (pm : PortfolioManager) : Q := cash (pm_engine pm).

Definition get_equity (pm : PortfolioManager) (current_prices : dict Q) : Q :=
  get_total_value pm current_prices.

Definition get_total_pnl (pm : PortfolioManager) (current_prices : dict Q) : Q :=
  let realized := Engine.get_total_realized_pnl (pm_engine pm) in
  let unrealized := Engine.get_total_unrealized_pnl (pm_engine pm) current_prices in
  realized + unrealized.

Definition get_total_pnl_percentage (pm : PortfolioManager) (current_prices : dict Q)
  : result Q :=
  let total_pnl := get_total_pnl pm current_prices in
  r <- truediv total_pnl (initial_capital (pm_engine pm)) ;;
  Ok (r * 100).

Definition get_position_count (pm : PortfolioManager) : nat :=
  List.length (positions (pm_engine pm)).

Definition get_closed_trade_count (pm : PortfolioManager) : nat :=
  List.length (closed_positions (pm_engine pm)).

(** The closed positions with [is_profitable()], and the others. *)
Definition winners (pm : PortfolioManager) : list ClosedPosition :=
  filter PositionM.is_profitable (closed_positions (pm_engine pm)).

Definition losers (pm : PortfolioManager) : list ClosedPosition :=
  filter (fun cp => negb (PositionM.is_profitable cp)) (closed_positions (pm_engine pm)).

Definition of_count (n : nat) : Q := inject_Z (Z.of_nat n).

Definition get_win_rate (pm : PortfolioManager) : Q :=
  match closed_positions (pm_engine pm) with
  | [] => 0
  | _ :: _ =>
      let wins := List.length (winners pm) in
      of_count wins / of_count (List.length (closed_positions (pm_engine pm))) * 100
  end.

Definition get_average_win (pm : PortfolioManager) : Q :=
  let wins := map realized_pnl (winners pm) in
  match wins with
  | [] => 0
  | _ :: _ => py_sum wins / of_count (List.length wins)
  end.

Definition get_average_loss (pm : PortfolioManager) : Q :=
  let losses := map realized_pnl (losers pm) in
  match losses with
  | [] => 0
  | _ :: _ => py_sum losses / of_count (List.length losses)
  end.

(** The locals [gross_profit] and [gross_loss] of [get_profit_factor]. *)
Definition gross_profit (pm : PortfolioManager) : Q :=
  py_sum (map realized_pnl (winners pm)).

Definition gross_loss (pm : PortfolioManager) : Q :=
  Qabs (py_sum (map realized_pnl (losers pm))).

(** [gross_profit / gross_loss if gross_loss > 0 else float('inf')] *)
Definition get_profit_factor (pm : PortfolioManager) : XFloat.t :=
  if gtb (gross_loss pm) 0 then Fin (gross_profit pm / gross_loss pm)
  else XFloat.PInf.

End Portfolio.

(** ** strategies/base_strategy.py, position sizing

    The arguments are Python floats, which include the two infinities and
    [nan], and a product or a quotient past the largest finite float is an
    infinity; so [int()] can fail. *)

Module BaseStrategy.

(** [sys.float_info.max]: 2^1024 - 2^971. *)
Definition float_max : Q := inject_Z (2 ^ 1024 - 2 ^ 971).

(** A result past the range of the finite floats is the infinity of its sign. *)
Definition overflow (x : XFloat.t) : XFloat.t :=
  match x with
  | XFloat.Fin q =>
      if Qle_bool (Qabs q) float_max then x else XFloat.inf_of (q ?= 0)
  | _ => x
  end.

(** [x * y] on Python floats. *)
Definition float_mul (x y : XFloat.t) : XFloat.t := overflow (XFloat.mul x y).

(** [x / y] on Python floats: a zero divisor raises, whatever the dividend. *)
Definition float_truediv (x y : XFloat.t) : result XFloat.t :=
  if XFloat.eqb y (Fin 0) then Raise ZeroDivisionError
  else Ok (overflow (XFloat.div x y)).

(** [int(x)] of a finite float: truncation toward zero. *)
Definition py_int (x : Q) : Z := Z.quot (Qnum x) (Zpos (Qden x)).

(** [int(x)] of any float: an infinity and [nan] have no integer. *)
Definition int_of_float (x : XFloat.t) : result Z :=
  match x with
  | XFloat.Fin q => Ok (py_int q)
  | XFloat.PInf | XFloat.NInf => Raise OverflowError
  | XFloat.NaN => Raise ValueError
  end.

(** [BaseStrategy.calculate_position_size] *)
Definition calculate_position_size (capital price risk_per_trade : XFloat.t)
  : result Z :=
  let position_value := float_mul capital risk_per_trade in
  ratio <- float_truediv position_value price ;;
  shares <- int_of_float ratio ;;
  Ok (Z.max shares 1).

End BaseStrategy.

(** ** market_config.py, lot sizes

    [str.upper] is Python's; the functions are stated over any function put in
    its place. *)

Inductive MarketType : Type := INDIAN | INTERNATIONAL.

Module Market.

Local Open Scope string_scope.

Definition INDIAN_LOT_SIZES_DEC_2025 : dict Z :=
  [ ("NIFTY50", 75%Z); ("NIFTY", 75%Z); ("BANKNIFTY", 35%Z); ("FINNIFTY", 65%Z);
    ("SENSEX", 20%Z); ("MIDCPNIFTY", 140%Z); ("NIFTYNXT50", 25%Z) ].

Definition INDIAN_LOT_SIZES_JAN_2026 : dict Z :=
  [ ("NIFTY50", 65%Z); ("NIFTY", 65%Z); ("BANKNIFTY", 30%Z);
    ("FINNIFTY", 60%Z); ("SENSEX", 20%Z); ("MIDCPNIFTY", 120%Z) ].

Definition INDIAN_STOCK_LOT_SIZES : dict Z :=
  [ ("RELIANCE", 500%Z); ("TCS", 150%Z); ("INFY", 300%Z); ("HDFCBANK", 550%Z);
    ("ICICIBANK", 700%Z); ("SBIN", 1500%Z); ("BHARTIARTL", 475%Z); ("ITC", 1600%Z) ].

(** [key in d] *)
Definition contains {V : Type} (d : dict V) (k : string) : bool :=
  match dict_get d k with Some _ => true | None => false end.

(** [get_market_type]: both later branches return INTERNATIONAL. *)
Definition get_market_type (upper : string -> string) (symbol : string) : MarketType :=
  let symbol := upper symbol in
  if (contains INDIAN_LOT_SIZES_DEC_2025 symbol
      || contains INDIAN_STOCK_LOT_SIZES symbol)%bool
  then INDIAN else INTERNATIONAL.

Definition get_lot_size (upper : string -> string) (symbol expiry_month : string) : Z :=
  let market_type := get_market_type upper symbol in
  let symbol := upper symbol in
  match market_type with
  | INDIAN =>
      if String.eqb (upper expiry_month) "JAN"
      then dict_get_default INDIAN_LOT_SIZES_JAN_2026 symbol
             (dict_get_default INDIAN_STOCK_LOT_SIZES symbol 1%Z)
      else dict_get_default INDIAN_LOT_SIZES_DEC_2025 symbol
             (dict_get_default INDIAN_STOCK_LOT_SIZES symbol 1%Z)
  | INTERNATIONAL => 1%Z
  end.

End Market.

(** ** What a signal says about the position and the bars it was made from *)

Module Signals.

(** An entry signal (BUY or SELL) goes with no position, a CLOSE with one. *)
Definition fits_position (current_position : option Z) (s : TradeSignal) : Prop :=
  match signal s with
  | SIG_BUY | SIG_SELL => current_position = None \/ current_position = Some 0%Z
  | SIG_CLOSE => exists z, current_position = Some z /\ z <> 0%Z
  | SIG_HOLD => True
  end.

(** The signal names the symbol passed in and carries the close and the
    timestamp of the last bar. *)
Definition stamped_from (data : DataFrame) (symbol : string) (s : TradeSignal) : Prop :=
  sig_symbol s = symbol /\
  Pd.iloc_last (col_close data) = Ok (sig_price s) /\
  Pd.iloc_last (col_timestamp data) = Ok (sig_timestamp s).

(** A number between 0 and 1, as the [strength] of a signal is meant to be. *)
Definition unit_interval (x : XFloat.t) : Prop :=
  exists q, x = Fin q /\ 0 <= q /\ q <= 1.

(** An indicator value: [nan], or a number between 0 and 100. *)
Definition percent_or_nan (x : XFloat.t) : Prop :=
  x = NaN \/ exists q, x = Fin q /\ 0 <= q /\ q <= 100.

(** An average of gains or of losses: [nan], or a number that is not negative. *)
Definition nonneg_or_nan (x : XFloat.t) : Prop :=
  x = NaN \/ exists q, x = Fin q /\ 0 <= q.

(** A gain or a loss: a number that is not negative. *)
Definition nonneg (x : XFloat.t) : Prop := exists q, x = Fin q /\ 0 <= q.

(** Bars whose close lies between their low and their high. *)
Definition well_formed (data : DataFrame) : Prop :=
  Forall (fun b => bar_low b <= bar_close b /\ bar_close b <= bar_high b) data.

End Signals.

(** ** main.py, TradingSimulator: the strategy call, sizing and the per-symbol step

    Of the simulator's fields, the ones the step reads and writes: the risk
    tracker (its engine is the simulator's engine, one object), the strategy,
    the bars collected so far and the table of current prices.  Printing is
    left out.  [strftime] stands for the timestamp format of the order id. *)

Inductive StrategyObject : Type :=
| Fixed (s : Strategy)
| Selecting (sel : AdaptiveStrategySelector).

Record TradingSimulator : Type := mkSimulator {
  sim_risk : RiskTracker;
  sim_strategy : StrategyObject;
  sim_market_data : dict DataFrame;
  sim_current_prices : dict Q
}.

Module Simulator.

Local Open Scope string_scope.

(** [self.engine] *)
Definition sim_engine (sim : TradingSimulator) : ExecutionEngine :=
  engine (sim_risk sim).

Definition with_engine (sim : TradingSimulator) (e : ExecutionEngine)
  : TradingSimulator :=
  mkSimulator (Tracker.at_engine (sim_risk sim) e) (sim_strategy sim)
              (sim_market_data sim) (sim_current_prices sim).

Definition with_strategy (sim : TradingSimulator) (s : StrategyObject)
  : TradingSimulator :=
  mkSimulator (sim_risk sim) s (sim_market_data sim) (sim_current_prices sim).

(** [d[k]] *)
Definition getitem {V : Type} (d : dict V) (k : string) : result V :=
  match dict_get d k with
  | Some v => Ok v
  | None => Raise KeyError
  end.

(** [self.strategy.generate_signal(df, symbol, current_position)]: what the
    call returns or raises, and the strategy object as the call leaves it. *)
Definition generate_signal (np : Numpy) (s : StrategyObject) (data : DataFrame)
  (symbol : string) (current_position : option Z)
  : result TradeSignal * StrategyObject :=
  match s with
  | Fixed strategy =>
      (Strat.generate_signal strategy data symbol current_position, s)
  | Selecting sel =>
      let r := Adaptive.generate_signal np sel data symbol current_position in
      (fst r, Selecting (snd r))
  end.

Definition side_value (s : OrderSide) : string :=
  match s with BUY => "BUY" | SELL => "SELL" end.

(** [Order(symbol=symbol, side=side, quantity=quantity,
    order_type=OrderType.MARKET, timestamp=current_time)], with the id
    [__post_init__] gives it. *)
Definition market_order (strftime : datetime -> string) (symbol : string)
  (side : OrderSide) (quantity : Z) (current_time : datetime) : Order :=
  mkOrder symbol side quantity MARKET current_time None PENDING None None
          (strftime current_time ++ "_" ++ symbol ++ "_" ++ side_value side).

Section Step.

Variable np : Numpy.
Variable upper : string -> string.
Variable strftime : datetime -> string.

Definition _calculate_position_size (sim : TradingSimulator) (symbol : string)
  : result Z :=
  available <- Tracker.get_available_margin (sim_risk sim) (sim_current_prices sim) ;;
  price <- getitem (sim_current_prices sim) symbol ;;
  let lot_size := Market.get_lot_size upper symbol "DEC" in
  let contract_value_per_lot := price * inject_Z lot_size in
  let position_value := available * (2 # 10) in
  ratio <- truediv position_value contract_value_per_lot ;;
  let num_lots := Z.max 1 (BaseStrategy.py_int ratio) in
  Ok (num_lots * lot_size)%Z.

(** [self.engine.execute_market_order(order, self.current_prices[symbol],
    self.current_prices, current_time)] *)
Definition place (sim : TradingSimulator) (order : Order) (symbol : string)
  (current_time : datetime) : result TradingSimulator :=
  price <- getitem (sim_current_prices sim) symbol ;;
  r <- Engine.execute_market_order (sim_engine sim) order price
         (sim_current_prices sim) current_time ;;
  Ok (with_engine sim (snd r)).

(** The body shared by the BUY and the SELL branch, which differ by the side. *)
Definition enter (sim : TradingSimulator) (symbol : string) (side : OrderSide)
  (current_time : datetime) : result TradingSimulator :=
  quantity <- _calculate_position_size sim symbol ;;
  if (quantity >? 0)%Z then
    place sim (market_order strftime symbol side quantity current_time)
          symbol current_time
  else Ok sim.

Definition _process_symbol_signals (sim : TradingSimulator) (symbol : string)
  (current_time : datetime) : result TradingSimulator :=
  data <- getitem (sim_market_data sim) symbol ;;
  if (List.length data <? 60)%nat then Ok sim
  else
    let df := data in
    let current_position := Engine.get_position_quantity (sim_engine sim) symbol in
    let call := generate_signal np (sim_strategy sim) df symbol (Some current_position) in
    signal_ <- fst call ;;
    let sim := with_strategy sim (snd call) in
    if (Sig.eqb (signal signal_) SIG_BUY && (current_position <=? 0)%Z)%bool then
      enter sim symbol BUY current_time
    else if (Sig.eqb (signal signal_) SIG_SELL && (current_position >=? 0)%Z)%bool then
      enter sim symbol SELL current_time
    else if (Sig.eqb (signal signal_) SIG_CLOSE
             && negb (current_position =? 0)%Z)%bool then
      match Engine.get_current_position (sim_engine sim) symbol with
      | Some position =>
          let close_side := if PositionM.is_long position then SELL else BUY in
          let quantity := Z.abs (pos_quantity position) in
          place sim (market_order strftime symbol close_side quantity current_time)
                symbol current_time
      | None => Ok sim
      end
    else Ok sim.

End Step.

End Simulator.

(** ** Inputs for the examples of the further statements *)

Module Example.

Local Open Scope string_scope.

(** The round trip of [Scenario] as a run: BUY 10 at 100, SELL 10 at 110. *)
Definition round_trip : list Book.call :=
  [ (Scenario.buy_order, 100, Scenario.prices_at 100, 0%Z);
    (Scenario.sell_order, 110, Scenario.prices_at 110, 1%Z) ].

(** An engine with leverage 2, slippage and commission of 0.1%. *)
Definition levered : ExecutionEngine := Engine.init 10000 2 (1 # 1000) (1 # 1000).

(** Two stamped SELL orders against the long 10 of [Scenario.holding]: 4 units
    at 110, then the remaining 6 at 120. *)
Definition sell_part : Order :=
  OrderM.fill (mkOrder "ACME" SELL 4 MARKET 1%Z None PENDING None None "1_ACME_SELL")
              110 1%Z.

Definition sell_rest : Order :=
  OrderM.fill (mkOrder "ACME" SELL 6 MARKET 2%Z None PENDING None None "2_ACME_SELL")
              120 2%Z.

(** Stamped orders that open 10 units at 100 and close them at 100. *)
Definition open_long : Order :=
  OrderM.fill (mkOrder "ACME" BUY 10 MARKET 0%Z None PENDING None None "0_ACME_BUY")
              100 0%Z.

Definition close_long : Order :=
  OrderM.fill (mkOrder "ACME" SELL 10 MARKET 1%Z None PENDING None None "1_ACME_SELL")
              100 1%Z.

(** Three bars of falling prices, and a strategy with a window of two. *)
Definition falling : DataFrame :=
  [Scenario.tick 0 100; Scenario.tick 1 99; Scenario.tick 2 98].

Definition quick_rsi : RSIStrategy := mkRSI 2 30 70 50.

(** Two bars at 100 and one at 99: the fast average crosses below the slow. *)
Definition turning : DataFrame :=
  [Scenario.tick 0 100; Scenario.tick 1 100; Scenario.tick 2 99].

(** Sixty bars falling by 1 from 200, the last one at 141. *)
Definition sixty_falling : DataFrame :=
  map (fun i => Scenario.tick i (200 - inject_Z (Z.of_nat i))) (seq 0 60).

(** A simulator on [levered] that runs [quick_rsi] on one symbol.  The symbol
    is in upper case already, so [str.upper] leaves it as it is. *)
Definition simulator : TradingSimulator :=
  mkSimulator (Risk.init levered) (Fixed (StratRSI quick_rsi))
              [("ACME", sixty_falling)] [("ACME", 141)].

Definition no_numpy : Numpy :=
  mkNumpy (fun _ => Fin 0) (fun _ => Fin 0) (fun _ => Fin 0).

Definition as_is (s : string) : string := s.

Definition stamp (t : datetime) : string := "20250101000000000000".

End Example.


(** * Properties *)

(** ** Arithmetic and dictionary facts *)

Lemma ltb_lt (x y : Q) : ltb x y = true <-> x < y.
Proof.
  unfold ltb. rewrite negb_true_iff. split; intro H.
  - apply Qnot_le_lt. intro L. apply Qle_bool_iff in L. congruence.
  - destruct (Qle_bool y x) eqn:E; trivial.
    apply Qle_bool_iff in E. exfalso. apply (Qlt_not_le _ _ H E).
Qed.

Lemma ltb_ge (x y : Q) : ltb x y = false <-> y <= x.
Proof.
  unfold ltb. rewrite negb_false_iff. apply Qle_bool_iff.
Qed.

Lemma gtb_gt (x y : Q) : gtb x y = true <-> y < x.
Proof. apply ltb_lt. Qed.

Lemma gtb_le (x y : Q) : gtb x y = false <-> x <= y.
Proof. apply ltb_ge. Qed.

Lemma truediv_ok (x y : Q) : ~ y == 0 -> truediv x y = Ok (x / y).
Proof.
  intro H. unfold truediv.
  destruct (Qeq_bool y 0) eqn:E; trivial.
  apply Qeq_bool_iff in E. contradiction.
Qed.


Lemma dict_get_set_same {V : Type} (d : dict V) (k : string) (v : V) :
  dict_get (dict_set d k v) k = Some v.
Proof.
  induction d as [|[k' v'] d IH]; simpl.
  - now rewrite String.eqb_refl.
  - destruct (String.eqb k k') eqn:E; simpl; rewrite E; auto.
Qed.

Lemma dict_get_set_other {V : Type} (d : dict V) (k k0 : string) (v : V) :
  k0 <> k -> dict_get (dict_set d k v) k0 = dict_get d k0.
Proof.
  intro N. induction d as [|[k' v'] d IH]; simpl.
  - apply String.eqb_neq in N. now rewrite N.
  - destruct (String.eqb k k') eqn:E; simpl.
    + apply String.eqb_eq in E. subst k'.
      apply String.eqb_neq in N. now rewrite N.
    + now rewrite IH.
Qed.

Lemma dict_del_present {V : Type} (d : dict V) (k : string) (v : V) :
  dict_get d k = Some v -> exists d', dict_del d k = Ok d' /\ List.length d = S (List.length d').
Proof.
  induction d as [|[k' v'] d IH]; simpl; [discriminate|].
  destruct (String.eqb k k') eqn:E.
  - intros _. now exists d.
  - intro G. destruct (IH G) as [d' [D L]]. rewrite D. simpl.
    exists ((k', v') :: d'). split; [reflexivity | simpl; now rewrite L].
Qed.

Lemma dict_del_other {V : Type} (d d' : dict V) (k k0 : string) :
  dict_del d k = Ok d' -> k0 <> k -> dict_get d' k0 = dict_get d k0.
Proof.
  revert d'. induction d as [|[k' v'] d IH]; simpl; intros d' D N; [discriminate|].
  destruct (String.eqb k k') eqn:E.
  - inversion D; subst. apply String.eqb_eq in E. subst k'.
    apply String.eqb_neq in N. now rewrite N.
  - destruct (dict_del d k) as [r|e] eqn:R; simpl in D; [|discriminate].
    inversion D; subst. simpl. destruct (String.eqb k0 k'); auto.
Qed.

(** ** The execution engine *)

(** C1.  The concrete round trip on the code: capital 10,000, leverage 1, no
    slippage, no commission.  The BUY of 10 at 100 is filled and leaves cash
    9,000 and a long position of 10 entered at 100; at 110 the unrealized P&L
    is 100; the SELL of 10 at 110 is filled, realizes 100 and empties the
    book.  The cash after the SELL is 9,100, not 10,100: the closing branch
    credits the realized P&L only and never returns the 1,000 debited when
    the position was opened. *)
Theorem round_trip_on_the_code :
  exists o1 st1 o2 st2,
    Scenario.after_buy = Ok (true, o1, st1) /\
    status o1 = FILLED /\
    cash st1 == 9000 /\
    (exists p, positions st1 = [("ACME"%string, p)] /\
               pos_quantity p = 10%Z /\ entry_price p == 100) /\
    Engine.get_total_unrealized_pnl st1 (Scenario.prices_at 110) == 100 /\
    Scenario.after_sell = Ok (true, o2, st2) /\
    status o2 = FILLED /\
    (exists c, closed_positions st2 = [c] /\ realized_pnl c == 100) /\
    Engine.get_total_realized_pnl st2 == 100 /\
    positions st2 = [] /\
    cash st2 == 9100 /\
    ~ cash st2 == 10100.
Proof.
  unfold Scenario.after_sell.
  destruct Scenario.after_buy as [[[b1 o1] st1]|e] eqn:E1; vm_compute in E1;
    [|discriminate].
  inversion E1; subst; clear E1.
  simpl Py.bind. cbv beta. simpl snd.
  match goal with
  | |- context [Engine.execute_market_order ?s ?o ?p ?ps ?t] =>
      destruct (Engine.execute_market_order s o p ps t) as [[[b2 o2] st2]|e] eqn:E2;
      vm_compute in E2; [|discriminate]
  end.
  inversion E2; subst; clear E2.
  do 4 eexists. split; [reflexivity|].
  split; [reflexivity|].
  split; [reflexivity|].
  split; [eexists; split; [reflexivity|split; reflexivity]|].
  split; [reflexivity|].
  split; [reflexivity|].
  split; [reflexivity|].
  split; [eexists; split; reflexivity|].
  split; [reflexivity|].
  split; [reflexivity|].
  split; [reflexivity|].
  intro H. vm_compute in H. discriminate.
Qed.

(** A SELL whose required margin (100,000) strictly exceeds the available
    capital (10,000) is nevertheless filled, and it changes cash and the
    position book: the claim of C2 fails for SELL orders. *)
Lemma sell_over_margin_is_filled :
  Terms.required_margin Scenario.start Scenario.big_sell 100 = Ok (100000 / 1) /\
  Engine.calculate_available_capital Scenario.start (Scenario.prices_at 100)
    = Ok 10000 /\
  10000 < 100000 / 1 /\
  exists o' st',
    Engine.execute_market_order Scenario.start Scenario.big_sell 100
      (Scenario.prices_at 100) 0%Z = Ok (true, o', st') /\
    status o' = FILLED /\
    positions st' <> positions Scenario.start /\
    ~ cash st' == cash Scenario.start.
Proof.
  split; [vm_compute; reflexivity|].
  split; [vm_compute; reflexivity|].
  split; [reflexivity|].
  destruct (Engine.execute_market_order Scenario.start Scenario.big_sell 100
              (Scenario.prices_at 100) 0%Z) as [[[b o'] st']|e] eqn:E;
    vm_compute in E; [|discriminate].
  inversion E; subst; clear E.
  do 2 eexists. split; [reflexivity|].
  split; [reflexivity|].
  split; [discriminate|].
  intro H. vm_compute in H. discriminate.
Qed.

(** C2, as the code has it.  For every BUY order and every engine state, when
    the required margin strictly exceeds what [calculate_available_capital]
    returns at the current prices, [execute_market_order] returns false with
    the order REJECTED and the engine exactly as it was: cash, position book
    and closed-position log are untouched. *)
Theorem buy_over_margin_is_rejected
  (st : ExecutionEngine) (o : Order) (current_price : Q)
  (current_prices : dict Q) (ts : datetime) (margin available : Q) :
  side o = BUY ->
  Terms.required_margin st o current_price = Ok margin ->
  Engine.calculate_available_capital st current_prices = Ok available ->
  available < margin ->
  exists o' st',
    Engine.execute_market_order st o current_price current_prices ts
      = Ok (false, o', st') /\
    status o' = REJECTED /\
    o' = OrderM.reject o /\
    st' = st /\
    cash st' = cash st /\
    positions st' = positions st /\
    closed_positions st' = closed_positions st.
Proof.
  intros Hside Hm Ha Hlt.
  exists (OrderM.reject o), st.
  unfold Engine.execute_market_order.
  unfold Terms.required_margin, Terms.total_cost in Hm.
  rewrite Hside in *. cbv zeta in Hm. rewrite Hm. simpl Py.bind.
  rewrite Ha. simpl Py.bind.
  apply gtb_gt in Hlt. rewrite Hlt.
  repeat split; reflexivity.
Qed.

Lemma buy_over_margin_is_rejected_witness :
  exists o' st',
    Engine.execute_market_order Scenario.start
      (mkOrder "ACME" BUY 1000 MARKET 0%Z None PENDING None None "0_ACME_BUY")
      100 (Scenario.prices_at 100) 0%Z = Ok (false, o', st') /\
    status o' = REJECTED /\
    o' = OrderM.reject
           (mkOrder "ACME" BUY 1000 MARKET 0%Z None PENDING None None "0_ACME_BUY") /\
    st' = Scenario.start /\
    cash st' = cash Scenario.start /\
    positions st' = positions Scenario.start /\
    closed_positions st' = closed_positions Scenario.start.
Proof.
  apply (buy_over_margin_is_rejected Scenario.start
           (mkOrder "ACME" BUY 1000 MARKET 0%Z None PENDING None None "0_ACME_BUY")
           100 (Scenario.prices_at 100) 0%Z
           ((inject_Z (Z.abs 1000) * (100 * (1 + 0))
             + inject_Z (Z.abs 1000) * (100 * (1 + 0)) * 0) / 1)
           (if gtb 0 (10000 * 1 - 0) then 0 else 10000 * 1 - 0)).
  - reflexivity.
  - reflexivity.
  - reflexivity.
  - vm_compute. reflexivity.
Defined.

(** ** Portfolio value *)

Lemma unrealized_loop_sum (items : dict Position) (current_prices : dict Q) (t : Q) :
  Engine.unrealized_loop items current_prices t
  == t + Terms.sum_unrealized items current_prices.
Proof.
  revert t. induction items as [|[s p] items IH]; intro t; simpl.
  - lra.
  - rewrite IH. simpl. lra.
Qed.

(** C3.  For every engine state (so for every state a sequence of executed
    fills can reach) and every price mapping, cash plus the sum of the
    unrealized P&L of the open positions is the value that
    [get_total_portfolio_value] returns; the sum is also what
    [get_total_unrealized_pnl] returns. *)
Theorem portfolio_value_is_cash_plus_unrealized
  (st : ExecutionEngine) (current_prices : dict Q) :
  Engine.get_total_portfolio_value st current_prices
    == cash st + Terms.sum_unrealized (positions st) current_prices /\
  Engine.get_total_unrealized_pnl st current_prices
    == Terms.sum_unrealized (positions st) current_prices /\
  Engine.get_total_portfolio_value st current_prices
    == cash st + Engine.get_total_unrealized_pnl st current_prices.
Proof.
  unfold Engine.get_total_portfolio_value, Engine.get_total_unrealized_pnl.
  cbv zeta. rewrite unrealized_loop_sum. repeat split; lra.
Qed.

Lemma sum_unrealized_app (a b : dict Position) (current_prices : dict Q) :
  Terms.sum_unrealized (a ++ b) current_prices
  == Terms.sum_unrealized a current_prices + Terms.sum_unrealized b current_prices.
Proof.
  induction a as [|x a IH]; simpl.
  - lra.
  - rewrite IH. lra.
Qed.

(** C10.  A position whose symbol the price mapping lacks is valued at its
    own entry price by [get_total_portfolio_value] and
    [get_total_unrealized_pnl]; its unrealized P&L is then 0, so both totals
    are what they would be without it.  Both functions are total: no lookup
    fails. *)
Theorem unpriced_position_contributes_zero
  (st : ExecutionEngine) (current_prices : dict Q) (sym : string) (p : Position)
  (before after : dict Position) :
  positions st = before ++ (sym, p) :: after ->
  dict_get current_prices sym = None ->
  Engine.price_for current_prices sym p = entry_price p /\
  PositionM.calculate_unrealized_pnl p (Engine.price_for current_prices sym p) == 0 /\
  Engine.get_total_unrealized_pnl st current_prices
    == Engine.get_total_unrealized_pnl
         (Engine.set_positions st (before ++ after)) current_prices /\
  Engine.get_total_portfolio_value st current_prices
    == Engine.get_total_portfolio_value
         (Engine.set_positions st (before ++ after)) current_prices.
Proof.
  intros Hbook Habsent.
  assert (Hp : Engine.price_for current_prices sym p = entry_price p).
  { unfold Engine.price_for, dict_get_default. now rewrite Habsent. }
  assert (Hz : PositionM.calculate_unrealized_pnl p
                 (Engine.price_for current_prices sym p) == 0).
  { rewrite Hp. unfold PositionM.calculate_unrealized_pnl. cbv zeta. ring. }
  split; [exact Hp|]. split; [exact Hz|].
  unfold Engine.get_total_portfolio_value, Engine.get_total_unrealized_pnl.
  cbv zeta. simpl positions. simpl cash. rewrite Hbook.
  rewrite !unrealized_loop_sum, !sum_unrealized_app. simpl.
  rewrite Hz. split; lra.
Qed.

Lemma unpriced_position_contributes_zero_witness :
  Engine.price_for [("OTHER"%string, 50)] "ACME" (mkPosition "ACME" 10 100 0%Z 1)
    = 100 /\
  PositionM.calculate_unrealized_pnl (mkPosition "ACME" 10 100 0%Z 1)
    (Engine.price_for [("OTHER"%string, 50)] "ACME" (mkPosition "ACME" 10 100 0%Z 1))
    == 0 /\
  Engine.get_total_unrealized_pnl Scenario.holding [("OTHER"%string, 50)]
    == Engine.get_total_unrealized_pnl
         (Engine.set_positions Scenario.holding ([] ++ [])) [("OTHER"%string, 50)] /\
  Engine.get_total_portfolio_value Scenario.holding [("OTHER"%string, 50)]
    == Engine.get_total_portfolio_value
         (Engine.set_positions Scenario.holding ([] ++ [])) [("OTHER"%string, 50)].
Proof.
  apply (unpriced_position_contributes_zero Scenario.holding
           [("OTHER"%string, 50)] "ACME" (mkPosition "ACME" 10 100 0%Z 1) [] []).
  - reflexivity.
  - reflexivity.
Defined.

(** ** Fills *)

Lemma opposite_sign_true (pq q : Z) :
  Engine.opposite_sign pq q = true <->
  ((0 < pq /\ q < 0) \/ (pq < 0 /\ 0 < q))%Z.
Proof.
  unfold Engine.opposite_sign.
  rewrite orb_true_iff, !andb_true_iff, !Z.gtb_lt, !Z.ltb_lt. tauto.
Qed.

Lemma signed_quantity_nonzero (o : Order) :
  (0 < quantity o)%Z -> Engine.signed_quantity o <> 0%Z.
Proof.
  unfold Engine.signed_quantity. destruct (side o); lia.
Qed.

Lemma absz_nonzero_sum (a b : Z) : b <> 0%Z -> ~ inject_Z (Z.abs a + Z.abs b) == 0.
Proof.
  intros Hb H. unfold Qeq in H. simpl in H. lia.
Qed.


(** C5.  A reversal: the book holds a position in the order's symbol, the
    fill has the opposite sign and strictly greater size.  The fill appends
    exactly one ClosedPosition, the snapshot of the old position closed at the
    fill price, and leaves in the book, under that symbol, one new Position of
    the opposite direction, sized to the remainder and entered at the fill
    price; no other symbol of the book is touched. *)
Theorem reversal_closes_once_and_reopens_at_fill_price
  (st : ExecutionEngine) (o : Order) (c fp : Q) (fts : datetime) (p : Position) :
  fill_price o = Some fp ->
  fill_timestamp o = Some fts ->
  ~ max_leverage st == 0 ->
  dict_get (positions st) (symbol o) = Some p ->
  Engine.opposite_sign (pos_quantity p) (Engine.signed_quantity o) = true ->
  (Z.abs (pos_quantity p) < Z.abs (Engine.signed_quantity o))%Z ->
  exists st' np,
    Engine._update_position_from_order st o c = Ok st' /\
    closed_positions st' = closed_positions st ++ [PositionM.close p fp fts] /\
    dict_get (positions st') (symbol o) = Some np /\
    np = mkPosition (symbol o) (pos_quantity p + Engine.signed_quantity o) fp fts
                    (max_leverage st) /\
    entry_price np = fp /\
    (pos_quantity np * pos_quantity p < 0)%Z /\
    Z.abs (pos_quantity np)
      = (Z.abs (Engine.signed_quantity o) - Z.abs (pos_quantity p))%Z /\
    (forall s, s <> symbol o ->
       dict_get (positions st') s = dict_get (positions st) s).
Proof.
  intros Hfp Hfts Hlev G Hopp Hgt.
  unfold Engine._update_position_from_order. rewrite Hfp, Hfts, G, Hopp.
  assert (Hge : (Z.abs (Engine.signed_quantity o) >=? Z.abs (pos_quantity p))%Z = true)
    by (apply Z.geb_le; lia).
  assert (Hgtb : (Z.abs (Engine.signed_quantity o) >? Z.abs (pos_quantity p))%Z = true)
    by (apply Z.gtb_lt; lia).
  rewrite Hge. destruct (dict_del_present _ _ _ G) as [book [D _]].
  simpl positions. rewrite D. simpl Py.bind. rewrite Hgtb.
  rewrite (truediv_ok _ _ Hlev). simpl Py.bind.
  eexists. eexists. split; [reflexivity|].
  apply opposite_sign_true in Hopp.
  split; [reflexivity|].
  split; [simpl; apply dict_get_set_same|].
  split; [reflexivity|].
  split; [reflexivity|].
  split; [simpl; nia|].
  split; [simpl; lia|].
  intros s Hs. simpl. rewrite dict_get_set_other by exact Hs.
  now apply (dict_del_other _ _ _ _ D).
Qed.

Lemma reversal_closes_once_and_reopens_at_fill_price_witness :
  exists st' np,
    Engine._update_position_from_order Scenario.holding Scenario.reversal_sell 0
      = Ok st' /\
    closed_positions st'
      = closed_positions Scenario.holding
        ++ [PositionM.close (mkPosition "ACME" 10 100 0%Z 1) 110 1%Z] /\
    dict_get (positions st') (symbol Scenario.reversal_sell) = Some np /\
    np = mkPosition (symbol Scenario.reversal_sell)
           (pos_quantity (mkPosition "ACME" 10 100 0%Z 1)
            + Engine.signed_quantity Scenario.reversal_sell) 110 1%Z
           (max_leverage Scenario.holding) /\
    entry_price np = 110 /\
    (pos_quantity np * pos_quantity (mkPosition "ACME" 10 100 0%Z 1) < 0)%Z /\
    Z.abs (pos_quantity np)
      = (Z.abs (Engine.signed_quantity Scenario.reversal_sell)
         - Z.abs (pos_quantity (mkPosition "ACME" 10 100 0%Z 1)))%Z /\
    (forall s, s <> symbol Scenario.reversal_sell ->
       dict_get (positions st') s = dict_get (positions Scenario.holding) s).
Proof.
  apply (reversal_closes_once_and_reopens_at_fill_price Scenario.holding
           Scenario.reversal_sell 0 110 1%Z (mkPosition "ACME" 10 100 0%Z 1)).
  - reflexivity.
  - reflexivity.
  - intro H. vm_compute in H. discriminate.
  - reflexivity.
  - reflexivity.
  - vm_compute. reflexivity.
Defined.






(** A fill that only reduces a position appends nothing to the closed-position
    log: the SELL of 4 at 110 against the long 10 entered at 100 is filled,
    leaves 6 units, credits the realized 40 to cash, and the log is as it was,
    so the claim of C4 fails for a partial close. *)
Lemma partial_close_logs_nothing :
  exists o' st',
    Engine.execute_market_order Scenario.holding Scenario.partial_sell 110
      (Scenario.prices_at 110) 1%Z = Ok (true, o', st') /\
    Terms.partially_closes Scenario.holding o' = true /\
    Engine.get_position_quantity st' "ACME" = 6%Z /\
    cash st' == cash Scenario.holding + 40 /\
    closed_positions st' = closed_positions Scenario.holding /\
    List.length (closed_positions st')
      <> S (List.length (closed_positions Scenario.holding)) /\
    Engine.get_total_realized_pnl st' == 0.
Proof.
  destruct (Engine.execute_market_order Scenario.holding Scenario.partial_sell 110
              (Scenario.prices_at 110) 1%Z) as [[[b o'] st']|e] eqn:E;
    vm_compute in E; [|discriminate].
  inversion E; subst; clear E.
  do 2 eexists. split; [reflexivity|].
  split; [reflexivity|]. split; [reflexivity|]. split; [reflexivity|].
  split; [reflexivity|]. split; [discriminate|reflexivity].
Qed.

(** What the rest of the claim on fills comes to on the code.  For every fill
    (a stamped order of positive quantity, on an engine of non-zero leverage)
    the update succeeds, and:
    a fill that closes a position completely (full close, or the closing leg
    of a reversal) appends exactly one ClosedPosition, the snapshot of that
    position at the fill price; every other fill, a partial close included,
    appends none; and the commission reaches cash exactly once, so that the
    cash after the fill is the cash of the same fill at zero commission minus
    the commission times its weight, the book and the log not depending on
    the commission. *)
Theorem fill_logs_full_closes_and_charges_commission_once
  (st : ExecutionEngine) (o : Order) (c fp : Q) (fts : datetime) :
  fill_price o = Some fp ->
  fill_timestamp o = Some fts ->
  ~ max_leverage st == 0 ->
  (0 < quantity o)%Z ->
  exists st' st0,
    Engine._update_position_from_order st o c = Ok st' /\
    Engine._update_position_from_order st o 0 = Ok st0 /\
    closed_positions st'
      = closed_positions st
        ++ match Terms.closed_by st o with
           | Some p => [PositionM.close p fp fts]
           | None => []
           end /\
    (Terms.partially_closes st o = true ->
       closed_positions st' = closed_positions st) /\
    cash st' == cash st0 - c * Terms.commission_weight st o /\
    positions st' = positions st0 /\
    closed_positions st' = closed_positions st0.
Proof.
  intros Hfp Hfts Hlev Hpos.
  pose proof (signed_quantity_nonzero o Hpos) as Hq.
  unfold Engine._update_position_from_order, Terms.closed_by,
    Terms.partially_closes, Terms.commission_weight.
  rewrite Hfp, Hfts.
  destruct (dict_get (positions st) (symbol o)) as [p|] eqn:G.
  - destruct (Engine.opposite_sign (pos_quantity p) (Engine.signed_quantity o)) eqn:Hopp.
    + destruct (Z.abs (Engine.signed_quantity o) >=? Z.abs (pos_quantity p))%Z eqn:Hge.
      * destruct (dict_del_present _ _ _ G) as [book [D _]].
        simpl positions. rewrite D. simpl Py.bind.
        assert (Hlt : (Z.abs (Engine.signed_quantity o) <? Z.abs (pos_quantity p))%Z
                      = false).
        { apply Z.ltb_ge. apply Z.geb_le in Hge. lia. }
        destruct (Z.abs (Engine.signed_quantity o) >? Z.abs (pos_quantity p))%Z.
        -- rewrite (truediv_ok _ _ Hlev). simpl Py.bind.
           do 2 eexists. split; [reflexivity|]. split; [reflexivity|].
           split; [reflexivity|]. rewrite Hlt.
           split; [discriminate|]. split; [simpl; ring|].
           split; reflexivity.
        -- do 2 eexists. split; [reflexivity|]. split; [reflexivity|].
           split; [reflexivity|]. rewrite Hlt.
           split; [discriminate|]. split; [simpl; ring|].
           split; reflexivity.
      * do 2 eexists. split; [reflexivity|]. split; [reflexivity|].
        split; [simpl; now rewrite app_nil_r|].
        split; [reflexivity|].
        split; [simpl; destruct (pos_quantity p <? 0)%Z; ring|].
        split; reflexivity.
    + rewrite (truediv_ok _ _ (absz_nonzero_sum _ _ Hq)). simpl Py.bind.
      rewrite !(truediv_ok _ _ Hlev). simpl Py.bind.
      do 2 eexists. split; [reflexivity|]. split; [reflexivity|].
      split; [simpl; now rewrite app_nil_r|].
      split; [reflexivity|].
      split; [simpl; field; exact Hlev|].
      split; reflexivity.
  - destruct (side o); rewrite !(truediv_ok _ _ Hlev); simpl Py.bind;
      (do 2 eexists; split; [reflexivity|]; split; [reflexivity|];
       split; [simpl; now rewrite app_nil_r|];
       split; [discriminate|];
       split; [simpl; field; exact Hlev|];
       split; reflexivity).
Qed.

Lemma fill_logs_full_closes_and_charges_commission_once_witness :
  exists st' st0,
    Engine._update_position_from_order Scenario.holding Scenario.reversal_sell 5
      = Ok st' /\
    Engine._update_position_from_order Scenario.holding Scenario.reversal_sell 0
      = Ok st0 /\
    closed_positions st'
      = closed_positions Scenario.holding
        ++ match Terms.closed_by Scenario.holding Scenario.reversal_sell with
           | Some p => [PositionM.close p 110 1%Z]
           | None => []
           end /\
    (Terms.partially_closes Scenario.holding Scenario.reversal_sell = true ->
       closed_positions st' = closed_positions Scenario.holding) /\
    cash st'
      == cash st0 - 5 * Terms.commission_weight Scenario.holding Scenario.reversal_sell /\
    positions st' = positions st0 /\
    closed_positions st' = closed_positions st0.
Proof.
  apply (fill_logs_full_closes_and_charges_commission_once Scenario.holding
           Scenario.reversal_sell 5 110 1%Z).
  - reflexivity.
  - reflexivity.
  - intro H. vm_compute in H. discriminate.
  - reflexivity.
Defined.

(** ** Drawdown *)

Lemma drawdown_loop_bounds (history : list (datetime * Q)) (dd pct peak : Q) :
  (forall te, In te history -> 0 <= snd te) ->
  0 <= dd -> pct <= 100 ->
  0 <= fst (Risk.drawdown_loop history dd pct peak) /\
  snd (Risk.drawdown_loop history dd pct peak) <= 100.
Proof.
  revert dd pct peak.
  induction history as [|[t e] history IH]; intros dd pct peak Hnn Hdd Hpct; simpl.
  - split; assumption.
  - assert (He : 0 <= e) by (apply (Hnn (t, e)); now left).
    assert (Hrest : forall te, In te history -> 0 <= snd te)
      by (intros te Hin; apply Hnn; now right).
    set (peak' := if gtb e peak then e else peak).
    destruct (gtb (peak' - e) dd) eqn:Hnew.
    + apply IH; try assumption.
      * apply gtb_gt in Hnew. lra.
      * destruct (gtb peak' 0) eqn:Hp; [|lra].
        apply gtb_gt in Hp.
        assert (Hd : (peak' - e) / peak' <= 1).
        { apply Qle_shift_div_r; [exact Hp|]. lra. }
        lra.
    + apply IH; assumption.
Qed.

Lemma drawdown_loop_grows (history : list (datetime * Q)) (dd pct peak : Q) :
  dd <= fst (Risk.drawdown_loop history dd pct peak).
Proof.
  revert dd pct peak.
  induction history as [|[t e] history IH]; intros dd pct peak; simpl.
  - lra.
  - destruct (gtb _ dd) eqn:Hnew.
    + apply gtb_gt in Hnew. eapply Qle_trans; [|apply IH]. lra.
    + apply IH.
Qed.

Lemma drawdown_loop_app (h1 h2 : list (datetime * Q)) (dd pct peak : Q) :
  exists pct' peak',
    Risk.drawdown_loop (h1 ++ h2) dd pct peak
    = Risk.drawdown_loop h2 (fst (Risk.drawdown_loop h1 dd pct peak)) pct' peak'.
Proof.
  revert dd pct peak.
  induction h1 as [|[t e] h1 IH]; intros dd pct peak; simpl.
  - now exists pct, peak.
  - destruct (gtb _ dd); apply IH.
Qed.

(** C7.  When every equity sample is non-negative, [get_max_drawdown] returns
    a dollar drawdown of at least 0 and a percentage of at most 100; and the
    dollar drawdown over a prefix of the history never exceeds the one over a
    longer prefix. *)
Theorem max_drawdown_bounded_and_monotone
  (rt : RiskTracker) (h1 h2 : list (datetime * Q)) :
  (forall te, In te (equity_history rt) -> 0 <= snd te) ->
  0 <= fst (Risk.get_max_drawdown rt) /\
  snd (Risk.get_max_drawdown rt) <= 100 /\
  fst (Risk.get_max_drawdown (Risk.with_history rt h1))
    <= fst (Risk.get_max_drawdown (Risk.with_history rt (h1 ++ h2))).
Proof.
  intro Hnn.
  assert (Hloop : forall h,
            Risk.get_max_drawdown (Risk.with_history rt h)
            = Risk.drawdown_loop h 0 0 (initial_capital (engine rt))).
  { intro h. unfold Risk.get_max_drawdown. simpl. now destruct h. }
  assert (Hself : Risk.get_max_drawdown rt
                  = Risk.drawdown_loop (equity_history rt) 0 0
                      (initial_capital (engine rt))).
  { unfold Risk.get_max_drawdown. now destruct (equity_history rt). }
  rewrite Hself.
  destruct (drawdown_loop_bounds (equity_history rt) 0 0
              (initial_capital (engine rt)) Hnn) as [B1 B2]; try lra.
  split; [exact B1|]. split; [exact B2|].
  rewrite !Hloop.
  destruct (drawdown_loop_app h1 h2 0 0 (initial_capital (engine rt)))
    as [pct' [peak' Happ]].
  rewrite Happ. apply drawdown_loop_grows.
Qed.

Lemma max_drawdown_bounded_and_monotone_witness :
  0 <= fst (Risk.get_max_drawdown
              (mkRiskTracker Scenario.start 10000
                 [(0%Z, 10000); (1%Z, 9000); (2%Z, 9500)])) /\
  snd (Risk.get_max_drawdown
         (mkRiskTracker Scenario.start 10000
            [(0%Z, 10000); (1%Z, 9000); (2%Z, 9500)])) <= 100 /\
  fst (Risk.get_max_drawdown
         (Risk.with_history
            (mkRiskTracker Scenario.start 10000
               [(0%Z, 10000); (1%Z, 9000); (2%Z, 9500)])
            [(0%Z, 10000)]))
    <= fst (Risk.get_max_drawdown
              (Risk.with_history
                 (mkRiskTracker Scenario.start 10000
                    [(0%Z, 10000); (1%Z, 9000); (2%Z, 9500)])
                 ([(0%Z, 10000)] ++ [(1%Z, 9000); (2%Z, 9500)]))).
Proof.
  apply (max_drawdown_bounded_and_monotone
           (mkRiskTracker Scenario.start 10000
              [(0%Z, 10000); (1%Z, 9000); (2%Z, 9500)])
           [(0%Z, 10000)] [(1%Z, 9000); (2%Z, 9500)]).
  simpl. intros te [H|[H|[H|[]]]]; subst te; simpl; lra.
Defined.

(** ** The adaptive selector *)

Lemma rising_is_not_sideways :
  XFloat.ltb
    (Regime.calculate_adx (col_high Scenario.rising) (col_low Scenario.rising)
       (col_close Scenario.rising) 14)
    (Fin 20) = false.
Proof. vm_compute. reflexivity. Qed.

(** With ADX at 20 or more and no trend detected, the selection is decided by
    the volatility alone: RSI above 30, Combined otherwise. *)
Lemma select_strategy_by_conditions (np : Numpy) (sel : AdaptiveStrategySelector)
  (data : DataFrame) :
  let c := Regime.get_market_conditions np (regime_analyzer sel) data in
  XFloat.ltb (cond_adx c) (Fin 20) = false ->
  cond_sideways c = false ->
  cond_trend c = SIDEWAYS ->
  let chosen := fst (fst (fst (Adaptive.select_strategy np sel data))) in
  chosen = StratRSI (mkRSI 14 30 70 50)
  \/ chosen = StratCombined (Combined.init 14 30 70 12 26 2).
Proof.
  intros c Hadx Hside Htrend chosen. subst chosen.
  unfold Adaptive.select_strategy. fold c. cbv zeta.
  rewrite Hside, Hadx, Htrend. simpl orb. simpl andb. cbv iota.
  destruct (XFloat.gtb (cond_volatility c) (Fin 30)); simpl; auto.
Qed.

(** On the rising history the selection is RSI or Combined, whatever numpy
    returns for the volatility: never Stochastic. *)
Lemma rising_selects_rsi_or_combined (np : Numpy) (sel : AdaptiveStrategySelector) :
  lookback_period (regime_analyzer sel) = 60%nat ->
  let chosen := fst (fst (fst (Adaptive.select_strategy np sel Scenario.rising))) in
  chosen = StratRSI (mkRSI 14 30 70 50)
  \/ chosen = StratCombined (Combined.init 14 30 70 12 26 2).
Proof.
  intros Hlb.
  apply select_strategy_by_conditions.
  - exact rising_is_not_sideways.
  - exact rising_is_not_sideways.
  - unfold Regime.get_market_conditions. cbv zeta. unfold cond_trend.
    unfold Regime.detect_trend. rewrite Hlb. reflexivity.
Qed.

Lemma generate_signal_retained (np : Numpy) (sel : AdaptiveStrategySelector)
  (s : Strategy) (data : DataFrame) (symbol : string) (current_position : option Z) :
  current_strategy sel = Some s ->
  Adaptive.generate_signal np sel data symbol current_position
  = (Strat.generate_signal s data symbol current_position, sel).
Proof.
  intro Hcur. unfold Adaptive.generate_signal. rewrite Hcur. cbv zeta.
  now rewrite Hcur.
Qed.

Lemma reselecting_signal (np : Numpy) (sel : AdaptiveStrategySelector)
  (data : DataFrame) (symbol : string) (current_position : option Z) :
  fst (Terms.generate_signal_reselecting np sel data symbol current_position)
  = Strat.generate_signal
      (fst (fst (fst (Adaptive.select_strategy np sel data))))
      data symbol current_position.
Proof. reflexivity. Qed.

Lemma stochastic_differs_on_rising :
  Strat.generate_signal (StratStochastic (mkStochastic 14 3 20 80))
    Scenario.rising "ACME" (Some 0%Z)
  <> Strat.generate_signal (StratRSI (mkRSI 14 30 70 50))
       Scenario.rising "ACME" (Some 0%Z)
  /\ Strat.generate_signal (StratStochastic (mkStochastic 14 3 20 80))
       Scenario.rising "ACME" (Some 0%Z)
     <> Strat.generate_signal (StratCombined (Combined.init 14 30 70 12 26 2))
          Scenario.rising "ACME" (Some 0%Z).
Proof.
  split; intro H; vm_compute in H; discriminate.
Qed.

(** The claim of C6 fails for every implementation of the numpy routines: a
    selector that chose Stochastic on a one-bar history answers the next call,
    on the rising history, with the Stochastic signal, although the regime
    analysis of that history selects RSI or Combined, whose signals differ. *)
Lemma selection_is_not_renewed :
  ~ (exists np : Numpy,
       forall (sel : AdaptiveStrategySelector) (data : DataFrame) (symbol : string)
              (current_position : option Z),
         fst (Adaptive.generate_signal np sel data symbol current_position)
         = fst (Terms.generate_signal_reselecting np sel data symbol current_position)).
Proof.
  intros [np H].
  pose (sto := StratStochastic (mkStochastic 14 3 20 80)).
  pose (sel1 := mkSelector (mkAnalyzer 60) (Some sto) None).
  assert (Hsel1 : snd (Adaptive.generate_signal np Adaptive.init Scenario.one_bar
                         "ACME" (Some 0%Z)) = sel1).
  { reflexivity. }
  specialize (H (snd (Adaptive.generate_signal np Adaptive.init Scenario.one_bar
                        "ACME"%string (Some 0%Z)))
                Scenario.rising "ACME"%string (Some 0%Z)).
  rewrite Hsel1 in H.
  rewrite (generate_signal_retained np sel1 sto _ _ _ eq_refl) in H.
  rewrite reselecting_signal in H. unfold fst at 1 in H.
  destruct stochastic_differs_on_rising as [N1 N2].
  destruct (rising_selects_rsi_or_combined np sel1 eq_refl) as [E|E];
    rewrite E in H; [exact (N1 H) | exact (N2 H)].
Qed.

(** C6, as the code has it.  [generate_signal] runs the regime analysis only
    when the selector holds no strategy yet; the strategy chosen then stays in
    the selector, and every later call, whatever bar history it is given,
    routes to that same strategy and leaves the selector as it is. *)
Theorem selector_selects_once
  (np : Numpy) (sel : AdaptiveStrategySelector)
  (data1 data2 : DataFrame) (symbol1 symbol2 : string)
  (position1 position2 : option Z) :
  let first := Adaptive.generate_signal np sel data1 symbol1 position1 in
  (current_strategy sel = None ->
     snd first = snd (Adaptive.select_strategy np sel data1)) /\
  (current_strategy sel <> None -> snd first = sel) /\
  exists s,
    current_strategy (snd first) = Some s /\
    fst first = Strat.generate_signal s data1 symbol1 position1 /\
    Adaptive.generate_signal np (snd first) data2 symbol2 position2
    = (Strat.generate_signal s data2 symbol2 position2, snd first).
Proof.
  intro first. subst first.
  destruct (current_strategy sel) as [s|] eqn:Hcur.
  - rewrite (generate_signal_retained np sel s _ _ _ Hcur).
    split; [discriminate|]. split; [reflexivity|].
    exists s. split; [exact Hcur|]. split; [reflexivity|].
    apply generate_signal_retained. exact Hcur.
  - assert (Hfirst : Adaptive.generate_signal np sel data1 symbol1 position1
                     = (Strat.generate_signal
                          (fst (fst (fst (Adaptive.select_strategy np sel data1))))
                          data1 symbol1 position1,
                        snd (Adaptive.select_strategy np sel data1))).
    { unfold Adaptive.generate_signal. rewrite Hcur. reflexivity. }
    rewrite Hfirst.
    split; [reflexivity|]. split; [congruence|].
    eexists. split; [reflexivity|]. split; [reflexivity|].
    apply generate_signal_retained. reflexivity.
Qed.

(** ** Strategies on short histories and undefined indicator values *)

Lemma iloc_last_ok {A : Type} (l : list A) :
  l <> [] -> exists x, Pd.iloc_last l = Ok x.
Proof.
  intro H. unfold Pd.iloc_last.
  destruct (rev l) as [|x r] eqn:E.
  - apply (f_equal (@rev A)) in E. rewrite rev_involutive in E. contradiction.
  - now exists x.
Qed.

Lemma map_nonempty {A B : Type} (f : A -> B) (l : list A) : l <> [] -> map f l <> [].
Proof. destruct l; simpl; congruence. Qed.

Lemma at_last_bar_ok (data : DataFrame) (k : Q -> datetime -> TradeSignal) :
  data <> [] -> exists price ts, Sig.at_last_bar data k = Ok (k price ts).
Proof.
  intro H. unfold Sig.at_last_bar.
  destruct (iloc_last_ok (col_close data) (map_nonempty _ _ H)) as [p Hp].
  destruct (iloc_last_ok (col_timestamp data) (map_nonempty _ _ H)) as [t Ht].
  rewrite Hp, Ht. simpl. eauto.
Qed.

Ltac hold_reason :=
  unfold Terms.holds_with_reason; eexists; split; [reflexivity|];
  split; [reflexivity|]; unfold Terms.explanatory_reasons; simpl; tauto.

Lemma at_last_bar_holds (data : DataFrame) (symbol : string) (st : XFloat.t)
  (r : Reason) :
  data <> [] -> In r Terms.explanatory_reasons ->
  Terms.holds_with_reason
    (Sig.at_last_bar data (fun price ts => mkTradeSignal SIG_HOLD symbol price ts st r)).
Proof.
  intros H Hr. destruct (at_last_bar_ok data
    (fun price ts => mkTradeSignal SIG_HOLD symbol price ts st r) H) as [p [t E]].
  rewrite E. eexists. split; [reflexivity|]. split; [reflexivity|exact Hr].
Qed.

(** Below its minimum length every strategy holds for want of data. *)
Lemma short_history_holds (s : Strategy) (data : DataFrame) (symbol : string)
  (current_position : option Z) :
  data <> [] ->
  (List.length data < Strat.minimum_length s)%nat ->
  Terms.holds_with_reason (Strat.generate_signal s data symbol current_position).
Proof.
  intros Hne Hshort. apply Nat.ltb_lt in Hshort.
  destruct s as [r|m|e|c|k]; simpl in Hshort |- *;
    [ unfold RSI.generate_signal | unfold MA.generate_signal
    | unfold EMA.generate_signal | unfold Combined.generate_signal
    | unfold Stochastic.generate_signal ];
    rewrite Hshort; apply at_last_bar_holds; try exact Hne;
    unfold Terms.explanatory_reasons; simpl; tauto.
Qed.

(** Peel the first call off a successful sequence of calls. *)
Ltac first_call H E :=
  match type of H with
  | Py.bind ?m _ = Ok _ =>
      destruct m eqn:E; cbn [Py.bind] in H |- *; [|discriminate H]
  end.

(** Once the history is long enough, a [nan] among the indicator values on
    the last bar makes every strategy hold. *)
Lemma nan_indicator_holds (s : Strategy) (data : DataFrame) (symbol : string)
  (current_position : option Z) (vs : list XFloat.t) :
  data <> [] ->
  (Strat.minimum_length s <= List.length data)%nat ->
  Terms.last_indicators s data symbol current_position = Ok vs ->
  existsb XFloat.isnan vs = true ->
  Terms.holds_with_reason (Strat.generate_signal s data symbol current_position).
Proof.
  intros Hne Hlong Hind Hnan. apply Nat.ltb_ge in Hlong.
  destruct (iloc_last_ok (col_close data) (map_nonempty _ _ Hne)) as [p Hp].
  destruct (iloc_last_ok (col_timestamp data) (map_nonempty _ _ Hne)) as [t Ht].
  destruct s as [r|m|e|c|k];
    cbn [Strat.generate_signal Strat.minimum_length Terms.last_indicators]
      in Hlong, Hind |- *.
  - (* RSI *)
    unfold RSI.generate_signal. rewrite Hlong. cbv zeta.
    first_call Hind E1. inversion Hind; subst vs; clear Hind.
    cbn [existsb] in Hnan. rewrite orb_false_r in Hnan.
    rewrite Hp, Ht. cbn [Py.bind]. rewrite Hnan. hold_reason.
  - (* MA crossover *)
    unfold MA.generate_signal. rewrite Hlong. cbv zeta in Hind |- *.
    first_call Hind E1. first_call Hind E2. first_call Hind E3. first_call Hind E4.
    inversion Hind; subst vs; clear Hind.
    cbn [existsb] in Hnan. rewrite orb_false_r in Hnan.
    rewrite Hp, Ht. cbn [Py.bind]. rewrite Hnan. hold_reason.
  - (* EMA crossover *)
    unfold EMA.generate_signal. rewrite Hlong.
    first_call Hind E1. first_call Hind E2. first_call Hind E3. first_call Hind E4.
    first_call Hind E5. first_call Hind E6.
    inversion Hind; subst vs; clear Hind.
    cbn [existsb] in Hnan. rewrite orb_false_r in Hnan.
    cbn [Py.bind]. rewrite Hp, Ht. cbn [Py.bind]. rewrite Hnan. hold_reason.
  - (* Combined *)
    unfold Combined.generate_signal. rewrite Hlong. cbv zeta in Hind |- *.
    first_call Hind E1. first_call Hind E2. first_call Hind E3. first_call Hind E4.
    first_call Hind E5. first_call Hind E6. first_call Hind E7.
    inversion Hind; subst vs; clear Hind.
    cbn [existsb] in Hnan. rewrite orb_false_r, orb_assoc in Hnan.
    cbn [Py.bind]. rewrite Hp, Ht. cbn [Py.bind]. rewrite Hnan. hold_reason.
  - (* Stochastic *)
    unfold Stochastic.generate_signal. rewrite Hlong.
    first_call Hind E1. cbn [Py.bind].
    destruct (List.length a <? d_period k)%nat.
    + apply at_last_bar_holds; [exact Hne|].
      unfold Terms.explanatory_reasons; simpl; tauto.
    + cbv zeta in Hind |- *.
      first_call Hind E2. first_call Hind E3. first_call Hind E4. first_call Hind E5.
      inversion Hind; subst vs; clear Hind.
      cbn [existsb] in Hnan. rewrite orb_false_r in Hnan.
      cbn [Py.bind]. rewrite Hnan.
      apply at_last_bar_holds; [exact Hne|].
      unfold Terms.explanatory_reasons; simpl; tauto.
Qed.

(** *** The RSI of a flat window *)

Lemma iloc_last_snoc {A : Type} (l : list A) (x : A) : Pd.iloc_last (l ++ [x]) = Ok x.
Proof. unfold Pd.iloc_last. now rewrite rev_app_distr. Qed.

Lemma diff_from_flat (c : Q) (k : nat) :
  Pd.diff_from c (repeat c k) = repeat (Fin (c - c)) k.
Proof. induction k; simpl; congruence. Qed.

Lemma diff_from_app (prev : Q) (a b : list Q) :
  exists p, Pd.diff_from prev (a ++ b) = (Pd.diff_from prev a ++ Pd.diff_from p b)%list.
Proof.
  revert prev. induction a as [|x a IH]; intro prev; simpl.
  - now exists prev.
  - destruct (IH x) as [p E]. exists p. now rewrite E.
Qed.

(** The differences of a series that ends with [k + 1] equal prices end with
    [k] zeros. *)
Lemma diff_flat_tail (pre : list Q) (c : Q) (k : nat) :
  exists d, Pd.diff (pre ++ repeat c (k + 1)) = (d ++ repeat (Fin (c - c)) k)%list
            /\ List.length d = S (List.length pre).
Proof.
  replace (k + 1)%nat with (S k) by lia. simpl repeat.
  destruct pre as [|x pre]; simpl.
  - exists [NaN]. now rewrite diff_from_flat.
  - destruct (diff_from_app x pre (c :: repeat c k)) as [p E]. rewrite E.
    simpl. rewrite diff_from_flat.
    exists (NaN :: Pd.diff_from x pre ++ [Fin (c - p)])%list. split.
    + simpl. now rewrite <- app_assoc.
    + simpl. rewrite length_app. simpl.
      assert (L : forall q l, List.length (Pd.diff_from q l) = List.length l).
      { intros q l. revert q. induction l; intro q; simpl; auto. }
      rewrite L. lia.
Qed.

Lemma sum_zeros (k : nat) (a : Q) :
  exists z, fold_left XFloat.add (repeat (Fin 0) k) (Fin a) = Fin z /\ z == a.
Proof.
  revert a. induction k as [|k IH]; intro a; simpl.
  - exists a. split; [reflexivity|lra].
  - destruct (IH (a + 0)) as [z [E Hz]]. exists z. split; [exact E|lra].
Qed.

Lemma mean_zeros (w : nat) :
  (1 <= w)%nat -> exists g, Pd.mean (repeat (Fin 0) w) = Fin g /\ g == 0.
Proof.
  intro Hw. unfold Pd.mean.
  assert (N : existsb XFloat.isnan (repeat (Fin 0) w) = false).
  { induction w; simpl; auto. destruct w; auto. apply IHw. lia. }
  rewrite N. unfold Pd.sum. destruct (sum_zeros w 0) as [z [E Hz]]. rewrite E.
  rewrite repeat_length. unfold XFloat.of_nat, XFloat.div.
  assert (Hnz : ~ inject_Z (Z.of_nat w) == 0).
  { unfold Qeq. simpl. lia. }
  destruct (Qeq_bool (inject_Z (Z.of_nat w)) 0) eqn:Eb.
  - apply Qeq_bool_iff in Eb. contradiction.
  - eexists. split; [reflexivity|]. rewrite Hz. field. exact Hnz.
Qed.

(** The rolling mean of a series that ends with a full window of zeros ends
    with a zero. *)
Lemma rolling_mean_zero_tail (w : nat) (s0 : Pd.Series) :
  (1 <= w)%nat ->
  exists r g,
    Pd.rolling_mean w (s0 ++ repeat (Fin 0) w) = (r ++ [Fin g])%list
    /\ g == 0 /\ List.length r = (List.length s0 + w - 1)%nat.
Proof.
  intro Hw. unfold Pd.rolling_mean.
  rewrite length_app, repeat_length.
  set (s := (s0 ++ repeat (Fin 0) w)%list).
  set (n := (List.length s0 + w - 1)%nat).
  replace (List.length s0 + w)%nat with (S n) by (unfold n; lia).
  rewrite seq_S, map_app. cbn [map Nat.add].
  assert (T1 : (n + 1 <? w)%nat = false) by (apply Nat.ltb_ge; unfold n; lia).
  assert (T2 : (w =? 0)%nat = false) by (apply Nat.eqb_neq; lia).
  rewrite T1, T2. cbn [orb].
  assert (W : Pd.window (n + 1 - w) w s = repeat (Fin 0) w).
  { replace (n + 1 - w)%nat with (List.length s0) by (unfold n; lia).
    unfold Pd.window, s. rewrite skipn_app, skipn_all, Nat.sub_diag. simpl.
    apply firstn_all2. rewrite repeat_length. lia. }
  rewrite W.
  destruct (mean_zeros w Hw) as [g [E Hg]]. rewrite E.
  eexists. exists g. split; [reflexivity|]. split; [exact Hg|].
  rewrite length_map, length_seq. reflexivity.
Qed.

Lemma zip_with_snoc {A B C : Type} (f : A -> B -> C) (a : list A) (b : list B)
  (x : A) (y : B) :
  List.length a = List.length b ->
  Pd.zip_with f (a ++ [x]) (b ++ [y]) = (Pd.zip_with f a b ++ [f x y])%list.
Proof.
  unfold Pd.zip_with. revert b.
  induction a as [|a0 a IH]; intros [|b0 b] H; simpl in *; try discriminate.
  - reflexivity.
  - f_equal. apply IH. now injection H.
Qed.

Lemma div_zero_by_zero (g l : Q) : g == 0 -> l == 0 -> XFloat.div (Fin g) (Fin l) = NaN.
Proof.
  intros Hg Hl. unfold XFloat.div.
  apply Qeq_bool_iff in Hl. rewrite Hl.
  apply Qeq_alt in Hg. now rewrite Hg.
Qed.

(** "NaN from a flat window": when the last [period + 1] closing prices are
    equal, the average gain and the average loss are both zero and the RSI on
    the last bar is [nan]. *)
Lemma rsi_flat_window_is_nan (pre : list Q) (c : Q) (period : nat) :
  (1 <= period)%nat ->
  Pd.iloc_last (RSI.calculate_rsi (pre ++ repeat c (period + 1)) period) = Ok NaN.
Proof.
  intro Hp. unfold RSI.calculate_rsi. cbv zeta.
  destruct (diff_flat_tail pre c period) as [d [Ed Ld]]. rewrite Ed.
  unfold Pd.where0. rewrite !map_app, !map_repeat.
  assert (G : XFloat.gtb (Fin (c - c)) (Fin 0) = false).
  { unfold XFloat.gtb, XFloat.ltb. apply ltb_ge. lra. }
  assert (L : XFloat.ltb (Fin (c - c)) (Fin 0) = false).
  { unfold XFloat.ltb. apply ltb_ge. lra. }
  rewrite G, L.
  change (XFloat.neg (Fin 0)) with (Fin 0).
  destruct (rolling_mean_zero_tail period
              (map (fun x => if XFloat.gtb x (Fin 0) then x else Fin 0) d) Hp)
    as [r1 [g [E1 [Hg L1]]]].
  destruct (rolling_mean_zero_tail period
              (map XFloat.neg
                 (map (fun x => if XFloat.ltb x (Fin 0) then x else Fin 0) d)) Hp)
    as [r2 [l [E2 [Hl L2]]]].
  rewrite E1, E2.
  rewrite zip_with_snoc by (rewrite L1, L2, !length_map; reflexivity).
  rewrite (div_zero_by_zero g l Hg Hl), map_app. cbn [map].
  apply iloc_last_snoc.
Qed.

(** On such a history the RSI strategy holds, giving the undefined RSI as its
    reason. *)
Lemma rsi_holds_on_flat_window (s : RSIStrategy) (data : DataFrame) (symbol : string)
  (current_position : option Z) (pre : list Q) (c : Q) :
  (1 <= rsi_period s)%nat ->
  col_close data = (pre ++ repeat c (rsi_period s + 1))%list ->
  exists sg,
    RSI.generate_signal s data symbol current_position = Ok sg /\
    signal sg = SIG_HOLD /\
    reason sg = ("RSI calculation returned NaN"%string, []).
Proof.
  intros Hp Hc.
  assert (Hlen : List.length data = (List.length pre + (rsi_period s + 1))%nat).
  { rewrite <- (length_map bar_close data). fold (col_close data).
    rewrite Hc, length_app, repeat_length. reflexivity. }
  assert (Hne : data <> []).
  { intro E. rewrite E in Hlen. simpl in Hlen. lia. }
  destruct (iloc_last_ok (col_close data) (map_nonempty _ _ Hne)) as [p Hpc].
  destruct (iloc_last_ok (col_timestamp data) (map_nonempty _ _ Hne)) as [t Ht].
  unfold RSI.generate_signal.
  assert (T : (List.length data <? rsi_period s + 1)%nat = false)
    by (apply Nat.ltb_ge; lia).
  rewrite T. cbv zeta. rewrite Hpc, Ht.
  rewrite Hc, (rsi_flat_window_is_nan pre c (rsi_period s) Hp).
  cbn [Py.bind XFloat.isnan].
  eexists. split; [reflexivity|]. split; reflexivity.
Qed.

(** *** The claim and its limits *)

(** The claim of C8 fails twice.  The empty history is shorter than every
    minimum length, and on it RSI and Stochastic raise IndexError instead of
    holding.  And in Stochastic a flat window, where the %K ratio is 0/0,
    does not lead to HOLD: on a history whose last 14 bars are flat at 100 the
    strategy asks a long holder to CLOSE. *)
Lemma short_or_undefined_does_not_always_hold :
  (List.length (@nil Bar) < Strat.minimum_length (StratRSI (mkRSI 14 30 70 50)))%nat /\
  Strat.generate_signal (StratRSI (mkRSI 14 30 70 50)) [] "ACME" (Some 0%Z)
    = Raise IndexError /\
  (List.length (@nil Bar)
   < Strat.minimum_length (StratStochastic (mkStochastic 14 3 20 80)))%nat /\
  Strat.generate_signal (StratStochastic (mkStochastic 14 3 20 80)) [] "ACME"
    (Some 0%Z) = Raise IndexError /\
  (exists highest lowest,
     Pd.np_max (Pd.window 3 14 (col_high Scenario.flat_tail)) = Ok highest /\
     Pd.np_min (Pd.window 3 14 (col_low Scenario.flat_tail)) = Ok lowest /\
     highest - lowest == 0) /\
  exists sg,
    Strat.generate_signal (StratStochastic (mkStochastic 14 3 20 80))
      Scenario.flat_tail "ACME" (Some 10%Z) = Ok sg /\
    signal sg = SIG_CLOSE.
Proof.
  split; [simpl; lia|]. split; [reflexivity|].
  split; [simpl; lia|]. split; [reflexivity|].
  split.
  - exists 100, 100. split; [vm_compute; reflexivity|].
    split; [vm_compute; reflexivity|reflexivity].
  - destruct (Strat.generate_signal (StratStochastic (mkStochastic 14 3 20 80))
                Scenario.flat_tail "ACME" (Some 10%Z)) as [sg|e] eqn:E;
      vm_compute in E; [|discriminate].
    inversion E; subst. eexists. split; reflexivity.
Qed.

Lemma k_value_flat_window (kp : nat) (highs lows closes : list Q) (i : nat)
  (close_price highest lowest : Q) :
  Pd.index closes (Z.of_nat i + Z.of_nat kp - 1)%Z = Ok close_price ->
  Pd.np_max (Pd.window i kp highs) = Ok highest ->
  Pd.np_min (Pd.window i kp lows) = Ok lowest ->
  highest == lowest ->
  Stochastic.k_value kp highs lows closes i = Ok 50.
Proof.
  intros Hc Hh Hl Heq. unfold Stochastic.k_value. cbv zeta.
  rewrite Hc, Hh, Hl. cbn [Py.bind].
  apply Qeq_bool_iff in Heq. now rewrite Heq.
Qed.

(** C8, as the code has it.  On a non-empty bar history every strategy (RSI,
    MA crossover, EMA crossover, Combined, Stochastic) returns, without
    raising, a HOLD signal with an explanatory reason when the history is
    shorter than its minimum length (lookback + 1; [k_period + d_period] for
    Stochastic), and also when the history is long enough and one of the
    indicator values it reads on the last bar is [nan].  Stochastic takes a
    window whose highest high equals its lowest low as %K = 50 and goes on
    with its ordinary rules. *)
Theorem hold_on_short_history_or_nan_indicator
  (s : Strategy) (data : DataFrame) (symbol : string) (current_position : option Z) :
  data <> [] ->
  (List.length data < Strat.minimum_length s)%nat
  \/ ((Strat.minimum_length s <= List.length data)%nat
      /\ exists vs,
           Terms.last_indicators s data symbol current_position = Ok vs
           /\ existsb XFloat.isnan vs = true) ->
  Terms.holds_with_reason (Strat.generate_signal s data symbol current_position)
  /\ (forall kp highs lows closes i close_price highest lowest,
        Pd.index closes (Z.of_nat i + Z.of_nat kp - 1)%Z = Ok close_price ->
        Pd.np_max (Pd.window i kp highs) = Ok highest ->
        Pd.np_min (Pd.window i kp lows) = Ok lowest ->
        highest == lowest ->
        Stochastic.k_value kp highs lows closes i = Ok 50).
Proof.
  intros Hne Hcase. split.
  - destruct Hcase as [Hshort | [Hlong [vs [Hind Hnan]]]].
    + now apply short_history_holds.
    + now apply (nan_indicator_holds s data symbol current_position vs).
  - intros. eapply k_value_flat_window; eassumption.
Qed.

Lemma hold_on_short_history_or_nan_indicator_witness :
  Terms.holds_with_reason
    (Strat.generate_signal (StratRSI (mkRSI 14 30 70 50)) Scenario.flat "ACME"
       (Some 0%Z))
  /\ (forall kp highs lows closes i close_price highest lowest,
        Pd.index closes (Z.of_nat i + Z.of_nat kp - 1)%Z = Ok close_price ->
        Pd.np_max (Pd.window i kp highs) = Ok highest ->
        Pd.np_min (Pd.window i kp lows) = Ok lowest ->
        highest == lowest ->
        Stochastic.k_value kp highs lows closes i = Ok 50).
Proof.
  apply (hold_on_short_history_or_nan_indicator (StratRSI (mkRSI 14 30 70 50))
           Scenario.flat "ACME" (Some 0%Z)).
  - discriminate.
  - right. split.
    + simpl. lia.
    + exists [NaN]. split; vm_compute; reflexivity.
Defined.

(** * Further properties of the sources *)

(** ** Dictionaries *)

Lemma dict_get_in {V : Type} (d : dict V) (k : string) (v : V) :
  dict_get d k = Some v -> In (k, v) d.
Proof.
  induction d as [|[k' v'] d IH]; simpl; [discriminate|].
  destruct (String.eqb k k') eqn:E.
  - apply String.eqb_eq in E. subst k'. intro H. inversion H. now left.
  - intro H. right. now apply IH.
Qed.

Lemma dict_get_none {V : Type} (d : dict V) (k : string) :
  dict_get d k = None <-> ~ In k (map fst d).
Proof.
  induction d as [|[k' v'] d IH]; simpl.
  - tauto.
  - destruct (String.eqb k k') eqn:E.
    + apply String.eqb_eq in E. subst k'. split; [discriminate|]. intro H.
      exfalso. apply H. now left.
    + apply String.eqb_neq in E. rewrite IH. split.
      * intros H [H1|H1]; [congruence|contradiction].
      * intros H H1. apply H. now right.
Qed.

Lemma Forall_dict_set {V : Type} (P : string * V -> Prop) (d : dict V)
  (k : string) (v : V) :
  Forall P d -> P (k, v) -> Forall P (dict_set d k v).
Proof.
  intros Hd Hv. induction d as [|[k' v'] d IH]; simpl.
  - constructor; [exact Hv|constructor].
  - inversion Hd; subst. destruct (String.eqb k k') eqn:E.
    + apply String.eqb_eq in E. subst k'. now constructor.
    + constructor; [assumption|]. now apply IH.
Qed.

Lemma Forall_dict_del {V : Type} (P : string * V -> Prop) (d d' : dict V)
  (k : string) :
  Forall P d -> dict_del d k = Ok d' -> Forall P d'.
Proof.
  revert d'. induction d as [|[k' v'] d IH]; simpl; intros d' Hd D; [discriminate|].
  inversion Hd; subst. destruct (String.eqb k k').
  - now inversion D; subst.
  - destruct (dict_del d k) as [r|e] eqn:R; simpl in D; [|discriminate].
    inversion D; subst. constructor; [assumption|]. now apply IH.
Qed.

Lemma symbols_dict_set_in (d : dict Position) (k : string) (v : Position) (x : string) :
  In x (Book.symbols (dict_set d k v)) <-> In x (Book.symbols d) \/ x = k.
Proof.
  unfold Book.symbols. induction d as [|[k' v'] d IH]; simpl.
  - intuition.
  - destruct (String.eqb k k') eqn:E; simpl.
    + apply String.eqb_eq in E. subst k'. intuition.
    + rewrite IH. intuition.
Qed.

Lemma NoDup_dict_set (d : dict Position) (k : string) (v : Position) :
  NoDup (Book.symbols d) -> NoDup (Book.symbols (dict_set d k v)).
Proof.
  unfold Book.symbols. induction d as [|[k' v'] d IH]; simpl; intro H.
  - constructor; [intros []|constructor].
  - inversion H; subst. destruct (String.eqb k k') eqn:E; simpl.
    + now constructor.
    + constructor; [|now apply IH].
      intro Hin. apply (symbols_dict_set_in d k v k') in Hin.
      apply String.eqb_neq in E. destruct Hin; [contradiction|congruence].
Qed.

Lemma dict_del_symbols (d d' : dict Position) (k : string) :
  dict_del d k = Ok d' ->
  forall x, In x (Book.symbols d') -> In x (Book.symbols d).
Proof.
  unfold Book.symbols. revert d'.
  induction d as [|[k' v'] d IH]; simpl; intros d' D x; [discriminate|].
  destruct (String.eqb k k').
  - inversion D; subst. now right.
  - destruct (dict_del d k) as [r|e] eqn:R; simpl in D; [|discriminate].
    inversion D; subst. simpl. intros [H|H]; [now left|right; now apply (IH r)].
Qed.

Lemma NoDup_dict_del (d d' : dict Position) (k : string) :
  NoDup (Book.symbols d) -> dict_del d k = Ok d' ->
  NoDup (Book.symbols d') /\ dict_get d' k = None.
Proof.
  unfold Book.symbols. revert d'.
  induction d as [|[k' v'] d IH]; simpl; intros d' H D; [discriminate|].
  inversion H; subst. destruct (String.eqb k k') eqn:E.
  - inversion D; subst. apply String.eqb_eq in E. subst k'.
    split; [assumption|]. now apply dict_get_none.
  - destruct (dict_del d k) as [r|e] eqn:R; simpl in D; [|discriminate].
    inversion D; subst. destruct (IH r H3 eq_refl) as [N G]. split.
    + simpl. constructor; [|exact N].
      intro Hin. apply H2. now apply (dict_del_symbols d r k R).
    + simpl. now rewrite E.
Qed.

(** ** The position book under fills *)

(** What a fill does to the book, branch by branch. *)
Lemma update_book (st st' : ExecutionEngine) (o : Order) (c : Q) :
  Engine._update_position_from_order st o c = Ok st' ->
  max_leverage st' = max_leverage st /\
  exists fp fts,
    fill_price o = Some fp /\ fill_timestamp o = Some fts /\
    match dict_get (positions st) (symbol o) with
    | None =>
        positions st'
        = dict_set (positions st) (symbol o)
            (mkPosition (symbol o) (Engine.signed_quantity o) fp fts (max_leverage st))
    | Some p =>
        if Engine.opposite_sign (pos_quantity p) (Engine.signed_quantity o) then
          if (Z.abs (Engine.signed_quantity o) >=? Z.abs (pos_quantity p))%Z then
            exists book,
              dict_del (positions st) (symbol o) = Ok book /\
              positions st'
              = if (Z.abs (Engine.signed_quantity o) >? Z.abs (pos_quantity p))%Z
                then dict_set book (symbol o)
                       (mkPosition (symbol o)
                          (pos_quantity p + Engine.signed_quantity o) fp fts
                          (max_leverage st))
                else book
          else
            positions st'
            = dict_set (positions st) (symbol o)
                (mkPosition (pos_symbol p)
                   (pos_quantity p + Engine.signed_quantity o)
                   (entry_price p) (entry_timestamp p) (leverage p))
        else
          exists avg,
            positions st'
            = dict_set (positions st) (symbol o)
                (mkPosition (pos_symbol p)
                   (pos_quantity p + Engine.signed_quantity o)
                   avg (entry_timestamp p) (leverage p))
    end.
Proof.
  unfold Engine._update_position_from_order.
  destruct (fill_price o) as [fp|]; [|discriminate].
  destruct (fill_timestamp o) as [fts|]; [|discriminate].
  destruct (dict_get (positions st) (symbol o)) as [p|] eqn:G.
  - destruct (Engine.opposite_sign (pos_quantity p) (Engine.signed_quantity o)).
    + destruct (Z.abs (Engine.signed_quantity o) >=? Z.abs (pos_quantity p))%Z.
      * simpl positions. destruct (dict_del (positions st) (symbol o)) as [book|e];
          simpl Py.bind; [|discriminate].
        destruct (Z.abs (Engine.signed_quantity o) >? Z.abs (pos_quantity p))%Z.
        -- destruct (truediv _ _); simpl; [|discriminate].
           intro E. inversion E; subst; clear E. simpl.
           split; [reflexivity|]. exists fp, fts. repeat split. now exists book.
        -- intro E. inversion E; subst; clear E. simpl.
           split; [reflexivity|]. exists fp, fts. repeat split. now exists book.
      * intro E. inversion E; subst; clear E. simpl.
        split; [reflexivity|]. exists fp, fts. repeat split.
    + destruct (truediv _ _) as [avg|]; simpl; [|discriminate].
      destruct (truediv _ _); simpl; [|discriminate].
      intro E. inversion E; subst; clear E. simpl.
      split; [reflexivity|]. exists fp, fts. repeat split. now exists avg.
  - destruct (side o); (destruct (truediv _ _); simpl; [|discriminate]);
      intro E; inversion E; subst; clear E; simpl;
      (split; [reflexivity|]); exists fp, fts; repeat split.
Qed.

(** What [execute_market_order] returns is a rejection that changes nothing,
    or a fill followed by the update of the book. *)
Lemma execute_outcome (st st' : ExecutionEngine) (o o' : Order) (price : Q)
  (prices : dict Q) (ts : datetime) (filled : bool) :
  Engine.execute_market_order st o price prices ts = Ok (filled, o', st') ->
  (filled = false /\ o' = OrderM.reject o /\ st' = st /\ side o = BUY)
  \/ (filled = true
      /\ o' = OrderM.fill o (Engine.apply_slippage st price (side o)) ts
      /\ exists st1 c,
           positions st1 = positions st /\ closed_positions st1 = closed_positions st
           /\ cash st1 = cash st /\ max_leverage st1 = max_leverage st
           /\ initial_capital st1 = initial_capital st
           /\ slippage_pct st1 = slippage_pct st
           /\ commission_pct st1 = commission_pct st
           /\ c = Engine.calculate_commission st (quantity o)
                    (Engine.apply_slippage st price (side o))
           /\ Engine._update_position_from_order st1 o' c = Ok st').
Proof.
  unfold Engine.execute_market_order. cbv zeta.
  set (ep := Engine.apply_slippage st price (side o)).
  set (cm := Engine.calculate_commission st (quantity o) ep).
  match goal with
  | |- Py.bind ?m _ = _ -> _ => destruct m as [rej|e] eqn:Em
  end; cbn [Py.bind]; [|discriminate].
  destruct rej.
  - intro E. inversion E; subst. left. repeat split.
    destruct (side o); [reflexivity|discriminate].
  - match goal with
    | |- Py.bind ?m _ = _ -> _ => destruct m as [st2|e] eqn:Eu
    end; cbn [Py.bind]; [|discriminate].
    intro E. inversion E; subst. right. split; [reflexivity|]. split; [reflexivity|].
    exists (Engine.set_order_lists st (Engine.remove_order o (pending_orders st))
              (filled_orders st ++ [OrderM.fill o ep ts]) (all_orders st)), cm.
    repeat split; try reflexivity. exact Eu.
Qed.

Lemma update_keeps_one_per_symbol (st st' : ExecutionEngine) (o : Order) (c : Q) :
  Book.one_per_symbol st ->
  Engine._update_position_from_order st o c = Ok st' ->
  Book.one_per_symbol st'.
Proof.
  intros [Hnd Hsym] Hup. unfold Book.one_per_symbol.
  destruct (update_book st st' o c Hup) as [_ [fp [fts [_ [_ Hbook]]]]].
  destruct (dict_get (positions st) (symbol o)) as [p|] eqn:G.
  - assert (Hp : pos_symbol p = symbol o).
    { apply dict_get_in in G. rewrite Forall_forall in Hsym. exact (Hsym _ G). }
    destruct (Engine.opposite_sign _ _).
    + destruct (Z.abs (Engine.signed_quantity o) >=? Z.abs (pos_quantity p))%Z.
      * destruct Hbook as [book [D Hb]].
        destruct (NoDup_dict_del _ _ _ Hnd D) as [Hnd' _].
        pose proof (Forall_dict_del _ _ _ _ Hsym D) as Hsym'.
        destruct (Z.abs (Engine.signed_quantity o) >? Z.abs (pos_quantity p))%Z;
          rewrite Hb.
        -- split; [now apply NoDup_dict_set|]. now apply Forall_dict_set.
        -- now split.
      * rewrite Hbook. split; [now apply NoDup_dict_set|].
        apply Forall_dict_set; [exact Hsym|exact Hp].
    + destruct Hbook as [avg Hb]. rewrite Hb.
      split; [now apply NoDup_dict_set|].
      apply Forall_dict_set; [exact Hsym|exact Hp].
  - rewrite Hbook. split; [now apply NoDup_dict_set|]. now apply Forall_dict_set.
Qed.

Lemma execute_keeps_one_per_symbol (st st' : ExecutionEngine) (o o' : Order)
  (price : Q) (prices : dict Q) (ts : datetime) (filled : bool) :
  Book.one_per_symbol st ->
  Engine.execute_market_order st o price prices ts = Ok (filled, o', st') ->
  Book.one_per_symbol st'.
Proof.
  intros Hinv Hex.
  destruct (execute_outcome _ _ _ _ _ _ _ _ Hex)
    as [[_ [_ [E _]]] | [_ [_ [st1 [c [Hp [_ [_ [_ [_ [_ [_ [_ Hup]]]]]]]]]]]]].
  - now subst.
  - apply (update_keeps_one_per_symbol st1 st' o' c); [|exact Hup].
    unfold Book.one_per_symbol. now rewrite Hp.
Qed.

(** X1.  One position per symbol.  Along every run of [execute_market_order]
    calls that starts from a book with at most one position per symbol, each
    stored under its own symbol (the empty book of a fresh engine is one), the
    book keeps that shape: no symbol ever holds two positions. *)
Theorem run_keeps_one_position_per_symbol
  (st0 st : ExecutionEngine) (calls : list Book.call) :
  Book.one_per_symbol st0 ->
  Book.run st0 calls = Ok st ->
  Book.one_per_symbol st.
Proof.
  revert st0. induction calls as [|[[[o price] prices] ts] calls IH];
    intros st0 Hinv Hrun; simpl in Hrun.
  - now inversion Hrun; subst.
  - destruct (Engine.execute_market_order st0 o price prices ts)
      as [[[b o'] st1]|e] eqn:E; cbn [Py.bind] in Hrun; [|discriminate].
    apply (IH st1); [|exact Hrun].
    now apply (execute_keeps_one_per_symbol st0 st1 o o' price prices ts b).
Qed.

Lemma run_keeps_one_position_per_symbol_witness :
  exists st,
    Book.run Scenario.start Example.round_trip = Ok st /\ Book.one_per_symbol st.
Proof.
  destruct (Book.run Scenario.start Example.round_trip) as [st|e] eqn:E;
    [|vm_compute in E; discriminate].
  exists st. split; [reflexivity|].
  apply (run_keeps_one_position_per_symbol Scenario.start st Example.round_trip).
  - split; constructor.
  - exact E.
Defined.

Lemma update_keeps_no_empty_position (st st' : ExecutionEngine) (o : Order) (c : Q) :
  Book.no_empty_position st ->
  Engine.signed_quantity o <> 0%Z ->
  Engine._update_position_from_order st o c = Ok st' ->
  Book.no_empty_position st'.
Proof.
  intros Hne Hq Hup. unfold Book.no_empty_position in *.
  destruct (update_book st st' o c Hup) as [_ [fp [fts [_ [_ Hbook]]]]].
  destruct (dict_get (positions st) (symbol o)) as [p|] eqn:G.
  - assert (Hp : pos_quantity p <> 0%Z).
    { apply dict_get_in in G. rewrite Forall_forall in Hne. exact (Hne _ G). }
    destruct (Engine.opposite_sign _ _) eqn:Hopp.
    + apply opposite_sign_true in Hopp.
      destruct (Z.abs (Engine.signed_quantity o) >=? Z.abs (pos_quantity p))%Z eqn:Hge.
      * destruct Hbook as [book [D Hb]].
        pose proof (Forall_dict_del _ _ _ _ Hne D) as Hne'.
        destruct (Z.abs (Engine.signed_quantity o) >? Z.abs (pos_quantity p))%Z eqn:Hgt;
          rewrite Hb; [|exact Hne'].
        apply Forall_dict_set; [exact Hne'|]. simpl. apply Z.gtb_lt in Hgt. lia.
      * rewrite Hbook. apply Forall_dict_set; [exact Hne|]. simpl.
        assert (~ (Z.abs (pos_quantity p) <= Z.abs (Engine.signed_quantity o))%Z).
        { intro H. apply Z.geb_le in H. congruence. }
        lia.
    + destruct Hbook as [avg Hb]. rewrite Hb.
      apply Forall_dict_set; [exact Hne|]. simpl.
      assert (Hn : ~ ((0 < pos_quantity p /\ Engine.signed_quantity o < 0)
                      \/ (pos_quantity p < 0 /\ 0 < Engine.signed_quantity o))%Z).
      { intro H. apply opposite_sign_true in H. congruence. }
      lia.
  - rewrite Hbook. apply Forall_dict_set; [exact Hne|]. exact Hq.
Qed.

(** X2.  No empty position.  Along every run of orders of positive quantity
    that starts from a book without a zero-quantity position, the book never
    holds a position of quantity zero: a fill that brings a position to zero
    removes it. *)
Theorem run_keeps_no_empty_position
  (st0 st : ExecutionEngine) (calls : list Book.call) :
  Book.no_empty_position st0 ->
  Forall (fun c : Book.call => (0 < quantity (fst (fst (fst c))))%Z) calls ->
  Book.run st0 calls = Ok st ->
  Book.no_empty_position st.
Proof.
  revert st0. induction calls as [|[[[o price] prices] ts] calls IH];
    intros st0 Hinv Hpos Hrun; simpl in Hrun.
  - now inversion Hrun; subst.
  - inversion Hpos as [|x l Hpo Hrest]; subst. simpl in Hpo.
    destruct (Engine.execute_market_order st0 o price prices ts)
      as [[[b o'] st1]|e] eqn:E; cbn [Py.bind] in Hrun; [|discriminate].
    apply (IH st1); [|exact Hrest|exact Hrun].
    destruct (execute_outcome _ _ _ _ _ _ _ _ E)
      as [[_ [_ [Es _]]] | [_ [Eo [st2 [c [Hp [_ [_ [_ [_ [_ [_ [_ Hup]]]]]]]]]]]]].
    + now subst.
    + apply (update_keeps_no_empty_position st2 st1 o' c); [| |exact Hup].
      * unfold Book.no_empty_position. now rewrite Hp.
      * subst o'. apply signed_quantity_nonzero. exact Hpo.
Qed.

Lemma run_keeps_no_empty_position_witness :
  exists st,
    Book.run Scenario.start Example.round_trip = Ok st /\ Book.no_empty_position st.
Proof.
  destruct (Book.run Scenario.start Example.round_trip) as [st|e] eqn:E;
    [|vm_compute in E; discriminate].
  exists st. split; [reflexivity|].
  apply (run_keeps_no_empty_position Scenario.start st Example.round_trip).
  - constructor.
  - repeat constructor.
  - exact E.
Defined.

Lemma update_keeps_engine_leverage (st st' : ExecutionEngine) (o : Order) (c : Q) :
  Book.engine_leverage st ->
  Engine._update_position_from_order st o c = Ok st' ->
  Book.engine_leverage st'.
Proof.
  intros Hlev Hup. unfold Book.engine_leverage in *.
  destruct (update_book st st' o c Hup) as [Hml [fp [fts [_ [_ Hbook]]]]].
  rewrite Hml.
  destruct (dict_get (positions st) (symbol o)) as [p|] eqn:G.
  - assert (Hp : leverage p = max_leverage st).
    { apply dict_get_in in G. rewrite Forall_forall in Hlev. exact (Hlev _ G). }
    destruct (Engine.opposite_sign _ _).
    + destruct (Z.abs (Engine.signed_quantity o) >=? Z.abs (pos_quantity p))%Z.
      * destruct Hbook as [book [D Hb]].
        pose proof (Forall_dict_del _ _ _ _ Hlev D) as Hlev'.
        destruct (Z.abs (Engine.signed_quantity o) >? Z.abs (pos_quantity p))%Z;
          rewrite Hb; [|exact Hlev'].
        now apply Forall_dict_set.
      * rewrite Hbook. now apply Forall_dict_set.
    + destruct Hbook as [avg Hb]. rewrite Hb. now apply Forall_dict_set.
  - rewrite Hbook. now apply Forall_dict_set.
Qed.

Lemma margin_used_loop_defined (items : dict Position) (prices : dict Q) (acc : Q) :
  Forall (fun kp => ~ leverage (snd kp) == 0) items ->
  Engine.margin_used_loop items prices acc
  = Ok (fold_left
          (fun m kp =>
             m + PositionM.get_position_value (snd kp)
                   (Engine.price_for prices (fst kp) (snd kp))
                 / leverage (snd kp))
          items acc).
Proof.
  revert acc. induction items as [|[s p] items IH]; intros acc H; simpl.
  - reflexivity.
  - inversion H; subst. simpl in *.
    unfold PositionM.get_margin_required. cbv zeta.
    rewrite (truediv_ok _ _ H2). cbn [Py.bind]. now rewrite IH.
Qed.

(** X3.  Along every run from an engine of non-zero leverage whose positions
    carry the engine's leverage (a fresh engine has none), every stored
    position keeps carrying it, and so [calculate_available_capital] always
    returns, never raises, and what it returns is never negative. *)
Theorem available_capital_defined_along_runs
  (st0 st : ExecutionEngine) (calls : list Book.call) (prices : dict Q) :
  Book.engine_leverage st0 ->
  ~ max_leverage st0 == 0 ->
  Book.run st0 calls = Ok st ->
  Book.engine_leverage st /\
  max_leverage st = max_leverage st0 /\
  exists available,
    Engine.calculate_available_capital st prices = Ok available /\ 0 <= available.
Proof.
  intros Hinv Hlev Hrun.
  assert (Hst : Book.engine_leverage st /\ max_leverage st = max_leverage st0).
  { revert st0 Hinv Hlev Hrun.
    induction calls as [|[[[o price] pr] ts] calls IH];
      intros st0 Hinv Hlev Hrun; simpl in Hrun.
    - inversion Hrun; subst. now split.
    - destruct (Engine.execute_market_order st0 o price pr ts)
        as [[[b o'] st1]|e] eqn:E; cbn [Py.bind] in Hrun; [|discriminate].
      simpl snd in Hrun.
      destruct (execute_outcome _ _ _ _ _ _ _ _ E)
        as [[_ [_ [Es _]]] | [_ [_ [st2 [c [Hp [_ [_ [Hm [_ [_ [_ [_ Hup]]]]]]]]]]]]].
      + subst st1. now apply IH.
      + assert (H2 : Book.engine_leverage st2).
        { unfold Book.engine_leverage. now rewrite Hp, Hm. }
        pose proof (update_keeps_engine_leverage st2 st1 o' c H2 Hup) as H1.
        destruct (update_book st2 st1 o' c Hup) as [Hm1 _].
        assert (Em : max_leverage st1 = max_leverage st0) by congruence.
        destruct (IH st1 H1) as [A B]; [now rewrite Em|exact Hrun|].
        split; [exact A|congruence]. }
  destruct Hst as [Hl Hm]. split; [exact Hl|]. split; [exact Hm|].
  unfold Engine.calculate_available_capital.
  rewrite margin_used_loop_defined.
  - cbn [Py.bind]. eexists. split; [reflexivity|].
    unfold Py.max. destruct (gtb 0 _) eqn:G; [lra|]. now apply gtb_le in G.
  - unfold Book.engine_leverage in Hl. rewrite Forall_forall in *.
    intros kp Hin. rewrite (Hl kp Hin), Hm. exact Hlev.
Qed.

Lemma available_capital_defined_along_runs_witness :
  exists st,
    Book.run Scenario.start Example.round_trip = Ok st /\
    Book.engine_leverage st /\
    max_leverage st = max_leverage Scenario.start /\
    exists available,
      Engine.calculate_available_capital st (Scenario.prices_at 110) = Ok available
      /\ 0 <= available.
Proof.
  destruct (Book.run Scenario.start Example.round_trip) as [st|e] eqn:E;
    [|vm_compute in E; discriminate].
  exists st. split; [reflexivity|].
  apply (available_capital_defined_along_runs Scenario.start st Example.round_trip
           (Scenario.prices_at 110)).
  - constructor.
  - intro H. vm_compute in H. discriminate.
  - exact E.
Defined.

Lemma update_moves_quantity (st st' : ExecutionEngine) (o : Order) (c : Q)
  (sym : string) :
  NoDup (Book.symbols (positions st)) ->
  Engine._update_position_from_order st o c = Ok st' ->
  Engine.get_position_quantity st' sym
  = (Engine.get_position_quantity st sym
     + if String.eqb sym (symbol o) then Engine.signed_quantity o else 0)%Z.
Proof.
  intros Hnd Hup. unfold Engine.get_position_quantity.
  destruct (update_book st st' o c Hup) as [_ [fp [fts [_ [_ Hbook]]]]].
  destruct (String.eqb sym (symbol o)) eqn:Es.
  - apply String.eqb_eq in Es. subst sym.
    destruct (dict_get (positions st) (symbol o)) as [p|] eqn:G.
    + destruct (Engine.opposite_sign _ _) eqn:Hopp.
      * apply opposite_sign_true in Hopp.
        destruct (Z.abs (Engine.signed_quantity o) >=? Z.abs (pos_quantity p))%Z eqn:Hge.
        -- destruct Hbook as [book [D Hb]].
           destruct (NoDup_dict_del _ _ _ Hnd D) as [_ Hnone].
           destruct (Z.abs (Engine.signed_quantity o) >? Z.abs (pos_quantity p))%Z eqn:Hgt;
             rewrite Hb.
           ++ now rewrite dict_get_set_same.
           ++ rewrite Hnone. apply Z.geb_le in Hge.
              assert (~ (Z.abs (pos_quantity p) < Z.abs (Engine.signed_quantity o))%Z).
              { intro H. apply Z.gtb_lt in H. congruence. }
              lia.
        -- rewrite Hbook. now rewrite dict_get_set_same.
      * destruct Hbook as [avg Hb]. rewrite Hb. now rewrite dict_get_set_same.
    + rewrite Hbook, dict_get_set_same. simpl. lia.
  - apply String.eqb_neq in Es. rewrite Z.add_0_r.
    assert (Hother : dict_get (positions st') sym = dict_get (positions st) sym).
    { destruct (dict_get (positions st) (symbol o)) as [p|] eqn:G.
      - destruct (Engine.opposite_sign _ _).
        + destruct (Z.abs (Engine.signed_quantity o) >=? Z.abs (pos_quantity p))%Z.
          * destruct Hbook as [book [D Hb]]. rewrite Hb.
            destruct (Z.abs (Engine.signed_quantity o) >? Z.abs (pos_quantity p))%Z.
            -- rewrite dict_get_set_other by exact Es.
               now apply (dict_del_other _ _ _ _ D).
            -- now apply (dict_del_other _ _ _ _ D).
          * rewrite Hbook. now apply dict_get_set_other.
        + destruct Hbook as [avg Hb]. rewrite Hb. now apply dict_get_set_other.
      - rewrite Hbook. now apply dict_get_set_other. }
    now rewrite Hother.
Qed.

(** X4.  Net position.  Along every run that starts from a book with one
    position per symbol, the quantity [get_position_quantity] reports for a
    symbol is the quantity at the start plus the signed quantities (BUY
    positive, SELL negative) of the orders of the run that were filled for
    that symbol; rejected orders and orders for other symbols do not move
    it. *)
Theorem position_quantity_is_net_of_fills
  (st0 st : ExecutionEngine) (calls : list Book.call) (sym : string) :
  Book.one_per_symbol st0 ->
  Book.run st0 calls = Ok st ->
  Engine.get_position_quantity st sym
  = (Engine.get_position_quantity st0 sym + Book.net_filled st0 calls sym)%Z.
Proof.
  revert st0. induction calls as [|[[[o price] prices] ts] calls IH];
    intros st0 Hinv Hrun; simpl in Hrun |- *.
  - inversion Hrun; subst. lia.
  - destruct (Engine.execute_market_order st0 o price prices ts)
      as [[[b o'] st1]|e] eqn:E; cbn [Py.bind] in Hrun; [|discriminate].
    simpl snd in Hrun.
    pose proof (execute_keeps_one_per_symbol _ _ _ _ _ _ _ _ Hinv E) as Hinv1.
    rewrite (IH st1 Hinv1 Hrun).
    destruct (execute_outcome _ _ _ _ _ _ _ _ E)
      as [[Eb [_ [Es _]]] | [Eb [Eo [st2 [c [Hp [_ [_ [_ [_ [_ [_ [_ Hup]]]]]]]]]]]]].
    + subst. simpl. lia.
    + subst b. simpl andb.
      assert (Hnd : NoDup (Book.symbols (positions st2))).
      { rewrite Hp. apply Hinv. }
      rewrite (update_moves_quantity st2 st1 o' c sym Hnd Hup).
      unfold Engine.get_position_quantity at 1. rewrite Hp.
      fold (Engine.get_position_quantity st0 sym).
      subst o'. simpl symbol.
      change (Engine.signed_quantity
                (OrderM.fill o (Engine.apply_slippage st0 price (side o)) ts))
        with (Engine.signed_quantity o).
      lia.
Qed.

Lemma position_quantity_is_net_of_fills_witness :
  exists st,
    Book.run Scenario.start Example.round_trip = Ok st /\
    Engine.get_position_quantity st "ACME"
    = (Engine.get_position_quantity Scenario.start "ACME"
       + Book.net_filled Scenario.start Example.round_trip "ACME")%Z.
Proof.
  destruct (Book.run Scenario.start Example.round_trip) as [st|e] eqn:E;
    [|vm_compute in E; discriminate].
  exists st. split; [reflexivity|].
  apply (position_quantity_is_net_of_fills Scenario.start st Example.round_trip "ACME").
  - split; constructor.
  - exact E.
Defined.

(** ** Admission and what a call leaves untouched *)



Lemma update_log_grows (st st' : ExecutionEngine) (o : Order) (c : Q) :
  Engine._update_position_from_order st o c = Ok st' ->
  initial_capital st' = initial_capital st /\
  max_leverage st' = max_leverage st /\
  slippage_pct st' = slippage_pct st /\
  commission_pct st' = commission_pct st /\
  exists added,
    closed_positions st' = (closed_positions st ++ added)%list
    /\ (List.length added <= 1)%nat.
Proof.
  unfold Engine._update_position_from_order.
  destruct (fill_price o) as [fp|]; [|discriminate].
  destruct (fill_timestamp o) as [fts|]; [|discriminate].
  destruct (dict_get (positions st) (symbol o)) as [p|] eqn:G.
  - destruct (Engine.opposite_sign (pos_quantity p) (Engine.signed_quantity o)).
    + destruct (Z.abs (Engine.signed_quantity o) >=? Z.abs (pos_quantity p))%Z.
      * simpl positions. destruct (dict_del (positions st) (symbol o)) as [book|e];
          simpl Py.bind; [|discriminate].
        destruct (Z.abs (Engine.signed_quantity o) >? Z.abs (pos_quantity p))%Z.
        -- destruct (truediv _ _); simpl; [|discriminate].
           intro E. inversion E; subst; clear E. simpl.
           repeat (split; [reflexivity|]). eexists. split; [reflexivity|]. simpl. lia.
        -- intro E. inversion E; subst; clear E. simpl.
           repeat (split; [reflexivity|]). eexists. split; [reflexivity|]. simpl. lia.
      * intro E. inversion E; subst; clear E. simpl.
        repeat (split; [reflexivity|]). exists []. rewrite app_nil_r. simpl. split; [reflexivity|lia].
    + destruct (truediv _ _) as [avg|]; simpl; [|discriminate].
      destruct (truediv _ _); simpl; [|discriminate].
      intro E. inversion E; subst; clear E. simpl.
      repeat (split; [reflexivity|]). exists []. rewrite app_nil_r. simpl. split; [reflexivity|lia].
  - destruct (side o); (destruct (truediv _ _); simpl; [|discriminate]);
      intro E; inversion E; subst; clear E; simpl;
      repeat (split; [reflexivity|]); exists []; rewrite app_nil_r; simpl;
      (split; [reflexivity|lia]).
Qed.

(** X6.  What a call never does.  Whenever [execute_market_order] returns, the
    flag it returns agrees with the status it leaves on the order (true with
    FILLED, false with REJECTED, never PENDING); only BUY orders are rejected,
    and a rejection leaves cash, the position book and the closed-position
    log as they were (the order itself is marked REJECTED, which shows
    wherever that order object is held); the engine's configuration (initial
    capital, leverage, slippage and commission rates) is never changed; and
    the closed-position log is only appended to, by at most one record per
    call. *)
Theorem execute_flag_status_config_and_log
  (st st' : ExecutionEngine) (o o' : Order) (price : Q) (prices : dict Q)
  (ts : datetime) (filled : bool) :
  Engine.execute_market_order st o price prices ts = Ok (filled, o', st') ->
  status o' = (if filled then FILLED else REJECTED) /\
  (filled = false ->
   side o = BUY /\ cash st' = cash st /\ positions st' = positions st /\
   closed_positions st' = closed_positions st) /\
  initial_capital st' = initial_capital st /\
  max_leverage st' = max_leverage st /\
  slippage_pct st' = slippage_pct st /\
  commission_pct st' = commission_pct st /\
  exists added,
    closed_positions st' = (closed_positions st ++ added)%list
    /\ (List.length added <= 1)%nat.
Proof.
  intro Hex.
  destruct (execute_outcome _ _ _ _ _ _ _ _ Hex)
    as [[Eb [Eo [Es Hs]]]
       | [Eb [Eo [st1 [c [Hp [Hc [_ [Hm [Hi [Hsl [Hco [_ Hup]]]]]]]]]]]]].
  - subst. split; [reflexivity|]. split; [now repeat split|].
    repeat (split; [reflexivity|]). exists []. rewrite app_nil_r. simpl.
    split; [reflexivity|lia].
  - subst filled o'. split; [reflexivity|]. split; [discriminate|].
    destruct (update_log_grows st1 st' _ c Hup) as [A [B [C [D [added [E F]]]]]].
    split; [congruence|]. split; [congruence|]. split; [congruence|].
    split; [congruence|]. exists added. split; [congruence|exact F].
Qed.

Lemma execute_flag_status_config_and_log_witness :
  exists o' st',
    Engine.execute_market_order Scenario.holding Scenario.partial_sell 110
      (Scenario.prices_at 110) 1%Z = Ok (true, o', st') /\
    status o' = (if true then FILLED else REJECTED) /\
    (true = false ->
     side Scenario.partial_sell = BUY /\ cash st' = cash Scenario.holding /\
     positions st' = positions Scenario.holding /\
     closed_positions st' = closed_positions Scenario.holding) /\
    initial_capital st' = initial_capital Scenario.holding /\
    max_leverage st' = max_leverage Scenario.holding /\
    slippage_pct st' = slippage_pct Scenario.holding /\
    commission_pct st' = commission_pct Scenario.holding /\
    exists added,
      closed_positions st' = (closed_positions Scenario.holding ++ added)%list
      /\ (List.length added <= 1)%nat.
Proof.
  destruct (Engine.execute_market_order Scenario.holding Scenario.partial_sell 110
              (Scenario.prices_at 110) 1%Z) as [[[b o'] st']|e] eqn:E;
    [|vm_compute in E; discriminate].
  assert (Hb : b = true).
  { vm_compute in E. now inversion E. }
  subst b. exists o', st'. split; [reflexivity|].
  exact (execute_flag_status_config_and_log Scenario.holding st'
           Scenario.partial_sell o' 110 (Scenario.prices_at 110) 1%Z true E).
Defined.

(** ** Prices, costs and P&L *)

(** X7.  Slippage is adverse.  For a non-negative price and a non-negative
    slippage rate, a BUY never fills below the quoted price and a SELL never
    fills above it; with a zero rate both fill at the quoted price. *)
Theorem slippage_is_adverse (st : ExecutionEngine) (price : Q) :
  0 <= price ->
  0 <= slippage_pct st ->
  Engine.apply_slippage st price SELL <= price /\
  price <= Engine.apply_slippage st price BUY /\
  (slippage_pct st == 0 ->
     Engine.apply_slippage st price SELL == price
     /\ Engine.apply_slippage st price BUY == price).
Proof.
  intros Hp Hs. unfold Engine.apply_slippage.
  assert (H : 0 <= price * slippage_pct st) by (apply Qmult_le_0_compat; assumption).
  split; [lra|]. split; [lra|].
  intro Hz. rewrite Hz. split; ring.
Qed.

Lemma slippage_is_adverse_witness :
  Engine.apply_slippage Example.levered 100 SELL <= 100 /\
  100 <= Engine.apply_slippage Example.levered 100 BUY /\
  (slippage_pct Example.levered == 0 ->
     Engine.apply_slippage Example.levered 100 SELL == 100
     /\ Engine.apply_slippage Example.levered 100 BUY == 100).
Proof.
  apply (slippage_is_adverse Example.levered 100).
  - vm_compute. discriminate.
  - vm_compute. discriminate.
Defined.

Lemma dict_del_after_append {V : Type} (d : dict V) (k : string) (v : V) :
  dict_get d k = None -> dict_del (dict_set d k v) k = Ok d.
Proof.
  induction d as [|[k' v'] d IH]; simpl.
  - intros _. now rewrite String.eqb_refl.
  - destruct (String.eqb k k') eqn:E; [discriminate|].
    intro G. simpl. rewrite E, (IH G). reflexivity.
Qed.

(** X8.  Closing in two steps.  Against a held position, a fill that reduces
    it followed by a fill that closes the remainder moves cash by the P&L of
    the first part at the first fill price plus the P&L of the remainder at
    the second, less both commissions; at one common price the two parts add
    up to the P&L of closing the whole position at that price.  The entry
    price is not re-averaged in between, and the closed-position log receives
    one record, for the remainder only. *)
Theorem two_step_close_adds_up
  (st : ExecutionEngine) (o1 o2 : Order) (c1 c2 fp1 fp2 : Q) (t1 t2 : datetime)
  (p : Position) :
  fill_price o1 = Some fp1 -> fill_timestamp o1 = Some t1 ->
  fill_price o2 = Some fp2 -> fill_timestamp o2 = Some t2 ->
  symbol o2 = symbol o1 ->
  dict_get (positions st) (symbol o1) = Some p ->
  Engine.opposite_sign (pos_quantity p) (Engine.signed_quantity o1) = true ->
  (Z.abs (Engine.signed_quantity o1) < Z.abs (pos_quantity p))%Z ->
  Engine.signed_quantity o2 = (- (pos_quantity p + Engine.signed_quantity o1))%Z ->
  exists st1 st2 rest record,
    Engine._update_position_from_order st o1 c1 = Ok st1 /\
    Engine._update_position_from_order st1 o2 c2 = Ok st2 /\
    dict_get (positions st1) (symbol o1) = Some rest /\
    entry_price rest = entry_price p /\
    pos_quantity rest = (pos_quantity p + Engine.signed_quantity o1)%Z /\
    cash st2
      == cash st
         + Book.closed_part_pnl p (Engine.signed_quantity o1) fp1
         + Book.closed_part_pnl p (Engine.signed_quantity o2) fp2
         - c1 - c2 /\
    closed_positions st2 = (closed_positions st ++ [record])%list /\
    cp_quantity record = pos_quantity rest /\
    realized_pnl record == Book.closed_part_pnl p (Engine.signed_quantity o2) fp2 /\
    (fp1 == fp2 ->
       Book.closed_part_pnl p (Engine.signed_quantity o1) fp1
       + Book.closed_part_pnl p (Engine.signed_quantity o2) fp2
       == PositionM.calculate_unrealized_pnl p fp1).
Proof.
  intros Hf1 Ht1 Hf2 Ht2 Hsym G Hopp Hlt Hq2.
  pose (rest := mkPosition (pos_symbol p)
                  (pos_quantity p + Engine.signed_quantity o1)
                  (entry_price p) (entry_timestamp p) (leverage p)).
  assert (Hge : (Z.abs (Engine.signed_quantity o1) >=? Z.abs (pos_quantity p))%Z = false).
  { destruct (Z.geb_spec (Z.abs (Engine.signed_quantity o1)) (Z.abs (pos_quantity p)));
      [lia|reflexivity]. }
  pose proof Hopp as Hsigns. apply opposite_sign_true in Hsigns.
  pose (partial :=
          if (pos_quantity p <? 0)%Z
          then - ((fp1 - entry_price p) * absz (Engine.signed_quantity o1))
          else (fp1 - entry_price p) * absz (Engine.signed_quantity o1)).
  pose (st1 := Engine.set_positions
                 (Engine.set_cash st (cash st + (partial - c1)))
                 (dict_set (positions st) (symbol o1) rest)).
  assert (Hstep1 : Engine._update_position_from_order st o1 c1 = Ok st1).
  { unfold Engine._update_position_from_order.
    rewrite Hf1, Ht1, G, Hopp, Hge. reflexivity. }
  assert (Hopp2 : Engine.opposite_sign (pos_quantity rest) (Engine.signed_quantity o2)
                  = true).
  { apply opposite_sign_true. simpl. lia. }
  assert (Hge2 : (Z.abs (Engine.signed_quantity o2) >=? Z.abs (pos_quantity rest))%Z
                 = true).
  { apply Z.geb_le. simpl. lia. }
  assert (Hgt2 : (Z.abs (Engine.signed_quantity o2) >? Z.abs (pos_quantity rest))%Z
                 = false).
  { destruct (Z.gtb_spec (Z.abs (Engine.signed_quantity o2))
                (Z.abs (pos_quantity rest))); [simpl in *; lia|reflexivity]. }
  assert (Grest : dict_get (positions st1) (symbol o1) = Some rest).
  { simpl. apply dict_get_set_same. }
  destruct (dict_del_present _ _ _ Grest) as [book [D _]].
  pose (record := PositionM.close rest fp2 t2).
  pose (st2 := Engine.set_positions
                 (Engine.set_cash
                    (Engine.set_closed_positions st1 (closed_positions st1 ++ [record]))
                    (cash st1 + (realized_pnl record - c2)))
                 book).
  assert (Hstep2 : Engine._update_position_from_order st1 o2 c2 = Ok st2).
  { unfold Engine._update_position_from_order.
    rewrite Hf2, Ht2, Hsym, Grest, Hopp2, Hge2.
    cbv zeta. simpl positions at 1. simpl positions in D. rewrite D.
    cbn [Py.bind]. rewrite Hgt2. reflexivity. }
  exists st1, st2, rest, record.
  split; [exact Hstep1|]. split; [exact Hstep2|].
  split; [exact Grest|]. split; [reflexivity|]. split; [reflexivity|].
  assert (Hpart : partial == Book.closed_part_pnl p (Engine.signed_quantity o1) fp1).
  { unfold partial, Book.closed_part_pnl, absz.
    destruct (pos_quantity p <? 0)%Z eqn:Hs.
    - apply Z.ltb_lt in Hs.
      replace (Z.abs (Engine.signed_quantity o1)) with (Engine.signed_quantity o1) by lia.
      rewrite inject_Z_opp. ring.
    - apply Z.ltb_ge in Hs.
      replace (Z.abs (Engine.signed_quantity o1)) with (- Engine.signed_quantity o1)%Z
        by lia.
      reflexivity. }
  assert (Hrem : PositionM.calculate_unrealized_pnl rest fp2
                 == Book.closed_part_pnl p (Engine.signed_quantity o2) fp2).
  { unfold PositionM.calculate_unrealized_pnl, Book.closed_part_pnl. simpl.
    rewrite Hq2, Z.opp_involutive. reflexivity. }
  split.
  { simpl. rewrite Hpart, Hrem. ring. }
  split; [reflexivity|]. split; [reflexivity|].
  split; [exact Hrem|].
  intro Heq. unfold Book.closed_part_pnl, PositionM.calculate_unrealized_pnl.
  rewrite Hq2, Z.opp_involutive, inject_Z_opp, inject_Z_plus, <- Heq. ring.
Qed.

Lemma two_step_close_adds_up_witness :
  exists st1 st2 rest record,
    Engine._update_position_from_order Scenario.holding Example.sell_part 1 = Ok st1 /\
    Engine._update_position_from_order st1 Example.sell_rest 2 = Ok st2 /\
    dict_get (positions st1) (symbol Example.sell_part) = Some rest /\
    entry_price rest = entry_price (mkPosition "ACME" 10 100 0%Z 1) /\
    pos_quantity rest
      = (pos_quantity (mkPosition "ACME" 10 100 0%Z 1)
         + Engine.signed_quantity Example.sell_part)%Z /\
    cash st2
      == cash Scenario.holding
         + Book.closed_part_pnl (mkPosition "ACME" 10 100 0%Z 1)
             (Engine.signed_quantity Example.sell_part) 110
         + Book.closed_part_pnl (mkPosition "ACME" 10 100 0%Z 1)
             (Engine.signed_quantity Example.sell_rest) 120
         - 1 - 2 /\
    closed_positions st2 = (closed_positions Scenario.holding ++ [record])%list /\
    cp_quantity record = pos_quantity rest /\
    realized_pnl record
      == Book.closed_part_pnl (mkPosition "ACME" 10 100 0%Z 1)
           (Engine.signed_quantity Example.sell_rest) 120 /\
    (110 == 120 ->
       Book.closed_part_pnl (mkPosition "ACME" 10 100 0%Z 1)
         (Engine.signed_quantity Example.sell_part) 110
       + Book.closed_part_pnl (mkPosition "ACME" 10 100 0%Z 1)
           (Engine.signed_quantity Example.sell_rest) 120
       == PositionM.calculate_unrealized_pnl (mkPosition "ACME" 10 100 0%Z 1) 110).
Proof.
  apply (two_step_close_adds_up Scenario.holding Example.sell_part Example.sell_rest
           1 2 110 120 1%Z 2%Z (mkPosition "ACME" 10 100 0%Z 1)).
  - reflexivity.
  - reflexivity.
  - reflexivity.
  - reflexivity.
  - reflexivity.
  - reflexivity.
  - reflexivity.
  - vm_compute. reflexivity.
  - reflexivity.
Defined.

(** X9.  Open, then close at the same price.  On a symbol the book does not
    hold, a fill that opens a position of [n] units followed by the opposite
    fill of [n] units at the same price appends one record whose realized P&L
    and percentage are exactly 0 whatever the commissions, and leaves the book
    as it was.  Cash is not restored: beyond the commissions it stays lower by
    the notional over the leverage after a long round trip, and higher by it
    after a short one. *)
Theorem open_then_close_at_same_price
  (st : ExecutionEngine) (o1 o2 : Order) (c1 c2 fp : Q) (t1 t2 : datetime) :
  fill_price o1 = Some fp -> fill_timestamp o1 = Some t1 ->
  fill_price o2 = Some fp -> fill_timestamp o2 = Some t2 ->
  symbol o2 = symbol o1 ->
  ~ max_leverage st == 0 ->
  dict_get (positions st) (symbol o1) = None ->
  (0 < quantity o1)%Z ->
  Engine.signed_quantity o2 = (- Engine.signed_quantity o1)%Z ->
  exists st1 st2 record,
    Engine._update_position_from_order st o1 c1 = Ok st1 /\
    Engine._update_position_from_order st1 o2 c2 = Ok st2 /\
    closed_positions st2 = (closed_positions st ++ [record])%list /\
    realized_pnl record == 0 /\
    realized_pnl_pct record == 0 /\
    positions st2 = positions st /\
    cash st2
      == cash st - c2
         + match side o1 with
           | BUY => - ((inject_Z (quantity o1) * fp + c1) / max_leverage st)
           | SELL => (inject_Z (quantity o1) * fp - c1) / max_leverage st
           end.
Proof.
  intros Hf1 Ht1 Hf2 Ht2 Hsym Hlev G Hpos Hq2.
  pose (q := Engine.signed_quantity o1).
  pose (np := mkPosition (symbol o1) q fp t1 (max_leverage st)).
  pose (stp := Engine.set_positions st (dict_set (positions st) (symbol o1) np)).
  pose (st1 := Engine.set_cash stp
                 (match side o1 with
                  | BUY => cash stp - (absz q * fp + c1) / max_leverage st
                  | SELL => cash stp + (absz q * fp - c1) / max_leverage st
                  end)).
  assert (Hstep1 : Engine._update_position_from_order st o1 c1 = Ok st1).
  { unfold Engine._update_position_from_order. rewrite Hf1, Ht1, G.
    fold q. fold np. fold stp. cbv zeta.
    unfold st1. destruct (side o1); rewrite (truediv_ok _ _ Hlev); reflexivity. }
  assert (Hqn : q <> 0%Z) by (apply signed_quantity_nonzero; exact Hpos).
  assert (G1 : dict_get (positions st1) (symbol o1) = Some np).
  { simpl. apply dict_get_set_same. }
  assert (D : dict_del (positions st1) (symbol o1) = Ok (positions st)).
  { simpl. now apply dict_del_after_append. }
  assert (Hlog1 : closed_positions st1 = closed_positions st) by reflexivity.
  assert (Habs : absz q == inject_Z (quantity o1)).
  { unfold absz, q, Engine.signed_quantity.
    destruct (side o1); [rewrite Z.abs_eq by lia | rewrite Z.abs_neq by lia];
      [reflexivity|]. now rewrite Z.opp_involutive. }
  assert (Hcash1 : cash st1
                   == cash st
                      + match side o1 with
                        | BUY => - ((inject_Z (quantity o1) * fp + c1) / max_leverage st)
                        | SELL => (inject_Z (quantity o1) * fp - c1) / max_leverage st
                        end).
  { simpl cash. destruct (side o1); rewrite Habs; field; exact Hlev. }
  clearbody st1.
  assert (Hopp : Engine.opposite_sign (pos_quantity np) (Engine.signed_quantity o2) = true).
  { apply opposite_sign_true. simpl. fold q in Hq2. lia. }
  assert (Hge : (Z.abs (Engine.signed_quantity o2) >=? Z.abs (pos_quantity np))%Z = true).
  { apply Z.geb_le. simpl. fold q in Hq2. lia. }
  assert (Hgt : (Z.abs (Engine.signed_quantity o2) >? Z.abs (pos_quantity np))%Z = false).
  { destruct (Z.gtb_spec (Z.abs (Engine.signed_quantity o2)) (Z.abs (pos_quantity np)));
      [simpl in *; fold q in Hq2; lia|reflexivity]. }
  pose (record := PositionM.close np fp t2).
  pose (st2 := Engine.set_positions
                 (Engine.set_cash
                    (Engine.set_closed_positions st1 (closed_positions st1 ++ [record]))
                    (cash st1 + (realized_pnl record - c2)))
                 (positions st)).
  assert (Hstep2 : Engine._update_position_from_order st1 o2 c2 = Ok st2).
  { unfold Engine._update_position_from_order.
    rewrite Hf2, Ht2, Hsym, G1, Hopp, Hge. cbv zeta.
    simpl positions. rewrite D. cbn [Py.bind]. rewrite Hgt. reflexivity. }
  assert (Hzero : realized_pnl record == 0).
  { simpl. unfold PositionM.calculate_unrealized_pnl. simpl. ring. }
  assert (Hpct : realized_pnl_pct record == 0).
  { simpl. unfold PositionM.calculate_unrealized_pnl_percentage. simpl.
    destruct (Qeq_bool fp 0) eqn:Ez; [reflexivity|].
    apply Qeq_bool_neq in Ez.
    destruct (q <? 0)%Z; field; exact Ez. }
  assert (Hcash2 : cash st2 = cash st1 + (realized_pnl record - c2)) by reflexivity.
  assert (Hlog2 : closed_positions st2 = (closed_positions st1 ++ [record])%list)
    by reflexivity.
  assert (Hbook2 : positions st2 = positions st) by reflexivity.
  clearbody st2 record.
  exists st1, st2, record.
  split; [exact Hstep1|]. split; [exact Hstep2|].
  split; [now rewrite Hlog2, Hlog1|].
  split; [exact Hzero|]. split; [exact Hpct|]. split; [exact Hbook2|].
  rewrite Hcash2, Hzero, Hcash1. ring.
Qed.

Lemma open_then_close_at_same_price_witness :
  exists st1 st2 record,
    Engine._update_position_from_order Scenario.start Example.open_long 1 = Ok st1 /\
    Engine._update_position_from_order st1 Example.close_long 2 = Ok st2 /\
    closed_positions st2 = (closed_positions Scenario.start ++ [record])%list /\
    realized_pnl record == 0 /\
    realized_pnl_pct record == 0 /\
    positions st2 = positions Scenario.start /\
    cash st2
      == cash Scenario.start - 2
         + match side Example.open_long with
           | BUY => - ((inject_Z (quantity Example.open_long) * 100 + 1)
                       / max_leverage Scenario.start)
           | SELL => (inject_Z (quantity Example.open_long) * 100 - 1)
                     / max_leverage Scenario.start
           end.
Proof.
  apply (open_then_close_at_same_price Scenario.start Example.open_long
           Example.close_long 1 2 100 0%Z 1%Z).
  - reflexivity.
  - reflexivity.
  - reflexivity.
  - reflexivity.
  - reflexivity.
  - intro H. vm_compute in H. discriminate.
  - reflexivity.
  - reflexivity.
  - reflexivity.
Defined.

(** ** Positions *)

Lemma ratio_sign (d e : Q) :
  0 < e ->
  (0 < d -> 0 < d / e) /\ (d < 0 -> d / e < 0) /\ (d == 0 -> d / e == 0).
Proof.
  intro He. split; [|split]; intro Hd.
  - apply Qlt_shift_div_l; lra.
  - apply Qlt_shift_div_r; lra.
  - rewrite Hd. field. lra.
Qed.

(** X10.  Dollar and percentage P&L agree in sign.  For a position of non-zero
    quantity with positive entry price and positive leverage, the unrealized
    P&L and its percentage are positive together and negative together; a long
    position gains exactly when the price is above its entry price, a short
    one exactly when it is below. *)
Theorem pnl_and_percentage_agree_in_sign (p : Position) (price : Q) :
  pos_quantity p <> 0%Z ->
  0 < entry_price p ->
  0 < leverage p ->
  (0 < PositionM.calculate_unrealized_pnl p price
   <-> 0 < PositionM.calculate_unrealized_pnl_percentage p price) /\
  (PositionM.calculate_unrealized_pnl p price < 0
   <-> PositionM.calculate_unrealized_pnl_percentage p price < 0) /\
  ((0 < pos_quantity p)%Z ->
     (0 < PositionM.calculate_unrealized_pnl p price <-> entry_price p < price)) /\
  ((pos_quantity p < 0)%Z ->
     (0 < PositionM.calculate_unrealized_pnl p price <-> price < entry_price p)).
Proof.
  intros Hq He Hl.
  unfold PositionM.calculate_unrealized_pnl, PositionM.calculate_unrealized_pnl_percentage.
  cbv zeta.
  assert (Ez : Qeq_bool (entry_price p) 0 = false).
  { destruct (Qeq_bool (entry_price p) 0) eqn:E; [|reflexivity].
    apply Qeq_bool_iff in E. lra. }
  rewrite Ez.
  set (d := price - entry_price p).
  destruct (ratio_sign d (entry_price p) He) as [Rp [Rn Rz]].
  set (x := d / entry_price p) in *.
  set (q := inject_Z (pos_quantity p)).
  assert (Hqs : (pos_quantity p < 0)%Z /\ q < 0 \/ (0 < pos_quantity p)%Z /\ 0 < q).
  { destruct (Z_lt_le_dec (pos_quantity p) 0) as [H|H].
    - left. split; [exact H|]. unfold q. rewrite (Zlt_Qlt _ 0) in H. exact H.
    - right. assert (H' : (0 < pos_quantity p)%Z) by lia. split; [exact H'|].
      unfold q. rewrite (Zlt_Qlt 0 _) in H'. exact H'. }
  assert (Hd : d == price - entry_price p) by (unfold d; reflexivity).
  clearbody d.
  destruct Hqs as [[Hz Hneg]|[Hz Hpos]].
  - assert (Hb : (pos_quantity p <? 0)%Z = true) by (apply Z.ltb_lt; exact Hz).
    rewrite Hb.
    destruct (Q_dec d 0) as [[Hlt|Hgt]|Heq].
    + pose proof (Rn Hlt). repeat split; intros; try lia; try nra.
    + pose proof (Rp Hgt). repeat split; intros; try lia; try nra.
    + pose proof (Rz Heq) as Hx. repeat split; intros; try lia; try nra.
  - assert (Hb : (pos_quantity p <? 0)%Z = false) by (apply Z.ltb_ge; lia).
    rewrite Hb.
    destruct (Q_dec d 0) as [[Hlt|Hgt]|Heq].
    + pose proof (Rn Hlt). repeat split; intros; try lia; try nra.
    + pose proof (Rp Hgt). repeat split; intros; try lia; try nra.
    + pose proof (Rz Heq) as Hx. repeat split; intros; try lia; try nra.
Qed.

Lemma pnl_and_percentage_agree_in_sign_witness :
  (0 < PositionM.calculate_unrealized_pnl (mkPosition "ACME" (-10) 100 0%Z 2) 90
   <-> 0 < PositionM.calculate_unrealized_pnl_percentage
             (mkPosition "ACME" (-10) 100 0%Z 2) 90) /\
  (PositionM.calculate_unrealized_pnl (mkPosition "ACME" (-10) 100 0%Z 2) 90 < 0
   <-> PositionM.calculate_unrealized_pnl_percentage
         (mkPosition "ACME" (-10) 100 0%Z 2) 90 < 0) /\
  ((0 < pos_quantity (mkPosition "ACME" (-10) 100 0%Z 2))%Z ->
     (0 < PositionM.calculate_unrealized_pnl (mkPosition "ACME" (-10) 100 0%Z 2) 90
      <-> entry_price (mkPosition "ACME" (-10) 100 0%Z 2) < 90)) /\
  ((pos_quantity (mkPosition "ACME" (-10) 100 0%Z 2) < 0)%Z ->
     (0 < PositionM.calculate_unrealized_pnl (mkPosition "ACME" (-10) 100 0%Z 2) 90
      <-> 90 < entry_price (mkPosition "ACME" (-10) 100 0%Z 2))).
Proof.
  apply (pnl_and_percentage_agree_in_sign (mkPosition "ACME" (-10) 100 0%Z 2) 90).
  - simpl. lia.
  - reflexivity.
  - reflexivity.
Defined.

(** ** The risk tracker *)

Lemma observe_step (rt : RiskTracker) (e : ExecutionEngine) (ts : datetime)
  (prices : dict Q) :
  let rt' := Risk.update_equity_history (Tracker.at_engine rt e) ts prices in
  let equity := Engine.get_total_portfolio_value e prices in
  equity_history rt' = (equity_history rt ++ [(ts, equity)])%list /\
  peak_equity rt' = (if gtb equity (peak_equity rt) then equity else peak_equity rt) /\
  peak_equity rt <= peak_equity rt' /\
  equity <= peak_equity rt' /\
  engine rt' = e.
Proof.
  unfold Risk.update_equity_history, Tracker.at_engine. cbv zeta. simpl.
  split; [reflexivity|]. split; [reflexivity|].
  destruct (gtb _ (peak_equity rt)) eqn:G.
  - apply gtb_gt in G. repeat split; lra.
  - apply gtb_le in G. repeat split; lra.
Qed.

Lemma observe_all_invariant (rt : RiskTracker) (obs : list Tracker.observation) :
  (forall s, In s (equity_history rt) -> snd s <= peak_equity rt) ->
  let rt' := Tracker.observe_all rt obs in
  peak_equity rt <= peak_equity rt' /\
  (forall s, In s (equity_history rt') -> snd s <= peak_equity rt') /\
  List.length (equity_history rt')
  = (List.length (equity_history rt) + List.length obs)%nat.
Proof.
  revert rt. induction obs as [|[[e ts] prices] obs IH]; intros rt Hinv;
    cbn [Tracker.observe_all].
  - split; [lra|]. split; [exact Hinv|simpl; lia].
  - destruct (observe_step rt e ts prices) as [Hh [_ [Hp [He _]]]].
    remember (Risk.update_equity_history (Tracker.at_engine rt e) ts prices) as rt1.
    destruct (IH rt1) as [A [B C]].
    + intros s Hin. rewrite Hh in Hin. apply in_app_or in Hin.
      destruct Hin as [Hin|[Hin|[]]].
      * apply Qle_trans with (peak_equity rt); [now apply Hinv|exact Hp].
      * subst s. exact He.
    + split; [lra|]. split; [exact B|]. rewrite C, Hh, length_app. simpl. lia.
Qed.

(** X11.  The peak never falls.  After any sequence of [update_equity_history]
    calls on a tracker built by [RiskTracker(engine)], whatever the engine
    and the prices were at each call, the peak equity is at least the initial
    capital and at least every equity sample recorded, and the history holds
    one sample per call. *)
Theorem peak_equity_dominates_history
  (e0 : ExecutionEngine) (obs : list Tracker.observation) :
  let rt := Tracker.observe_all (Risk.init e0) obs in
  initial_capital e0 <= peak_equity rt /\
  (forall s, In s (equity_history rt) -> snd s <= peak_equity rt) /\
  List.length (equity_history rt) = List.length obs.
Proof.
  destruct (observe_all_invariant (Risk.init e0) obs) as [A [B C]].
  - intros s [].
  - cbv zeta. split; [exact A|]. split; [exact B|exact C].
Qed.

Lemma running_peak_snoc (start : Q) (h : list (datetime * Q)) (s : datetime * Q) :
  Tracker.running_peak start (h ++ [s])
  = if gtb (snd s) (Tracker.running_peak start h) then snd s
    else Tracker.running_peak start h.
Proof. unfold Tracker.running_peak. now rewrite fold_left_app. Qed.

Lemma running_peak_ge_last (start : Q) (h : list (datetime * Q)) (s : datetime * Q) :
  snd s <= Tracker.running_peak start (h ++ [s]).
Proof.
  rewrite running_peak_snoc. destruct (gtb _ _) eqn:G; [lra|]. now apply gtb_le in G.
Qed.

(** The loop of [get_max_drawdown] ends at least as high as the drop of every
    sample from the running peak. *)
Lemma drawdown_loop_dominates (h1 h2 : list (datetime * Q)) (s : datetime * Q)
  (dd pct peak : Q) :
  Tracker.running_peak peak (h1 ++ [s]) - snd s
  <= fst (Risk.drawdown_loop (h1 ++ s :: h2) dd pct peak).
Proof.
  revert dd pct peak. induction h1 as [|[t e] h1 IH]; intros dd pct peak.
  - destruct s as [t e]. simpl. unfold Tracker.running_peak. simpl.
    set (pk := if gtb e peak then e else peak).
    destruct (gtb (pk - e) dd) eqn:G.
    + apply drawdown_loop_grows.
    + apply gtb_le in G. eapply Qle_trans; [exact G|apply drawdown_loop_grows].
  - simpl. unfold Tracker.running_peak. simpl.
    set (pk := if gtb e peak then e else peak).
    destruct (gtb (pk - e) dd); apply IH.
Qed.

(** The loop ends at the starting drawdown or at the drop of some sample. *)
Lemma drawdown_loop_attained (h : list (datetime * Q)) (dd pct peak : Q) :
  fst (Risk.drawdown_loop h dd pct peak) == dd
  \/ exists h1 s h2,
       h = (h1 ++ s :: h2)%list
       /\ fst (Risk.drawdown_loop h dd pct peak)
          == Tracker.running_peak peak (h1 ++ [s]) - snd s.
Proof.
  revert dd pct peak. induction h as [|[t e] h IH]; intros dd pct peak; simpl.
  - left. reflexivity.
  - set (pk := if gtb e peak then e else peak).
    assert (Hpk : forall h1 s, Tracker.running_peak peak ((t, e) :: h1 ++ [s])
                               = Tracker.running_peak pk (h1 ++ [s])).
    { intros. reflexivity. }
    destruct (gtb (pk - e) dd) eqn:G.
    + destruct (IH (pk - e) (if gtb pk 0 then (pk - e) / pk * 100 else 0) pk)
        as [H|[h1 [s [h2 [Eh H]]]]].
      * right. exists [], (t, e), h. split; [reflexivity|]. rewrite H. reflexivity.
      * right. exists ((t, e) :: h1), s, h2. split; [now rewrite Eh|].
        rewrite H. reflexivity.
    + destruct (IH dd pct pk) as [H|[h1 [s [h2 [Eh H]]]]].
      * left. exact H.
      * right. exists ((t, e) :: h1), s, h2. split; [now rewrite Eh|].
        rewrite H. reflexivity.
Qed.

(** X12.  The maximum drawdown is the largest drop.  The dollar figure of
    [get_max_drawdown] is at least the drop of every recorded sample below the
    running peak (the highest of the initial capital and the samples up to
    it), and it is either 0 or the drop of one of the samples. *)
Theorem max_drawdown_is_largest_drop (rt : RiskTracker) :
  (forall h1 s h2,
     equity_history rt = (h1 ++ s :: h2)%list ->
     Tracker.running_peak (initial_capital (engine rt)) (h1 ++ [s]) - snd s
     <= fst (Risk.get_max_drawdown rt)) /\
  (fst (Risk.get_max_drawdown rt) == 0
   \/ exists h1 s h2,
        equity_history rt = (h1 ++ s :: h2)%list
        /\ fst (Risk.get_max_drawdown rt)
           == Tracker.running_peak (initial_capital (engine rt)) (h1 ++ [s]) - snd s).
Proof.
  assert (Hself : Risk.get_max_drawdown rt
                  = Risk.drawdown_loop (equity_history rt) 0 0
                      (initial_capital (engine rt))).
  { unfold Risk.get_max_drawdown. now destruct (equity_history rt). }
  rewrite Hself. split.
  - intros h1 s h2 Eh. rewrite Eh. apply drawdown_loop_dominates.
  - apply drawdown_loop_attained.
Qed.

Lemma observe_all_app (rt : RiskTracker) (a b : list Tracker.observation) :
  Tracker.observe_all rt (a ++ b) = Tracker.observe_all (Tracker.observe_all rt a) b.
Proof.
  revert rt. induction a as [|[[e ts] prices] a IH]; intro rt; simpl; auto.
Qed.

Lemma observe_all_peak (rt : RiskTracker) (obs : list Tracker.observation) :
  exists samples,
    equity_history (Tracker.observe_all rt obs)
    = (equity_history rt ++ samples)%list
    /\ peak_equity (Tracker.observe_all rt obs)
       = Tracker.running_peak (peak_equity rt) samples.
Proof.
  revert rt. induction obs as [|[[e ts] prices] obs IH]; intro rt;
    cbn [Tracker.observe_all].
  - exists []. now rewrite app_nil_r.
  - destruct (observe_step rt e ts prices) as [Hh [Hp _]].
    remember (Risk.update_equity_history (Tracker.at_engine rt e) ts prices) as rt1.
    destruct (IH rt1) as [samples [A B]].
    exists ((ts, Engine.get_total_portfolio_value e prices) :: samples). split.
    + rewrite A, Hh, <- app_assoc. reflexivity.
    + rewrite B, Hp. reflexivity.
Qed.

(** X13.  The current drawdown after an update.  Right after
    [update_equity_history], at the same prices, [get_current_drawdown] is
    never negative and never above the dollar figure of [get_max_drawdown]
    (the engine's initial capital being what it was when the tracker was
    built); its percentage is at least 0, and at most 100 when the equity is
    not negative. *)
Theorem current_drawdown_within_max
  (e0 e : ExecutionEngine) (obs : list Tracker.observation) (ts : datetime)
  (prices : dict Q) :
  initial_capital e = initial_capital e0 ->
  let rt := Tracker.observe_all (Risk.init e0) (obs ++ [(e, ts, prices)]) in
  0 <= fst (Risk.get_current_drawdown rt prices) /\
  fst (Risk.get_current_drawdown rt prices) <= fst (Risk.get_max_drawdown rt) /\
  0 <= snd (Risk.get_current_drawdown rt prices) /\
  (0 <= Engine.get_total_portfolio_value e prices ->
     snd (Risk.get_current_drawdown rt prices) <= 100).
Proof.
  intros Hic rt. subst rt. rewrite observe_all_app. cbn [Tracker.observe_all].
  remember (Tracker.observe_all (Risk.init e0) obs) as rt0.
  destruct (observe_all_peak (Risk.init e0) obs) as [samples [Hh0 Hp0]].
  rewrite <- Heqrt0 in Hh0, Hp0. simpl in Hh0, Hp0.
  destruct (observe_step rt0 e ts prices) as [Hh [Hp [_ [Hle He]]]].
  remember (Risk.update_equity_history (Tracker.at_engine rt0 e) ts prices) as rt.
  set (equity := Engine.get_total_portfolio_value e prices) in *.
  assert (Hpeak : peak_equity rt
                  = Tracker.running_peak (initial_capital e0)
                      (samples ++ [(ts, equity)])).
  { rewrite Hp, Hp0, running_peak_snoc. reflexivity. }
  assert (Hmax : peak_equity rt - equity <= fst (Risk.get_max_drawdown rt)).
  { assert (Hself : Risk.get_max_drawdown rt
                    = Risk.drawdown_loop (equity_history rt) 0 0
                        (initial_capital (engine rt))).
    { unfold Risk.get_max_drawdown. now destruct (equity_history rt). }
    rewrite Hself, Hh, Hh0, He, Hic, Hpeak.
    apply (drawdown_loop_dominates samples [] (ts, equity)). }
  unfold Risk.get_current_drawdown. cbv zeta. rewrite He. fold equity.
  cbn [fst snd].
  split; [lra|]. split; [exact Hmax|].
  destruct (gtb (peak_equity rt) 0) eqn:G.
  - apply gtb_gt in G.
    assert (H0 : 0 <= (peak_equity rt - equity) / peak_equity rt).
    { apply Qle_shift_div_l; [exact G|lra]. }
    split; [lra|]. intro Hnn.
    assert (H1 : (peak_equity rt - equity) / peak_equity rt <= 1).
    { apply Qle_shift_div_r; [exact G|lra]. }
    lra.
  - split; [lra|]. intro. lra.
Qed.

Lemma current_drawdown_within_max_witness :
  0 <= fst (Risk.get_current_drawdown
              (Tracker.observe_all (Risk.init Scenario.start)
                 ([(Scenario.start, 0%Z, Scenario.prices_at 100)]
                  ++ [(Scenario.holding, 1%Z, Scenario.prices_at 110)]))
              (Scenario.prices_at 110)) /\
  fst (Risk.get_current_drawdown
         (Tracker.observe_all (Risk.init Scenario.start)
            ([(Scenario.start, 0%Z, Scenario.prices_at 100)]
             ++ [(Scenario.holding, 1%Z, Scenario.prices_at 110)]))
         (Scenario.prices_at 110))
  <= fst (Risk.get_max_drawdown
            (Tracker.observe_all (Risk.init Scenario.start)
               ([(Scenario.start, 0%Z, Scenario.prices_at 100)]
                ++ [(Scenario.holding, 1%Z, Scenario.prices_at 110)]))) /\
  0 <= snd (Risk.get_current_drawdown
              (Tracker.observe_all (Risk.init Scenario.start)
                 ([(Scenario.start, 0%Z, Scenario.prices_at 100)]
                  ++ [(Scenario.holding, 1%Z, Scenario.prices_at 110)]))
              (Scenario.prices_at 110)) /\
  (0 <= Engine.get_total_portfolio_value Scenario.holding (Scenario.prices_at 110) ->
     snd (Risk.get_current_drawdown
            (Tracker.observe_all (Risk.init Scenario.start)
               ([(Scenario.start, 0%Z, Scenario.prices_at 100)]
                ++ [(Scenario.holding, 1%Z, Scenario.prices_at 110)]))
            (Scenario.prices_at 110)) <= 100).
Proof.
  apply (current_drawdown_within_max Scenario.start Scenario.holding
           [(Scenario.start, 0%Z, Scenario.prices_at 100)] 1%Z
           (Scenario.prices_at 110)).
  reflexivity.
Defined.

(** X14.  Margin used, available margin and utilization.  Whenever
    [get_margin_used] returns, so do [get_available_margin] and
    [get_margin_utilization].  With buying power [cash * max_leverage]: the
    available margin is never negative; used and available add up to the
    buying power as long as the margin used does not exceed it, and the
    available margin is 0 beyond; the utilization is 0 at zero buying power
    (no division by zero), and for positive buying power it is at most 100
    exactly when the margin used is within the buying power. *)
Theorem margin_used_available_and_utilization
  (rt : RiskTracker) (prices : dict Q) (used : Q) :
  Tracker.get_margin_used rt prices = Ok used ->
  let power := cash (engine rt) * max_leverage (engine rt) in
  exists available utilization,
    Tracker.get_available_margin rt prices = Ok available /\
    Tracker.get_margin_utilization rt prices = Ok utilization /\
    0 <= available /\
    (used <= power -> available + used == power) /\
    (power <= used -> available == 0) /\
    (power == 0 -> utilization == 0) /\
    (0 < power -> (utilization <= 100 <-> used <= power)).
Proof.
  intros Hused power.
  unfold Tracker.get_available_margin, Tracker.get_margin_utilization,
    Engine.calculate_available_capital.
  unfold Tracker.get_margin_used in Hused. unfold Tracker.get_margin_used.
  rewrite Hused. cbn [Py.bind]. cbv zeta. fold power.
  assert (Hu : exists u,
             (if Qeq_bool power 0 then Ok 0 else Ok (used / power * 100)) = Ok u
             /\ (power == 0 -> u == 0)
             /\ (0 < power -> (u <= 100 <-> used <= power))).
  { destruct (Qeq_bool power 0) eqn:Ez.
    - apply Qeq_bool_iff in Ez. exists 0. split; [reflexivity|].
      split; [reflexivity|]. intro. lra.
    - apply Qeq_bool_neq in Ez. exists (used / power * 100). split; [reflexivity|].
      split; [intro; contradiction|]. intro Hp. split; intro H.
      + assert (H1 : used / power <= 1) by lra.
        assert (H2 : used == used / power * power) by (field; exact Ez).
        rewrite H2. nra.
      + assert (H1 : used / power <= 1).
        { apply Qle_shift_div_r; [exact Hp|lra]. }
        lra. }
  destruct Hu as [u [Eu [Hz Hp]]].
  exists (Py.max (power - used) 0), u. split; [reflexivity|]. split; [exact Eu|].
  unfold Py.max. destruct (gtb 0 (power - used)) eqn:G.
  - apply gtb_gt in G. repeat split; try lra; try assumption.
  - apply gtb_le in G. repeat split; try lra; try assumption.
Qed.

Lemma margin_used_available_and_utilization_witness :
  exists available utilization,
    Tracker.get_available_margin (Risk.init Scenario.holding) (Scenario.prices_at 110)
      = Ok available /\
    Tracker.get_margin_utilization (Risk.init Scenario.holding) (Scenario.prices_at 110)
      = Ok utilization /\
    0 <= available /\
    (1100 / 1 <= cash Scenario.holding * max_leverage Scenario.holding ->
       available + 1100 / 1 == cash Scenario.holding * max_leverage Scenario.holding) /\
    (cash Scenario.holding * max_leverage Scenario.holding <= 1100 / 1 ->
       available == 0) /\
    (cash Scenario.holding * max_leverage Scenario.holding == 0 -> utilization == 0) /\
    (0 < cash Scenario.holding * max_leverage Scenario.holding ->
       (utilization <= 100
        <-> 1100 / 1 <= cash Scenario.holding * max_leverage Scenario.holding)).
Proof.
  apply (margin_used_available_and_utilization (Risk.init Scenario.holding)
           (Scenario.prices_at 110) (1100 / 1)).
  vm_compute. reflexivity.
Defined.

Lemma exposure_loop_fold (items : dict Position) (prices : dict Q) (acc : Q) :
  Tracker.exposure_loop items prices acc
  = fold_left
      (fun t kp =>
         t + PositionM.get_position_value (snd kp)
               (Engine.price_for prices (fst kp) (snd kp)))
      items acc.
Proof.
  revert acc. induction items as [|[s p] items IH]; intro acc; simpl; auto.
Qed.

Lemma margin_fold_scaled (items : dict Position) (prices : dict Q) (lev a b : Q) :
  ~ lev == 0 ->
  Forall (fun kp => leverage (snd kp) = lev) items ->
  a * lev == b ->
  fold_left
    (fun m kp =>
       m + PositionM.get_position_value (snd kp)
             (Engine.price_for prices (fst kp) (snd kp))
           / leverage (snd kp))
    items a * lev
  == fold_left
       (fun t kp =>
          t + PositionM.get_position_value (snd kp)
                (Engine.price_for prices (fst kp) (snd kp)))
       items b.
Proof.
  intros Hlev. revert a b. induction items as [|[s p] items IH]; intros a b Hall Hab;
    simpl.
  - exact Hab.
  - apply Forall_cons_iff in Hall. destruct Hall as [Hx Hl]. simpl in Hx.
    apply IH; [exact Hl|]. simpl. rewrite Hx, <- Hab. field. exact Hlev.
Qed.

(** X15.  Margin used is exposure over leverage.  When every stored position
    carries the engine's leverage and that leverage is not zero (as along
    every run from a fresh engine), [get_margin_used] returns, and the margin
    it returns times the leverage is the total exposure. *)
Theorem margin_used_is_exposure_over_leverage
  (rt : RiskTracker) (prices : dict Q) :
  Book.engine_leverage (engine rt) ->
  ~ max_leverage (engine rt) == 0 ->
  exists used,
    Tracker.get_margin_used rt prices = Ok used /\
    used * max_leverage (engine rt) == Tracker.get_total_exposure rt prices.
Proof.
  intros Hinv Hlev. unfold Tracker.get_margin_used, Tracker.get_total_exposure.
  rewrite margin_used_loop_defined.
  - eexists. split; [reflexivity|]. rewrite exposure_loop_fold.
    apply margin_fold_scaled; [exact Hlev|exact Hinv|ring].
  - unfold Book.engine_leverage in Hinv. rewrite Forall_forall in *.
    intros kp Hin. rewrite (Hinv kp Hin). exact Hlev.
Qed.

Lemma margin_used_is_exposure_over_leverage_witness :
  exists used,
    Tracker.get_margin_used (Risk.init Scenario.holding) (Scenario.prices_at 110)
      = Ok used /\
    used * max_leverage (engine (Risk.init Scenario.holding))
    == Tracker.get_total_exposure (Risk.init Scenario.holding) (Scenario.prices_at 110).
Proof.
  apply (margin_used_is_exposure_over_leverage (Risk.init Scenario.holding)
           (Scenario.prices_at 110)).
  - repeat constructor.
  - intro H. vm_compute in H. discriminate.
Defined.

Lemma dict_set_absent {V : Type} (d : dict V) (k : string) (v : V) :
  dict_get d k = None -> dict_set d k v = (d ++ [(k, v)])%list.
Proof.
  induction d as [|[k' v'] d IH]; simpl; [reflexivity|].
  destruct (String.eqb k k'); [discriminate|]. intro G. now rewrite IH.
Qed.

Lemma by_asset_loop_map (value : Position -> Q -> Q) (items : dict Position)
  (prices : dict Q) (out : dict Q) :
  NoDup (map fst out ++ Book.symbols items) ->
  Tracker.by_asset_loop value items prices out
  = (out ++ map (fun kp => (fst kp,
                            value (snd kp) (Engine.price_for prices (fst kp) (snd kp))))
                items)%list.
Proof.
  revert out. induction items as [|[s p] items IH]; intros out Hnd; simpl.
  - now rewrite app_nil_r.
  - unfold Book.symbols in Hnd. simpl in Hnd.
    assert (Habs : dict_get out s = None).
    { apply dict_get_none. intro Hin. apply NoDup_remove_2 in Hnd.
      apply Hnd. apply in_or_app. now left. }
    rewrite (dict_set_absent out s _ Habs), IH.
    + rewrite <- app_assoc. reflexivity.
    + rewrite map_app. simpl. rewrite <- app_assoc. simpl. exact Hnd.
Qed.

Lemma sum_values_map (f : string * Position -> Q) (items : dict Position) (acc : Q) :
  fold_left (fun t kp => t + f kp) items acc
  == acc + Tracker.sum_values (map (fun kp => (fst kp, f kp)) items).
Proof.
  revert acc. induction items as [|kp items IH]; intro acc; simpl.
  - lra.
  - rewrite IH. lra.
Qed.

Lemma dict_get_map_value (f : string * Position -> Q) (items : dict Position)
  (s : string) :
  dict_get (map (fun kp => (fst kp, f kp)) items) s
  = match items with
    | [] => None
    | _ => option_map (fun p => f (s, p)) (dict_get items s)
    end.
Proof.
  induction items as [|[k p] items IH]; simpl; [reflexivity|].
  destruct (String.eqb s k) eqn:E.
  - apply String.eqb_eq in E. now subst.
  - rewrite IH. destruct items; reflexivity.
Qed.

(** X16.  Per-asset breakdowns add up.  When the book holds at most one
    position per symbol, [get_exposure_by_asset] and
    [get_unrealized_pnl_by_asset] list the book's symbols in the book's order,
    give for each held symbol the value of its position at the price used for
    it, and their values add up to [get_total_exposure] and to
    [get_unrealized_pnl]. *)
Theorem per_asset_breakdowns_add_up (rt : RiskTracker) (prices : dict Q) :
  Book.one_per_symbol (engine rt) ->
  map fst (Tracker.get_exposure_by_asset rt prices)
    = Book.symbols (positions (engine rt)) /\
  map fst (Tracker.get_unrealized_pnl_by_asset rt prices)
    = Book.symbols (positions (engine rt)) /\
  Tracker.sum_values (Tracker.get_exposure_by_asset rt prices)
    == Tracker.get_total_exposure rt prices /\
  Tracker.sum_values (Tracker.get_unrealized_pnl_by_asset rt prices)
    == Tracker.get_unrealized_pnl rt prices /\
  (forall s p,
     dict_get (positions (engine rt)) s = Some p ->
     dict_get (Tracker.get_exposure_by_asset rt prices) s
       = Some (PositionM.get_position_value p (Engine.price_for prices s p))
     /\ dict_get (Tracker.get_unrealized_pnl_by_asset rt prices) s
        = Some (PositionM.calculate_unrealized_pnl p (Engine.price_for prices s p))).
Proof.
  intros [Hnd _].
  unfold Tracker.get_exposure_by_asset, Tracker.get_unrealized_pnl_by_asset,
    Tracker.get_total_exposure, Tracker.get_unrealized_pnl,
    Engine.get_total_unrealized_pnl.
  rewrite !by_asset_loop_map by exact Hnd. cbn [app].
  split; [unfold Book.symbols; rewrite map_map; reflexivity|].
  split; [unfold Book.symbols; rewrite map_map; reflexivity|].
  split.
  { rewrite exposure_loop_fold.
    rewrite (sum_values_map
               (fun kp => PositionM.get_position_value (snd kp)
                            (Engine.price_for prices (fst kp) (snd kp)))).
    lra. }
  split.
  { assert (H : forall items acc,
              Engine.unrealized_loop items prices acc
              = fold_left
                  (fun t kp =>
                     t + PositionM.calculate_unrealized_pnl (snd kp)
                           (Engine.price_for prices (fst kp) (snd kp)))
                  items acc).
    { induction items as [|[s p] items IH]; intro acc; simpl; auto. }
    rewrite H.
    rewrite (sum_values_map
               (fun kp => PositionM.calculate_unrealized_pnl (snd kp)
                            (Engine.price_for prices (fst kp) (snd kp)))).
    lra. }
  intros s p G.
  rewrite (dict_get_map_value
             (fun kp => PositionM.get_position_value (snd kp)
                          (Engine.price_for prices (fst kp) (snd kp)))).
  rewrite (dict_get_map_value
             (fun kp => PositionM.calculate_unrealized_pnl (snd kp)
                          (Engine.price_for prices (fst kp) (snd kp)))).
  rewrite G. destruct (positions (engine rt)); [discriminate|]. split; reflexivity.
Qed.

Lemma per_asset_breakdowns_add_up_witness :
  map fst (Tracker.get_exposure_by_asset (Risk.init Scenario.holding)
             (Scenario.prices_at 110))
    = Book.symbols (positions (engine (Risk.init Scenario.holding))) /\
  map fst (Tracker.get_unrealized_pnl_by_asset (Risk.init Scenario.holding)
             (Scenario.prices_at 110))
    = Book.symbols (positions (engine (Risk.init Scenario.holding))) /\
  Tracker.sum_values (Tracker.get_exposure_by_asset (Risk.init Scenario.holding)
                        (Scenario.prices_at 110))
    == Tracker.get_total_exposure (Risk.init Scenario.holding) (Scenario.prices_at 110) /\
  Tracker.sum_values (Tracker.get_unrealized_pnl_by_asset (Risk.init Scenario.holding)
                        (Scenario.prices_at 110))
    == Tracker.get_unrealized_pnl (Risk.init Scenario.holding) (Scenario.prices_at 110) /\
  (forall s p,
     dict_get (positions (engine (Risk.init Scenario.holding))) s = Some p ->
     dict_get (Tracker.get_exposure_by_asset (Risk.init Scenario.holding)
                 (Scenario.prices_at 110)) s
       = Some (PositionM.get_position_value p
                 (Engine.price_for (Scenario.prices_at 110) s p))
     /\ dict_get (Tracker.get_unrealized_pnl_by_asset (Risk.init Scenario.holding)
                    (Scenario.prices_at 110)) s
        = Some (PositionM.calculate_unrealized_pnl p
                  (Engine.price_for (Scenario.prices_at 110) s p))).
Proof.
  apply (per_asset_breakdowns_add_up (Risk.init Scenario.holding)
           (Scenario.prices_at 110)).
  split; repeat constructor. simpl. tauto.
Defined.

(** ** portfolio/portfolio_manager.py *)

Lemma fold_plus_shift (l : list Q) (a : Q) :
  fold_left Qplus l a == a + fold_left Qplus l 0.
Proof.
  revert a. induction l as [|x l IH]; intro a; simpl.
  - lra.
  - rewrite (IH (a + x)), (IH (0 + x)). lra.
Qed.

Lemma py_sum_cons (x : Q) (l : list Q) :
  Portfolio.py_sum (x :: l) == x + Portfolio.py_sum l.
Proof.
  unfold Portfolio.py_sum. simpl. rewrite fold_plus_shift. lra.
Qed.

Lemma py_sum_positive (l : list Q) :
  Forall (fun x => 0 < x) l -> l <> [] -> 0 < Portfolio.py_sum l.
Proof.
  induction l as [|x l IH]; intros Hall Hne; [congruence|].
  apply Forall_cons_iff in Hall. destruct Hall as [Hx Hl].
  rewrite py_sum_cons. destruct l as [|y l].
  - unfold Portfolio.py_sum. simpl. lra.
  - assert (0 < Portfolio.py_sum (y :: l)) by (apply IH; [exact Hl|discriminate]).
    lra.
Qed.

Lemma py_sum_nonpositive (l : list Q) :
  Forall (fun x => x <= 0) l -> Portfolio.py_sum l <= 0.
Proof.
  induction l as [|x l IH]; intro Hall.
  - unfold Portfolio.py_sum. simpl. lra.
  - apply Forall_cons_iff in Hall. destruct Hall as [Hx Hl].
    rewrite py_sum_cons. specialize (IH Hl). lra.
Qed.

Lemma py_sum_nonnegative (l : list Q) :
  Forall (fun x => 0 <= x) l -> 0 <= Portfolio.py_sum l.
Proof.
  induction l as [|x l IH]; intro Hall.
  - unfold Portfolio.py_sum. simpl. lra.
  - apply Forall_cons_iff in Hall. destruct Hall as [Hx Hl].
    rewrite py_sum_cons. specialize (IH Hl). lra.
Qed.

Lemma winners_gain (pm : PortfolioManager) :
  Forall (fun x => 0 < x) (map realized_pnl (Portfolio.winners pm)).
Proof.
  apply Forall_forall. intros x Hin. apply in_map_iff in Hin.
  destruct Hin as [cp [<- Hin]]. apply filter_In in Hin. destruct Hin as [_ Hp].
  now apply gtb_gt in Hp.
Qed.

Lemma losers_lose (pm : PortfolioManager) :
  Forall (fun x => x <= 0) (map realized_pnl (Portfolio.losers pm)).
Proof.
  apply Forall_forall. intros x Hin. apply in_map_iff in Hin.
  destruct Hin as [cp [<- Hin]]. apply filter_In in Hin. destruct Hin as [_ Hp].
  apply negb_true_iff in Hp. now apply gtb_le in Hp.
Qed.

Lemma of_count_pos (n : nat) : (0 < n)%nat -> 0 < Portfolio.of_count n.
Proof.
  intro H. unfold Portfolio.of_count.
  change 0 with (inject_Z 0). rewrite <- Zlt_Qlt. lia.
Qed.

Lemma of_count_le (n m : nat) : (n <= m)%nat -> Portfolio.of_count n <= Portfolio.of_count m.
Proof.
  intro H. unfold Portfolio.of_count. rewrite <- Zle_Qle. lia.
Qed.

Lemma of_count_eq (n m : nat) : Portfolio.of_count n == Portfolio.of_count m -> n = m.
Proof.
  unfold Portfolio.of_count. intro H.
  unfold Qeq in H. simpl in H. lia.
Qed.

Lemma filter_all_length {A : Type} (f : A -> bool) (l : list A) :
  List.length (filter f l) = List.length l <-> Forall (fun x => f x = true) l.
Proof.
  induction l as [|x l IH]; simpl.
  - split; [constructor|reflexivity].
  - pose proof (filter_length_le f l) as Hle.
    destruct (f x) eqn:E; simpl.
    + split.
      * intro H. constructor; [exact E|]. apply IH. lia.
      * intro H. apply Forall_cons_iff in H. destruct H as [_ H].
        apply IH in H. lia.
    + split.
      * intro H. lia.
      * intro H. apply Forall_cons_iff in H. destruct H as [H _]. congruence.
Qed.

Lemma realized_total_splits (l : list ClosedPosition) (acc : Q) :
  fold_left (fun a cp => a + realized_pnl cp) l acc
  == acc + Portfolio.py_sum (map realized_pnl (filter PositionM.is_profitable l))
     + Portfolio.py_sum
         (map realized_pnl (filter (fun cp => negb (PositionM.is_profitable cp)) l)).
Proof.
  revert acc. induction l as [|cp l IH]; intro acc; simpl.
  - unfold Portfolio.py_sum. simpl. lra.
  - rewrite IH. destruct (PositionM.is_profitable cp); simpl;
      rewrite py_sum_cons; lra.
Qed.

(** X17.  The win rate is a percentage.  [get_win_rate] lies between 0 and
    100; it is 100 exactly when there is a closed trade and every closed trade
    is profitable, and 0 exactly when no closed trade is profitable (a trade
    closed at a realized P&L of zero counts as not profitable). *)
Theorem win_rate_is_a_percentage (pm : PortfolioManager) :
  0 <= Portfolio.get_win_rate pm /\ Portfolio.get_win_rate pm <= 100 /\
  (Portfolio.get_win_rate pm == 100 <->
     closed_positions (pm_engine pm) <> [] /\
     Forall (fun cp => 0 < realized_pnl cp) (closed_positions (pm_engine pm))) /\
  (Portfolio.get_win_rate pm == 0 <->
     Forall (fun cp => realized_pnl cp <= 0) (closed_positions (pm_engine pm))).
Proof.
  unfold Portfolio.get_win_rate, Portfolio.winners.
  destruct (closed_positions (pm_engine pm)) as [|cp l] eqn:E.
  - repeat split; try lra; try constructor; try (intro; lra).
    intros [H _]. congruence.
  - set (all := cp :: l).
    set (w := Portfolio.of_count (List.length (filter PositionM.is_profitable all))).
    set (n := Portfolio.of_count (List.length all)).
    assert (Hn : 0 < n) by (apply of_count_pos; simpl; lia).
    assert (Hw : 0 <= w).
    { unfold w. change 0 with (Portfolio.of_count 0). apply of_count_le. lia. }
    assert (Hwn : w <= n) by (apply of_count_le, filter_length_le).
    assert (Hdiv : w / n * n == w) by (field; lra).
    assert (H0 : 0 <= w / n).
    { apply Qle_shift_div_l; [exact Hn|lra]. }
    assert (H1 : w / n <= 1).
    { apply Qle_shift_div_r; [exact Hn|lra]. }
    split; [lra|]. split; [lra|]. split; [|].
    + split.
      * intro H. split; [discriminate|].
        assert (Hq : w == n) by nra.
        apply of_count_eq in Hq. apply filter_all_length in Hq.
        apply Forall_forall. intros c Hin.
        rewrite Forall_forall in Hq. specialize (Hq c Hin).
        now apply gtb_gt in Hq.
      * intros [_ H].
        assert (Hq : List.length (filter PositionM.is_profitable all)
                     = List.length all).
        { apply filter_all_length. apply Forall_forall. intros c Hin.
          rewrite Forall_forall in H. apply gtb_gt. now apply H. }
        assert (Hwq : w == n) by (unfold w, n; now rewrite Hq).
        nra.
    + split.
      * intro H. assert (Hq : w == 0) by nra.
        change 0 with (Portfolio.of_count 0) in Hq. apply of_count_eq in Hq.
        apply Forall_forall. intros c Hin. apply gtb_le.
        destruct (gtb (realized_pnl c) 0) eqn:G; [|reflexivity].
        assert (Hc : In c (filter PositionM.is_profitable all)).
        { apply filter_In. split; [exact Hin|exact G]. }
        destruct (filter PositionM.is_profitable all); [contradiction|discriminate].
      * intro H.
        assert (Hq : filter PositionM.is_profitable all = []).
        { destruct (filter PositionM.is_profitable all) as [|c r] eqn:F; [reflexivity|].
          assert (Hc : In c (filter PositionM.is_profitable all))
            by (rewrite F; now left).
          apply filter_In in Hc. destruct Hc as [Hin Hp].
          rewrite Forall_forall in H. specialize (H c Hin).
          apply gtb_gt in Hp. lra. }
        assert (Hwq : w == 0) by (unfold w; now rewrite Hq).
        nra.
Qed.

(** X18.  Average win and average loss.  [get_average_win] is positive when
    some closed trade is profitable and 0.0 otherwise; [get_average_loss] is
    never positive; and each average, times the number of trades it is taken
    over, gives back the gross profit and (negated) the gross loss that
    [get_profit_factor] works with. *)
Theorem average_win_and_loss_signs (pm : PortfolioManager) :
  (Portfolio.winners pm <> [] -> 0 < Portfolio.get_average_win pm) /\
  (Portfolio.winners pm = [] -> Portfolio.get_average_win pm = 0) /\
  Portfolio.get_average_loss pm <= 0 /\
  Portfolio.get_average_win pm * Portfolio.of_count (List.length (Portfolio.winners pm))
  == Portfolio.gross_profit pm /\
  Portfolio.get_average_loss pm * Portfolio.of_count (List.length (Portfolio.losers pm))
  == - Portfolio.gross_loss pm.
Proof.
  pose proof (winners_gain pm) as Hw. pose proof (losers_lose pm) as Hl.
  unfold Portfolio.get_average_win, Portfolio.get_average_loss,
    Portfolio.gross_profit, Portfolio.gross_loss.
  cbv zeta.
  assert (Hlen : forall l : list ClosedPosition,
             List.length (map realized_pnl l) = List.length l)
    by (intro; apply length_map).
  repeat split.
  - intro Hne. destruct (Portfolio.winners pm) as [|c r] eqn:E; [congruence|].
    simpl map in *. cbv iota.
    assert (Hs : 0 < Portfolio.py_sum (realized_pnl c :: map realized_pnl r))
      by (apply py_sum_positive; [exact Hw|discriminate]).
    assert (Hn : 0 < Portfolio.of_count
                       (List.length (realized_pnl c :: map realized_pnl r)))
      by (apply of_count_pos; simpl; lia).
    apply Qlt_shift_div_l; [exact Hn|lra].
  - intro E. now rewrite E.
  - destruct (Portfolio.losers pm) as [|c r] eqn:E; simpl map in *; cbv iota; [lra|].
    assert (Hs : Portfolio.py_sum (realized_pnl c :: map realized_pnl r) <= 0)
      by (now apply py_sum_nonpositive).
    assert (Hn : 0 < Portfolio.of_count
                       (List.length (realized_pnl c :: map realized_pnl r)))
      by (apply of_count_pos; simpl; lia).
    apply Qle_shift_div_r; [exact Hn|lra].
  - destruct (Portfolio.winners pm) as [|c r] eqn:E; simpl map; cbv iota.
    + unfold Portfolio.py_sum. simpl. lra.
    + assert (Hn : 0 < Portfolio.of_count (List.length (c :: r)))
        by (apply of_count_pos; simpl; lia).
      change (realized_pnl c :: map realized_pnl r) with (map realized_pnl (c :: r)).
      rewrite Hlen. field. lra.
  - assert (Hs : Portfolio.py_sum (map realized_pnl (Portfolio.losers pm)) <= 0)
      by (now apply py_sum_nonpositive).
    rewrite (Qabs_neg _ Hs).
    destruct (Portfolio.losers pm) as [|c r] eqn:E; simpl map; cbv iota.
    + unfold Portfolio.py_sum. simpl. lra.
    + assert (Hn : 0 < Portfolio.of_count (List.length (c :: r)))
        by (apply of_count_pos; simpl; lia).
      change (realized_pnl c :: map realized_pnl r) with (map realized_pnl (c :: r)).
      rewrite Hlen. field. lra.
Qed.

(** X19.  What the profit factor says.  The realized P&L the engine totals is
    gross profit less gross loss.  When some loss was realized the profit
    factor is a non-negative number, and it is above 1 exactly when the total
    realized P&L is positive; without any realized loss (in particular with
    no closed trade at all) the factor is [inf], whatever the profit. *)
Theorem profit_factor_reads_realized_pnl (pm : PortfolioManager) :
  0 <= Portfolio.gross_profit pm /\ 0 <= Portfolio.gross_loss pm /\
  Engine.get_total_realized_pnl (pm_engine pm)
  == Portfolio.gross_profit pm - Portfolio.gross_loss pm /\
  match Portfolio.get_profit_factor pm with
  | XFloat.Fin x =>
      0 < Portfolio.gross_loss pm /\ 0 <= x /\
      (1 < x <-> 0 < Engine.get_total_realized_pnl (pm_engine pm)) /\
      (x == 0 <-> Portfolio.winners pm = [])
  | XFloat.PInf =>
      Portfolio.gross_loss pm == 0 /\
      Engine.get_total_realized_pnl (pm_engine pm) == Portfolio.gross_profit pm
  | _ => False
  end.
Proof.
  pose proof (winners_gain pm) as Hw. pose proof (losers_lose pm) as Hl.
  assert (Hgp : 0 <= Portfolio.gross_profit pm).
  { unfold Portfolio.gross_profit. apply py_sum_nonnegative.
    eapply Forall_impl; [|exact Hw]. simpl. intros; lra. }
  assert (Hls : Portfolio.py_sum (map realized_pnl (Portfolio.losers pm)) <= 0)
    by (now apply py_sum_nonpositive).
  assert (Hgl : Portfolio.gross_loss pm
                == - Portfolio.py_sum (map realized_pnl (Portfolio.losers pm))).
  { unfold Portfolio.gross_loss. now rewrite (Qabs_neg _ Hls). }
  assert (Htot : Engine.get_total_realized_pnl (pm_engine pm)
                 == Portfolio.gross_profit pm - Portfolio.gross_loss pm).
  { unfold Engine.get_total_realized_pnl. rewrite realized_total_splits, Hgl.
    unfold Portfolio.gross_profit, Portfolio.winners, Portfolio.losers. lra. }
  split; [exact Hgp|]. split; [lra|]. split; [exact Htot|].
  unfold Portfolio.get_profit_factor.
  destruct (gtb (Portfolio.gross_loss pm) 0) eqn:G.
  - apply gtb_gt in G.
    set (gp := Portfolio.gross_profit pm) in *.
    set (gl := Portfolio.gross_loss pm) in *.
    assert (Hdiv : gp / gl * gl == gp) by (field; lra).
    split; [exact G|]. split; [|split].
    + apply Qle_shift_div_l; [exact G|lra].
    + rewrite Htot. split; intro H.
      * nra.
      * apply Qlt_shift_div_l; [exact G|lra].
    + split; intro H.
      * destruct (Portfolio.winners pm) as [|c r] eqn:E; [reflexivity|].
        assert (0 < gp).
        { unfold gp, Portfolio.gross_profit. rewrite E.
          apply py_sum_positive; [exact Hw|discriminate]. }
        nra.
      * assert (Hz : gp == 0).
        { unfold gp, Portfolio.gross_profit. rewrite H.
          unfold Portfolio.py_sum. simpl. lra. }
        rewrite Hz. field. lra.
  - apply gtb_le in G. split; lra.
Qed.

(** ** strategies/base_strategy.py and market_config.py: sizes *)

Lemma py_int_floor (x : Q) :
  0 <= x ->
  inject_Z (BaseStrategy.py_int x) <= x /\ x < inject_Z (BaseStrategy.py_int x) + 1.
Proof.
  destruct x as [n d]. unfold BaseStrategy.py_int, Qle, Qlt. simpl.
  intro H. assert (Hn : (0 <= n)%Z) by lia.
  rewrite Z.quot_div_nonneg by lia.
  pose proof (Z.mul_div_le n (Zpos d) ltac:(lia)) as H1.
  pose proof (Z.mul_succ_div_gt n (Zpos d) ltac:(lia)) as H2.
  split; nia.
Qed.

Lemma py_int_nonnegative (x : Q) : 0 <= x -> (0 <= BaseStrategy.py_int x)%Z.
Proof.
  destruct x as [n d]. unfold BaseStrategy.py_int, Qle. simpl. intro H.
  apply Z.quot_pos; lia.
Qed.

Lemma py_int_small (x : Q) : x < 1 -> (BaseStrategy.py_int x <= 0)%Z.
Proof.
  destruct x as [n d]. unfold BaseStrategy.py_int, Qlt. simpl. intro H.
  destruct (Z.le_gt_cases 0 n) as [Hn|Hn].
  - rewrite Z.quot_small; lia.
  - pose proof (Z.quot_opp_l n (Zpos d) ltac:(lia)) as Ho.
    pose proof (Z.quot_pos (- n) (Zpos d) ltac:(lia) ltac:(lia)). lia.
Qed.



(** Each of the three errors is reached, the overflow from finite arguments
    (a budget of 10^309), and two ordinary sizes: 200 / 30 and 200 / 300. *)
Lemma position_size_error_paths :
  BaseStrategy.calculate_position_size
    (Fin (inject_Z (10 ^ 308))) (Fin 1) (Fin 10) = Raise OverflowError /\
  BaseStrategy.calculate_position_size (Fin 10000) (Fin 0) (Fin (2 # 100))
  = Raise ZeroDivisionError /\
  BaseStrategy.calculate_position_size XFloat.PInf (Fin 100) (Fin 0)
  = Raise ValueError /\
  BaseStrategy.calculate_position_size (Fin 10000) (Fin 30) (Fin (2 # 100)) = Ok 6%Z /\
  BaseStrategy.calculate_position_size (Fin 10000) (Fin 300) (Fin (2 # 100)) = Ok 1%Z.
Proof. repeat split; vm_compute; reflexivity. Qed.

Lemma table_lookup_positive (d : dict Z) (k : string) (default : Z) :
  Forall (fun kv => (1 <= snd kv)%Z) d -> (1 <= default)%Z ->
  (1 <= dict_get_default d k default)%Z.
Proof.
  intros Hd Hdef. unfold dict_get_default.
  induction d as [|[k' v] d IH]; simpl; [exact Hdef|].
  apply Forall_cons_iff in Hd. destruct Hd as [Hv Hd].
  destruct (String.eqb k k'); [exact Hv|]. now apply IH.
Qed.

Lemma lot_tables_positive :
  Forall (fun kv : string * Z => (1 <= snd kv)%Z) Market.INDIAN_LOT_SIZES_DEC_2025 /\
  Forall (fun kv : string * Z => (1 <= snd kv)%Z) Market.INDIAN_LOT_SIZES_JAN_2026 /\
  Forall (fun kv : string * Z => (1 <= snd kv)%Z) Market.INDIAN_STOCK_LOT_SIZES.
Proof.
  unfold Market.INDIAN_LOT_SIZES_DEC_2025, Market.INDIAN_LOT_SIZES_JAN_2026,
    Market.INDIAN_STOCK_LOT_SIZES.
  repeat split; repeat constructor; simpl; lia.
Qed.

Lemma lot_size_positive (upper : string -> string) (symbol expiry_month : string) :
  (1 <= Market.get_lot_size upper symbol expiry_month)%Z.
Proof.
  destruct lot_tables_positive as [Hdec [Hjan Hstock]].
  unfold Market.get_lot_size. cbv zeta.
  destruct (Market.get_market_type upper symbol); [|lia].
  destruct (String.eqb (upper expiry_month) "JAN");
    apply table_lookup_positive; try assumption;
    apply table_lookup_positive; try assumption; lia.
Qed.

Lemma py_int_at_least_one (x : Q) : 1 <= x -> (1 <= BaseStrategy.py_int x)%Z.
Proof.
  intro H. destruct (py_int_floor x) as [_ Hhi]; [lra|].
  apply Z.lt_succ_r. rewrite Zlt_Qlt.
  replace (inject_Z (Z.succ (BaseStrategy.py_int x)))
    with (inject_Z (BaseStrategy.py_int x + 1)) by (f_equal; lia).
  rewrite inject_Z_plus. change (inject_Z 1) with 1. lra.
Qed.

(** ** strategies: what the signals say *)

Ltac sig_step H :=
  match type of H with
  | Ok _ = Ok _ => inversion H; subst; clear H
  | Raise _ = Ok _ => discriminate H
  | Py.bind ?m _ = _ =>
      let E := fresh "E" in destruct m eqn:E; cbn [Py.bind] in H; [|discriminate H]
  | (if ?b then _ else _) = _ => let E := fresh "E" in destruct b eqn:E
  | match ?x with _ => _ end = _ => let E := fresh "E" in destruct x eqn:E
  end.

Ltac sig_shape :=
  unfold Signals.stamped_from, Signals.fits_position; simpl;
  repeat split; try reflexivity; try assumption; try (now left); try (now right).

Lemma flat_cases (pos : option Z) :
  Sig.flat pos = true -> pos = None \/ pos = Some 0%Z.
Proof.
  destruct pos as [z|]; simpl; [|now left].
  intro H. apply Z.eqb_eq in H. subst. now right.
Qed.

Lemma holding_cases (z : Z) :
  ((z >? 0)%Z = true \/ (z <? 0)%Z = true) -> exists z', Some z = Some z' /\ z' <> 0%Z.
Proof. intros [H|H]; exists z; split; try reflexivity; lia. Qed.

Lemma rsi_signal_shape (s : RSIStrategy) (data : DataFrame) (symbol : string)
  (pos : option Z) (sig : TradeSignal) :
  RSI.generate_signal s data symbol pos = Ok sig ->
  Signals.stamped_from data symbol sig /\ Signals.fits_position pos sig.
Proof.
  intro H. unfold RSI.generate_signal, Sig.at_last_bar in H. cbv zeta in H.
  repeat sig_step H; sig_shape;
    try (now apply flat_cases); try (apply holding_cases; tauto).
Qed.

Lemma ema_signal_shape (s : EMAStrategy) (data : DataFrame) (symbol : string)
  (pos : option Z) (sig : TradeSignal) :
  EMA.generate_signal s data symbol pos = Ok sig ->
  Signals.stamped_from data symbol sig /\ Signals.fits_position pos sig.
Proof.
  intro H. unfold EMA.generate_signal, Sig.at_last_bar in H. cbv zeta in H.
  repeat sig_step H; sig_shape;
    try (now apply flat_cases); try (apply holding_cases; tauto).
Qed.

Lemma ma_signal_shape (s : MACrossoverStrategy) (data : DataFrame) (symbol : string)
  (pos : option Z) (sig : TradeSignal) :
  MA.generate_signal s data symbol pos = Ok sig ->
  Signals.stamped_from data symbol sig /\ Signals.fits_position pos sig.
Proof.
  intro H. unfold MA.generate_signal, Sig.at_last_bar in H. cbv zeta in H.
  repeat sig_step H; sig_shape;
    try (now apply flat_cases); try (apply holding_cases; tauto).
Qed.

Lemma stochastic_signal_shape (s : StochasticStrategy) (data : DataFrame)
  (symbol : string) (pos : option Z) (sig : TradeSignal) :
  Stochastic.generate_signal s data symbol pos = Ok sig ->
  Signals.stamped_from data symbol sig /\ Signals.fits_position pos sig.
Proof.
  intro H. unfold Stochastic.generate_signal, Sig.at_last_bar in H. cbv zeta in H.
  repeat sig_step H; sig_shape;
    try (match goal with
         | Hz : (?z =? 0)%Z = true |- _ => apply Z.eqb_eq in Hz; subst; now right
         end);
    try (apply holding_cases; tauto).
Qed.

Lemma combined_signal_shape (s : CombinedStrategy) (data : DataFrame)
  (symbol : string) (pos : option Z) (sig : TradeSignal) :
  Combined.generate_signal s data symbol pos = Ok sig ->
  Signals.stamped_from data symbol sig /\ Signals.fits_position pos sig.
Proof.
  intro H. unfold Combined.generate_signal, Sig.at_last_bar in H. cbv zeta in H.
  repeat sig_step H; sig_shape;
    try (now apply flat_cases); try (apply holding_cases; tauto).
Qed.

Lemma strategy_signal_shape (s : Strategy) (data : DataFrame) (symbol : string)
  (pos : option Z) (sig : TradeSignal) :
  Strat.generate_signal s data symbol pos = Ok sig ->
  Signals.stamped_from data symbol sig /\ Signals.fits_position pos sig.
Proof.
  destruct s; simpl.
  - apply rsi_signal_shape.
  - apply ma_signal_shape.
  - apply ema_signal_shape.
  - apply combined_signal_shape.
  - apply stochastic_signal_shape.
Qed.

(** ** strategies/rsi_strategy.py: the range of the indicator *)

Lemma in_firstn {A : Type} (n : nat) (l : list A) (x : A) :
  In x (firstn n l) -> In x l.
Proof.
  intro H. rewrite <- (firstn_skipn n l). apply in_or_app. now left.
Qed.

Lemma in_skipn {A : Type} (n : nat) (l : list A) (x : A) :
  In x (skipn n l) -> In x l.
Proof.
  intro H. rewrite <- (firstn_skipn n l). apply in_or_app. now right.
Qed.

Lemma in_window {A : Type} (i n : nat) (l : list A) (x : A) :
  In x (Pd.window i n l) -> In x l.
Proof.
  unfold Pd.window. intro H. apply in_firstn in H. now apply in_skipn in H.
Qed.

Lemma iloc_last_in {A : Type} (l : list A) (x : A) :
  Pd.iloc_last l = Ok x -> In x l.
Proof.
  unfold Pd.iloc_last. destruct (rev l) as [|y r] eqn:E; [discriminate|].
  intro H. inversion H; subst. apply in_rev. rewrite E. now left.
Qed.

Lemma sum_of_nonneg (s : Pd.Series) (a : Q) :
  Forall Signals.nonneg s -> 0 <= a ->
  exists q, fold_left XFloat.add s (Fin a) = Fin q /\ 0 <= q.
Proof.
  revert a. induction s as [|x s IH]; intros a Hall Ha; simpl.
  - now exists a.
  - apply Forall_cons_iff in Hall. destruct Hall as [[q [-> Hq]] Hs].
    simpl. apply IH; [exact Hs|lra].
Qed.

Lemma nonneg_is_number (s : Pd.Series) :
  Forall Signals.nonneg s -> existsb XFloat.isnan s = false.
Proof.
  induction 1 as [|x s [q [-> _]] _ IH]; simpl; [reflexivity|exact IH].
Qed.

Lemma mean_of_nonneg (s : Pd.Series) :
  Forall Signals.nonneg s -> Signals.nonneg_or_nan (Pd.mean s).
Proof.
  intro Hall. unfold Pd.mean. rewrite (nonneg_is_number s Hall).
  destruct s as [|x s]; [now left|].
  unfold Pd.sum.
  destruct (sum_of_nonneg (x :: s) 0 Hall ltac:(lra)) as [q [Hq Hq0]]. rewrite Hq.
  unfold XFloat.of_nat, XFloat.div.
  assert (Hn : 0 < inject_Z (Z.of_nat (List.length (x :: s)))).
  { change 0 with (inject_Z 0). rewrite <- Zlt_Qlt. simpl List.length. lia. }
  destruct (Qeq_bool (inject_Z (Z.of_nat (List.length (x :: s)))) 0) eqn:E.
  - apply Qeq_bool_iff in E. lra.
  - right. eexists. split; [reflexivity|].
    apply Qle_shift_div_l; lra.
Qed.

Lemma rolling_mean_of_nonneg (w : nat) (s : Pd.Series) :
  Forall Signals.nonneg s -> Forall Signals.nonneg_or_nan (Pd.rolling_mean w s).
Proof.
  intro Hall. unfold Pd.rolling_mean. apply Forall_forall. intros x Hin.
  apply in_map_iff in Hin. destruct Hin as [i [<- _]].
  destruct ((i + 1 <? w)%nat || (w =? 0)%nat)%bool; [now left|].
  apply mean_of_nonneg. apply Forall_forall. intros y Hy.
  apply in_window in Hy. rewrite Forall_forall in Hall. now apply Hall.
Qed.

Lemma rolling_mean_length (w : nat) (s : Pd.Series) :
  List.length (Pd.rolling_mean w s) = List.length s.
Proof. unfold Pd.rolling_mean. now rewrite length_map, length_seq. Qed.

Lemma diff_from_is_number (prev : Q) (l : list Q) :
  Forall (fun x => exists q, x = Fin q) (Pd.diff_from prev l).
Proof.
  revert prev. induction l as [|x l IH]; intro prev; simpl; constructor; eauto.
Qed.

Lemma diff_from_length (prev : Q) (l : list Q) :
  List.length (Pd.diff_from prev l) = List.length l.
Proof. revert prev. induction l as [|x l IH]; intro prev; simpl; auto. Qed.

Lemma diff_length (l : list Q) : List.length (Pd.diff l) = List.length l.
Proof. destruct l; simpl; [reflexivity|]. now rewrite diff_from_length. Qed.

Lemma diff_is_number_or_nan (l : list Q) :
  Forall (fun x => x = NaN \/ exists q, x = Fin q) (Pd.diff l).
Proof.
  destruct l as [|x l]; simpl; constructor; [now left|].
  eapply Forall_impl; [|apply diff_from_is_number]. simpl. intros; now right.
Qed.

Lemma gains_nonneg (l : list Q) :
  Forall Signals.nonneg (Pd.where0 (fun d => XFloat.gtb d (Fin 0)) (Pd.diff l)).
Proof.
  unfold Pd.where0. apply Forall_forall. intros y Hy.
  apply in_map_iff in Hy. destruct Hy as [x [<- Hx]].
  pose proof (diff_is_number_or_nan l) as Hd. rewrite Forall_forall in Hd.
  destruct (Hd x Hx) as [->|[q ->]]; simpl.
  - exists 0. split; [reflexivity|lra].
  - destruct (Py.ltb 0 q) eqn:E.
    + apply ltb_lt in E. exists q. split; [reflexivity|lra].
    + exists 0. split; [reflexivity|lra].
Qed.

Lemma losses_nonneg (l : list Q) :
  Forall Signals.nonneg
    (map XFloat.neg (Pd.where0 (fun d => XFloat.ltb d (Fin 0)) (Pd.diff l))).
Proof.
  unfold Pd.where0. rewrite map_map. apply Forall_forall. intros y Hy.
  apply in_map_iff in Hy. destruct Hy as [x [<- Hx]].
  pose proof (diff_is_number_or_nan l) as Hd. rewrite Forall_forall in Hd.
  destruct (Hd x Hx) as [->|[q ->]]; simpl.
  - exists (- 0). split; [reflexivity|lra].
  - destruct (Py.ltb q 0) eqn:E; simpl.
    + apply ltb_lt in E. exists (- q). split; [reflexivity|lra].
    + exists (- 0). split; [reflexivity|lra].
Qed.

Lemma rsi_of_averages (g l : XFloat.t) :
  Signals.nonneg_or_nan g -> Signals.nonneg_or_nan l ->
  Signals.percent_or_nan
    (XFloat.sub (Fin 100) (XFloat.div (Fin 100) (XFloat.add (Fin 1) (XFloat.div g l)))).
Proof.
  intros [->|[a [-> Ha]]] [->|[b [-> Hb]]]; try (now left).
  unfold XFloat.div at 2.
  destruct (Qeq_bool b 0) eqn:E.
  - destruct (a ?= 0) eqn:C; simpl.
    + now left.
    + apply Qlt_alt in C. lra.
    + right. eexists. split; [reflexivity|]. lra.
  - apply Qeq_bool_neq in E.
    assert (Hr : 0 <= a / b) by (apply Qle_shift_div_l; lra).
    simpl XFloat.add. unfold XFloat.div.
    destruct (Qeq_bool (1 + a / b) 0) eqn:E1.
    + apply Qeq_bool_iff in E1. lra.
    + right. simpl. eexists. split; [reflexivity|].
      assert (H1 : 0 < 100 / (1 + a / b)) by (apply Qlt_shift_div_l; lra).
      assert (H2 : 100 / (1 + a / b) <= 100) by (apply Qle_shift_div_r; lra).
      lra.
Qed.

Lemma rsi_values_in_range (prices : list Q) (period : nat) :
  Forall Signals.percent_or_nan (RSI.calculate_rsi prices period).
Proof.
  unfold RSI.calculate_rsi. cbv zeta.
  apply Forall_forall. intros x Hin.
  apply in_map_iff in Hin. destruct Hin as [r [<- Hr]].
  unfold Pd.zip_with in Hr. apply in_map_iff in Hr.
  destruct Hr as [[g l] [<- Hgl]]. simpl fst. simpl snd.
  pose proof (rolling_mean_of_nonneg period _ (gains_nonneg prices)) as Hg.
  pose proof (rolling_mean_of_nonneg period _ (losses_nonneg prices)) as Hl.
  rewrite Forall_forall in Hg, Hl.
  apply rsi_of_averages.
  - apply Hg. eapply in_combine_l. exact Hgl.
  - apply Hl. eapply in_combine_r. exact Hgl.
Qed.

(** X21.  The RSI is a percentage.  [calculate_rsi] returns one value per
    price, and each value is [nan] or a number between 0 and 100, whatever the
    prices and the period: no infinity reaches the strategy, although the
    ratio of the averages is infinite when no loss is in the window; and below
    [period] prices every value is [nan]. *)
Theorem rsi_is_a_percentage (prices : list Q) (period : nat) :
  List.length (RSI.calculate_rsi prices period) = List.length prices /\
  Forall Signals.percent_or_nan (RSI.calculate_rsi prices period) /\
  ((List.length prices < period)%nat ->
   Forall (fun x => x = NaN) (RSI.calculate_rsi prices period)).
Proof.
  split; [|split].
  - unfold RSI.calculate_rsi. cbv zeta.
    unfold Pd.zip_with. rewrite !length_map, length_combine.
    rewrite !rolling_mean_length. unfold Pd.where0.
    rewrite !length_map, diff_length. lia.
  - apply rsi_values_in_range.
  - intro Hshort. unfold RSI.calculate_rsi. cbv zeta.
    apply Forall_forall. intros x Hin.
    apply in_map_iff in Hin. destruct Hin as [r [<- Hr]].
    unfold Pd.zip_with in Hr. apply in_map_iff in Hr.
    destruct Hr as [[g l] [<- Hgl]]. simpl fst. simpl snd.
    apply in_combine_l in Hgl. unfold Pd.rolling_mean in Hgl.
    apply in_map_iff in Hgl. destruct Hgl as [i [<- Hi]].
    apply in_seq in Hi. unfold Pd.where0 in Hi.
    rewrite length_map, diff_length in Hi.
    assert (E : (i + 1 <? period)%nat = true) by (apply Nat.ltb_lt; lia).
    rewrite E. reflexivity.
Qed.


Lemma unit_one : Signals.unit_interval (Fin 1).
Proof. exists 1. split; [reflexivity|lra]. Qed.



(** ** strategies/stochastic_strategy.py: the range of %K *)

Lemma fold_max_bounds (r : list Q) (a : Q) :
  a <= fold_left (fun m y => if Py.ltb m y then y else m) r a /\
  forall x, In x r -> x <= fold_left (fun m y => if Py.ltb m y then y else m) r a.
Proof.
  revert a. induction r as [|y r IH]; intro a; simpl.
  - split; [lra|contradiction].
  - destruct (IH (if Py.ltb a y then y else a)) as [H1 H2].
    destruct (Py.ltb a y) eqn:E.
    + apply ltb_lt in E. split; [lra|]. intros x [<-|Hx]; [exact H1|now apply H2].
    + apply ltb_ge in E. split; [exact H1|].
      intros x [<-|Hx]; [lra|now apply H2].
Qed.

Lemma fold_min_bounds (r : list Q) (a : Q) :
  fold_left (fun m y => if Py.ltb y m then y else m) r a <= a /\
  forall x, In x r -> fold_left (fun m y => if Py.ltb y m then y else m) r a <= x.
Proof.
  revert a. induction r as [|y r IH]; intro a; simpl.
  - split; [lra|contradiction].
  - destruct (IH (if Py.ltb y a then y else a)) as [H1 H2].
    destruct (Py.ltb y a) eqn:E.
    + apply ltb_lt in E. split; [lra|]. intros x [<-|Hx]; [exact H1|now apply H2].
    + apply ltb_ge in E. split; [exact H1|].
      intros x [<-|Hx]; [lra|now apply H2].
Qed.

Lemma np_max_is_upper_bound (l : list Q) (m x : Q) :
  Pd.np_max l = Ok m -> In x l -> x <= m.
Proof.
  destruct l as [|a r]; simpl; [discriminate|].
  intros H Hin. inversion H; subst. destruct (fold_max_bounds r a) as [H1 H2].
  destruct Hin as [<-|Hin]; [exact H1|now apply H2].
Qed.

Lemma np_min_is_lower_bound (l : list Q) (m x : Q) :
  Pd.np_min l = Ok m -> In x l -> m <= x.
Proof.
  destruct l as [|a r]; simpl; [discriminate|].
  intros H Hin. inversion H; subst. destruct (fold_min_bounds r a) as [H1 H2].
  destruct Hin as [<-|Hin]; [exact H1|now apply H2].
Qed.

Lemma window_last {A : Type} (i k : nat) (l : list A) (x : A) :
  (1 <= k)%nat -> nth_error l (i + k - 1) = Some x -> In x (Pd.window i k l).
Proof.
  intros Hk Hn. unfold Pd.window. apply (nth_error_In _ (k - 1)).
  rewrite nth_error_firstn.
  assert (E : (k - 1 <? k)%nat = true) by (apply Nat.ltb_lt; lia).
  rewrite E, nth_error_skipn. now replace (i + (k - 1))%nat with (i + k - 1)%nat by lia.
Qed.

Lemma index_at (l : list Q) (i k : nat) :
  (1 <= k)%nat ->
  Pd.index l (Z.of_nat i + Z.of_nat k - 1)%Z
  = match nth_error l (i + k - 1) with
    | Some x => Ok x
    | None => Raise IndexError
    end.
Proof.
  intro Hk. unfold Pd.index. cbv zeta.
  assert (E0 : (Z.of_nat i + Z.of_nat k - 1 <? 0)%Z = false) by (apply Z.ltb_ge; lia).
  rewrite E0. cbv iota. rewrite E0.
  replace (Z.to_nat (Z.of_nat i + Z.of_nat k - 1)) with (i + k - 1)%nat by lia.
  simpl orb.
  destruct (Z.of_nat (List.length l) <=? Z.of_nat i + Z.of_nat k - 1)%Z eqn:E.
  - apply Z.leb_le in E.
    assert (Hn : nth_error l (i + k - 1) = None) by (apply nth_error_None; lia).
    now rewrite Hn.
  - reflexivity.
Qed.

Lemma k_value_in_range (k : nat) (data : DataFrame) (i : nat) (v : Q) :
  Signals.well_formed data ->
  Stochastic.k_value k (col_high data) (col_low data) (col_close data) i = Ok v ->
  0 <= v /\ v <= 100.
Proof.
  intros Hwf H. unfold Stochastic.k_value in H. cbv zeta in H.
  destruct k as [|k'].
  { unfold Pd.window in H. simpl firstn in H.
    destruct (Pd.index (col_close data) (Z.of_nat i + Z.of_nat 0 - 1));
      simpl in H; discriminate. }
  set (k := S k') in *. assert (Hk : (1 <= k)%nat) by (unfold k; lia).
  rewrite (index_at _ i k Hk) in H.
  destruct (nth_error (col_close data) (i + k - 1)) as [c|] eqn:Ec;
    cbn [Py.bind] in H; [|discriminate].
  destruct (Pd.np_max (Pd.window i k (col_high data))) as [hi|] eqn:Eh;
    cbn [Py.bind] in H; [|discriminate].
  destruct (Pd.np_min (Pd.window i k (col_low data))) as [lo|] eqn:El;
    cbn [Py.bind] in H; [|discriminate].
  unfold col_close in Ec. rewrite nth_error_map in Ec.
  destruct (nth_error data (i + k - 1)) as [b|] eqn:Eb; [|discriminate].
  simpl in Ec. inversion Ec; subst c.
  assert (Hb : bar_low b <= bar_close b /\ bar_close b <= bar_high b).
  { unfold Signals.well_formed in Hwf. rewrite Forall_forall in Hwf.
    apply Hwf. eapply nth_error_In. exact Eb. }
  assert (Hhi : bar_high b <= hi).
  { apply (np_max_is_upper_bound _ _ _ Eh). apply window_last; [exact Hk|].
    unfold col_high. now apply map_nth_error. }
  assert (Hlo : lo <= bar_low b).
  { apply (np_min_is_lower_bound _ _ _ El). apply window_last; [exact Hk|].
    unfold col_low. now apply map_nth_error. }
  destruct (Qeq_bool hi lo) eqn:E; inversion H; subst v; [lra|].
  apply Qeq_bool_neq in E.
  assert (Hpos : 0 < hi - lo).
  { destruct (Qlt_le_dec lo hi) as [L|L]; [lra|].
    exfalso. apply E. apply Qle_antisym; lra. }
  split.
  - apply Qle_shift_div_l; [exact Hpos|]. nra.
  - apply Qle_shift_div_r; [exact Hpos|]. nra.
Qed.

Lemma window_nonempty {A : Type} (i k : nat) (l : list A) :
  (1 <= k)%nat -> (i + k <= List.length l)%nat ->
  exists x r, Pd.window i k l = x :: r.
Proof.
  intros Hk Hlen. unfold Pd.window.
  destruct (firstn k (skipn i l)) as [|x r] eqn:E.
  - apply (f_equal (@List.length A)) in E.
    rewrite length_firstn, length_skipn in E. simpl in E. lia.
  - eauto.
Qed.

Lemma k_value_returns (k : nat) (data : DataFrame) (i : nat) :
  (1 <= k)%nat -> (i + k <= List.length data)%nat ->
  exists v,
    Stochastic.k_value k (col_high data) (col_low data) (col_close data) i = Ok v.
Proof.
  intros Hk Hlen. unfold Stochastic.k_value. cbv zeta.
  rewrite (index_at _ i k Hk).
  destruct (nth_error (col_close data) (i + k - 1)) as [c|] eqn:Ec.
  - cbn [Py.bind].
    destruct (window_nonempty i k (col_high data) Hk) as [h [hr Eh]];
      [unfold col_high; rewrite length_map; exact Hlen|].
    destruct (window_nonempty i k (col_low data) Hk) as [l [lr El]];
      [unfold col_low; rewrite length_map; exact Hlen|].
    rewrite Eh, El. simpl.
    match goal with |- context [if ?b then _ else _] => destruct b end; eauto.
  - apply nth_error_None in Ec. unfold col_close in Ec. rewrite length_map in Ec. lia.
Qed.

Lemma for_each_all {A B : Type} (f : A -> result B) (P : B -> Prop) (l : list A) :
  (forall x, In x l -> exists y, f x = Ok y /\ P y) ->
  exists ys, Pd.for_each f l = Ok ys /\ List.length ys = List.length l /\ Forall P ys.
Proof.
  induction l as [|x l IH]; intro H; simpl.
  - exists []. repeat split. constructor.
  - destruct (H x (or_introl eq_refl)) as [y [Hy Py]].
    destruct IH as [ys [Hys [Hl Hp]]]; [intros z Hz; apply H; now right|].
    rewrite Hy, Hys. simpl. exists (y :: ys). repeat split.
    + simpl. now rewrite Hl.
    + now constructor.
Qed.

(** X23.  %K is a percentage.  On bars whose close lies between their low
    and their high, and with a window of at least one bar, the loop that
    fills [k_values] never raises; it yields one value per full window, and
    every value lies between 0 and 100 (50 on a window whose highest high
    equals its lowest low). *)
Theorem stochastic_k_is_a_percentage (k : nat) (data : DataFrame) :
  (1 <= k)%nat -> Signals.well_formed data ->
  exists ks,
    Stochastic.k_values k data = Ok ks /\
    List.length ks = (List.length data + 1 - k)%nat /\
    Forall (fun v => 0 <= v /\ v <= 100) ks.
Proof.
  intros Hk Hwf. unfold Stochastic.k_values.
  destruct (for_each_all
              (Stochastic.k_value k (col_high data) (col_low data) (col_close data))
              (fun v => 0 <= v /\ v <= 100)
              (seq 0 (List.length data + 1 - k))) as [ks [Hks [Hlen Hall]]].
  - intros i Hi. apply in_seq in Hi.
    destruct (k_value_returns k data i Hk) as [v Hv]; [lia|].
    exists v. split; [exact Hv|]. now apply (k_value_in_range k data i).
  - exists ks. split; [exact Hks|]. split; [|exact Hall].
    now rewrite Hlen, length_seq.
Qed.

Lemma stochastic_k_is_a_percentage_witness :
  exists ks,
    Stochastic.k_values 2 Example.falling = Ok ks /\
    List.length ks = (List.length Example.falling + 1 - 2)%nat /\
    Forall (fun v => 0 <= v /\ v <= 100) ks.
Proof.
  apply (stochastic_k_is_a_percentage 2 Example.falling).
  - lia.
  - repeat constructor; vm_compute; discriminate.
Defined.

(** ** analysis/market_regime.py: the range of the ADX *)










Lemma short_history_is_sideways (np : Numpy) (a : MarketRegimeAnalyzer)
  (data : DataFrame) :
  (List.length data < 15)%nat ->
  cond_sideways (Regime.get_market_conditions np a data) = true.
Proof.
  intro H. unfold Regime.get_market_conditions. cbv zeta. simpl.
  unfold Regime.calculate_adx.
  assert (E : (List.length (col_high data) <? 14 + 1)%nat = true).
  { apply Nat.ltb_lt. unfold col_high. rewrite length_map. lia. }
  now rewrite E.
Qed.

(** X25.  What the adaptive selector can select.  [select_strategy] stores
    the strategy it returns; it never selects the MA crossover strategy; it
    selects the Stochastic strategy (14, 3, 20, 80) exactly when the market
    counts as sideways (ADX below 20); and on fewer than 15 bars it always
    does, and that strategy then answers HOLD with strength 0 for want of
    data. *)
Theorem adaptive_selection_by_regime
  (np : Numpy) (sel : AdaptiveStrategySelector) (data : DataFrame) :
  let r := Adaptive.select_strategy np sel data in
  let chosen := fst (fst (fst r)) in
  current_strategy (snd r) = Some chosen /\
  (forall m, chosen <> StratMA m) /\
  Strat.is_stochastic chosen
  = cond_sideways (Regime.get_market_conditions np (regime_analyzer sel) data) /\
  (Strat.is_stochastic chosen = true ->
   chosen = StratStochastic (mkStochastic 14 3 20 80)) /\
  ((List.length data < 15)%nat -> data <> [] ->
   forall symbol pos,
     exists sig,
       Strat.generate_signal chosen data symbol pos = Ok sig /\
       signal sig = SIG_HOLD /\ strength sig = Fin 0 /\
       reason sig = ("Insufficient data"%string, [])).
Proof.
  cbv zeta. unfold Adaptive.select_strategy. cbv zeta.
  cbn [fst snd current_strategy].
  pose proof (short_history_is_sideways np (regime_analyzer sel) data) as Hshort.
  set (c := Regime.get_market_conditions np (regime_analyzer sel) data) in *.
  assert (Hs : XFloat.ltb (cond_adx c) (Fin 20) = cond_sideways c) by reflexivity.
  rewrite Hs, orb_diag.
  split; [reflexivity|].
  destruct (cond_sideways c) eqn:Es.
  - simpl. split; [discriminate|]. split; [reflexivity|]. split; [reflexivity|].
    intros Hlen Hne symbol pos. unfold Stochastic.generate_signal. simpl k_period.
    simpl d_period.
    assert (E : (List.length data <? 14 + 3)%nat = true) by (apply Nat.ltb_lt; lia).
    rewrite E.
    destruct (at_last_bar_ok data
                (fun price ts =>
                   mkTradeSignal SIG_HOLD symbol price ts (Fin 0)
                                 ("Insufficient data"%string, [])) Hne)
      as [p [t Hpt]].
    rewrite Hpt. eexists. repeat split.
  - split.
    + intro m. repeat match goal with
                      | |- context [if ?b then _ else _] => destruct b
                      end; simpl; discriminate.
    + split; [|split].
      * repeat match goal with
               | |- context [if ?b then _ else _] => destruct b
               end; reflexivity.
      * repeat match goal with
               | |- context [if ?b then _ else _] => destruct b
               end; simpl; discriminate.
      * intro Hlen. specialize (Hshort Hlen). congruence.
Qed.

(** ** main.py: the per-symbol step of the simulation *)

Lemma getitem_ok {V : Type} (d : dict V) (k : string) (v : V) :
  Simulator.getitem d k = Ok v -> dict_get d k = Some v.
Proof.
  unfold Simulator.getitem. destruct (dict_get d k); intro H; now inversion H.
Qed.

Lemma object_signal_shape (np : Numpy) (s : StrategyObject) (data : DataFrame)
  (symbol : string) (pos : option Z) (sig : TradeSignal) :
  fst (Simulator.generate_signal np s data symbol pos) = Ok sig ->
  Signals.stamped_from data symbol sig /\ Signals.fits_position pos sig.
Proof.
  destruct s as [strategy|sel]; unfold Simulator.generate_signal; cbv zeta;
    cbn [fst].
  - apply strategy_signal_shape.
  - unfold Adaptive.generate_signal. cbv zeta.
    destruct (current_strategy sel) as [strategy|] eqn:E.
    + rewrite E. cbn [fst]. apply strategy_signal_shape.
    + unfold Adaptive.select_strategy. cbv zeta. cbn [snd current_strategy fst].
      apply strategy_signal_shape.
Qed.

(** X26.  A signal fits the position it was asked about.  Whatever strategy
    object the simulator runs (one of the five strategies, or the adaptive
    selector), a signal it returns names the symbol passed in and carries the
    close and the timestamp of the last bar, so the history was not empty; a
    BUY or a SELL is only returned when no position was passed (None or 0),
    and a CLOSE only when a non-zero position was: no strategy asks to enter
    on top of a position or to close what is not there.  A fixed strategy is
    left as it is, and the selector holds a strategy after the call. *)
Theorem signal_fits_position_and_last_bar
  (np : Numpy) (s : StrategyObject) (data : DataFrame) (sym : string)
  (pos : option Z) (sig : TradeSignal) :
  fst (Simulator.generate_signal np s data sym pos) = Ok sig ->
  Signals.stamped_from data sym sig /\ Signals.fits_position pos sig /\
  data <> [] /\
  match snd (Simulator.generate_signal np s data sym pos) with
  | Fixed strategy => s = Fixed strategy
  | Selecting sel' =>
      exists sel, s = Selecting sel /\ current_strategy sel' <> None /\
                  (current_strategy sel <> None -> sel' = sel)
  end.
Proof.
  intro H. destruct (object_signal_shape np s data sym pos sig H) as [Hst Hfit].
  split; [exact Hst|]. split; [exact Hfit|]. split.
  - destruct Hst as [_ [Hc _]]. intro He. subst data. discriminate Hc.
  - destruct s as [strategy|sel]; unfold Simulator.generate_signal; cbv zeta;
      cbn [snd]; [reflexivity|].
    exists sel. split; [reflexivity|].
    unfold Adaptive.generate_signal. cbv zeta.
    destruct (current_strategy sel) as [strategy|] eqn:E.
    + rewrite E. cbn [snd]. rewrite E. split; [discriminate|reflexivity].
    + unfold Adaptive.select_strategy. cbv zeta. cbn [snd current_strategy fst].
      split; [discriminate|]. intro Hc. now contradiction Hc.
Qed.

Lemma signal_fits_position_and_last_bar_witness :
  exists sig,
    fst (Simulator.generate_signal Example.no_numpy (Fixed (StratRSI Example.quick_rsi))
           Example.falling "ACME"%string (Some 0%Z)) = Ok sig /\
    signal sig = SIG_BUY /\
    Signals.stamped_from Example.falling "ACME"%string sig /\
    Signals.fits_position (Some 0%Z) sig.
Proof.
  destruct (fst (Simulator.generate_signal Example.no_numpy
                   (Fixed (StratRSI Example.quick_rsi)) Example.falling "ACME"%string
                   (Some 0%Z))) as [sig|e] eqn:E;
    [|vm_compute in E; discriminate].
  exists sig. split; [reflexivity|]. split.
  - vm_compute in E. inversion E. reflexivity.
  - destruct (signal_fits_position_and_last_bar _ _ _ _ _ _ E) as [H1 [H2 _]].
    now split.
Defined.

Lemma position_size_in_lots (upper : string -> string) (sim : TradingSimulator)
  (symbol : string) (quantity : Z) :
  Simulator._calculate_position_size upper sim symbol = Ok quantity ->
  exists lots available price,
    (1 <= lots)%Z /\
    quantity = (lots * Market.get_lot_size upper symbol "DEC")%Z /\
    Tracker.get_available_margin (sim_risk sim) (sim_current_prices sim) = Ok available /\
    dict_get (sim_current_prices sim) symbol = Some price /\
    ~ price == 0 /\
    lots = Z.max 1 (BaseStrategy.py_int
                      (available * (2 # 10)
                       / (price * inject_Z (Market.get_lot_size upper symbol "DEC")))).
Proof.
  unfold Simulator._calculate_position_size. cbv zeta. intro H.
  destruct (Tracker.get_available_margin _ _) as [available|] eqn:Ea;
    cbn [Py.bind] in H; [|discriminate].
  destruct (Simulator.getitem _ _) as [price|] eqn:Ep; cbn [Py.bind] in H; [|discriminate].
  apply getitem_ok in Ep.
  pose proof (lot_size_positive upper symbol "DEC") as Hlot.
  unfold truediv in H.
  destruct (Qeq_bool (price * inject_Z (Market.get_lot_size upper symbol "DEC")) 0)
    eqn:Ez; cbn [Py.bind] in H; [discriminate|].
  apply Qeq_bool_neq in Ez. inversion H; subst quantity; clear H.
  eexists. exists available, price.
  split; [|split; [reflexivity|split; [reflexivity|split; [exact Ep|split; [|reflexivity]]]]].
  - lia.
  - intro Hz. apply Ez. rewrite Hz. ring.
Qed.

(** X27.  Orders come in whole lots.  Whenever the simulator's
    [_calculate_position_size] returns, the quantity is a positive multiple of
    the symbol's lot size, at least one lot, so the driver's test
    [quantity > 0] never fails; at a positive price the quantity costs no more
    than 20% of the available margin when one lot fits that budget, and is
    exactly one lot, above budget, when it does not. *)
Theorem driver_sizes_orders_in_whole_lots
  (upper : string -> string) (sim : TradingSimulator) (symbol : string)
  (quantity : Z) :
  Simulator._calculate_position_size upper sim symbol = Ok quantity ->
  let lot := Market.get_lot_size upper symbol "DEC" in
  (1 <= lot)%Z /\ (lot <= quantity)%Z /\
  (exists lots, (1 <= lots)%Z /\ quantity = (lots * lot)%Z) /\
  exists available price,
    Tracker.get_available_margin (sim_risk sim) (sim_current_prices sim) = Ok available /\
    dict_get (sim_current_prices sim) symbol = Some price /\
    ~ price == 0 /\
    (0 < price -> inject_Z lot * price <= available * (2 # 10) ->
     inject_Z quantity * price <= available * (2 # 10)) /\
    (0 < price -> available * (2 # 10) < inject_Z lot * price ->
     quantity = lot /\ available * (2 # 10) < inject_Z quantity * price).
Proof.
  intro H. cbv zeta.
  destruct (position_size_in_lots upper sim symbol quantity H)
    as [lots [available [price [Hlots [Hq [Ha [Hp [Hnz Hdef]]]]]]]].
  pose proof (lot_size_positive upper symbol "DEC") as Hlot.
  set (lot := Market.get_lot_size upper symbol "DEC") in *.
  split; [exact Hlot|]. split; [subst quantity; nia|].
  split; [exists lots; now split|].
  exists available, price. split; [exact Ha|]. split; [exact Hp|]. split; [exact Hnz|].
  assert (Hl : 1 <= inject_Z lot).
  { change 1 with (inject_Z 1). now rewrite <- Zle_Qle. }
  set (budget := available * (2 # 10)) in *.
  split.
  - intros Hpos Hfit.
    assert (Hc : 0 < price * inject_Z lot) by nra.
    assert (Hdiv : budget / (price * inject_Z lot) * (price * inject_Z lot) == budget)
      by (field; lra).
    assert (H1 : 1 <= budget / (price * inject_Z lot)).
    { apply Qle_shift_div_l; [exact Hc|lra]. }
    pose proof (py_int_at_least_one _ H1) as Hge.
    destruct (py_int_floor (budget / (price * inject_Z lot))) as [Hlo _]; [lra|].
    rewrite Z.max_r in Hdef by lia. subst quantity lots.
    rewrite inject_Z_mult. nra.
  - intros Hpos Hover.
    assert (Hc : 0 < price * inject_Z lot) by nra.
    assert (H1 : budget / (price * inject_Z lot) < 1).
    { apply Qlt_shift_div_r; [exact Hc|lra]. }
    pose proof (py_int_small _ H1) as Hs.
    rewrite Z.max_l in Hdef by lia. subst lots.
    assert (Eq : quantity = lot) by lia.
    split; [exact Eq|]. rewrite Eq. exact Hover.
Qed.

Lemma driver_sizes_orders_in_whole_lots_witness :
  exists quantity,
    Simulator._calculate_position_size Example.as_is Example.simulator "ACME"%string
    = Ok quantity /\
    (1 <= Market.get_lot_size Example.as_is "ACME"%string "DEC")%Z /\
    (Market.get_lot_size Example.as_is "ACME"%string "DEC" <= quantity)%Z.
Proof.
  destruct (Simulator._calculate_position_size Example.as_is Example.simulator "ACME"%string)
    as [quantity|e] eqn:E; [|vm_compute in E; discriminate].
  exists quantity. split; [reflexivity|].
  destruct (driver_sizes_orders_in_whole_lots _ _ _ _ E) as [H1 [H2 _]].
  now split.
Defined.

Lemma update_log_cases (st st' : ExecutionEngine) (o : Order) (c : Q) :
  Engine._update_position_from_order st o c = Ok st' ->
  match dict_get (positions st) (symbol o) with
  | None => closed_positions st' = closed_positions st
  | Some p =>
      if (Engine.opposite_sign (pos_quantity p) (Engine.signed_quantity o)
          && (Z.abs (Engine.signed_quantity o) >=? Z.abs (pos_quantity p))%Z)%bool
      then exists fp fts,
             closed_positions st'
             = (closed_positions st ++ [PositionM.close p fp fts])%list
      else closed_positions st' = closed_positions st
  end.
Proof.
  unfold Engine._update_position_from_order.
  destruct (fill_price o) as [fp|]; [|discriminate].
  destruct (fill_timestamp o) as [fts|]; [|discriminate].
  destruct (dict_get (positions st) (symbol o)) as [p|] eqn:G.
  - destruct (Engine.opposite_sign (pos_quantity p) (Engine.signed_quantity o)).
    + destruct (Z.abs (Engine.signed_quantity o) >=? Z.abs (pos_quantity p))%Z.
      * simpl positions. destruct (dict_del (positions st) (symbol o)) as [book|e];
          simpl Py.bind; [|discriminate].
        destruct (Z.abs (Engine.signed_quantity o) >? Z.abs (pos_quantity p))%Z.
        -- destruct (truediv _ _); simpl; [|discriminate].
           intro E. inversion E; subst; clear E. simpl. eauto.
        -- intro E. inversion E; subst; clear E. simpl. eauto.
      * intro E. inversion E; subst; clear E. reflexivity.
    + destruct (truediv _ _) as [avg|]; simpl; [|discriminate].
      destruct (truediv _ _); simpl; [|discriminate].
      intro E. inversion E; subst; clear E. reflexivity.
  - destruct (side o); (destruct (truediv _ _); simpl; [|discriminate]);
      intro E; inversion E; subst; clear E; reflexivity.
Qed.

Lemma execute_effect (st st' : ExecutionEngine) (o o' : Order) (price : Q)
  (prices : dict Q) (ts : datetime) (filled : bool) :
  NoDup (Book.symbols (positions st)) ->
  Engine.execute_market_order st o price prices ts = Ok (filled, o', st') ->
  st' = st
  \/ ((forall sym,
         Engine.get_position_quantity st' sym
         = (Engine.get_position_quantity st sym
            + if String.eqb sym (symbol o) then Engine.signed_quantity o else 0)%Z)
      /\ match dict_get (positions st) (symbol o) with
         | None => closed_positions st' = closed_positions st
         | Some p =>
             if (Engine.opposite_sign (pos_quantity p) (Engine.signed_quantity o)
                 && (Z.abs (Engine.signed_quantity o) >=? Z.abs (pos_quantity p))%Z)%bool
             then exists fp fts,
                    closed_positions st'
                    = (closed_positions st ++ [PositionM.close p fp fts])%list
             else closed_positions st' = closed_positions st
         end).
Proof.
  intros Hnd Hex.
  destruct (execute_outcome _ _ _ _ _ _ _ _ Hex)
    as [[_ [_ [Es _]]] | [_ [Eo [st1 [c [Hp [Hc [_ [_ [_ [_ [_ [_ Hup]]]]]]]]]]]]].
  - now left.
  - right.
    assert (Hsym : symbol o' = symbol o) by (subst o'; reflexivity).
    assert (Hsq : Engine.signed_quantity o' = Engine.signed_quantity o)
      by (subst o'; reflexivity).
    split.
    + intro sym.
      assert (Hnd1 : NoDup (Book.symbols (positions st1))) by (now rewrite Hp).
      rewrite (update_moves_quantity st1 st' o' c sym Hnd1 Hup).
      unfold Engine.get_position_quantity. now rewrite Hp, Hsym, Hsq.
    + pose proof (update_log_cases st1 st' o' c Hup) as Hlog.
      now rewrite Hp, Hc, Hsym, Hsq in Hlog.
Qed.

Lemma flat_means_absent (st : ExecutionEngine) (sym : string) :
  Book.no_empty_position st ->
  Engine.get_position_quantity st sym = 0%Z ->
  dict_get (positions st) sym = None.
Proof.
  intros Hne Hq. unfold Engine.get_position_quantity in Hq.
  destruct (dict_get (positions st) sym) as [p|] eqn:G; [|reflexivity].
  exfalso. apply dict_get_in in G.
  unfold Book.no_empty_position in Hne. rewrite Forall_forall in Hne.
  apply (Hne _ G). exact Hq.
Qed.

Lemma place_outcome (sim sim' : TradingSimulator) (order : Order) (symbol : string)
  (current_time : datetime) :
  Simulator.place sim order symbol current_time = Ok sim' ->
  exists price filled o' st',
    dict_get (sim_current_prices sim) symbol = Some price /\
    Engine.execute_market_order (Simulator.sim_engine sim) order price
      (sim_current_prices sim) current_time = Ok (filled, o', st') /\
    sim' = Simulator.with_engine sim st'.
Proof.
  unfold Simulator.place. intro H.
  destruct (Simulator.getitem _ _) as [price|] eqn:Ep; cbn [Py.bind] in H; [|discriminate].
  destruct (Engine.execute_market_order _ _ _ _ _) as [[[filled o'] st']|] eqn:Ex;
    cbn [Py.bind] in H; [|discriminate].
  inversion H; subst. exists price, filled, o', st'.
  split; [now apply getitem_ok|]. split; [exact Ex|reflexivity].
Qed.

Lemma enter_outcome (upper : string -> string) (strftime : datetime -> string)
  (sim sim' : TradingSimulator) (symbol : string) (side : OrderSide)
  (current_time : datetime) :
  Simulator.enter upper strftime sim symbol side current_time = Ok sim' ->
  exists lots price filled o' st',
    (1 <= lots)%Z /\
    Engine.execute_market_order (Simulator.sim_engine sim)
      (Simulator.market_order strftime symbol side
         (lots * Market.get_lot_size upper symbol "DEC") current_time)
      price (sim_current_prices sim) current_time = Ok (filled, o', st') /\
    sim' = Simulator.with_engine sim st'.
Proof.
  unfold Simulator.enter. intro H.
  destruct (Simulator._calculate_position_size upper sim symbol) as [q|] eqn:Eq;
    cbn [Py.bind] in H; [|discriminate].
  destruct (position_size_in_lots upper sim symbol q Eq)
    as [lots [available [price [Hlots [Hq _]]]]].
  pose proof (lot_size_positive upper symbol "DEC") as Hlot.
  assert (Hpos : (q >? 0)%Z = true) by (apply Z.gtb_lt; subst q; nia).
  rewrite Hpos in H.
  destruct (place_outcome _ _ _ _ _ H) as [p [filled [o' [st' [_ [Hex Hs]]]]]].
  exists lots, p, filled, o', st'. subst q. now repeat split.
Qed.

(** X28.  The simulation step opens from flat and closes in full.  On a book
    with one position per symbol and no empty position, a call of
    [_process_symbol_signals] that returns leaves the bars and the prices as
    they were and touches no other symbol's position; and for its own symbol
    it either leaves the engine untouched (fewer than 60 bars, a HOLD, an
    entry signal against an open position, a rejected order), or opens a
    position of a whole number of lots where there was none, logging nothing,
    or brings the open position to zero and logs exactly one closed position
    with the whole quantity.  It never adds to a position, never closes a part
    of one and never reverses one. *)
Theorem driver_step_opens_from_flat_or_closes_in_full
  (np : Numpy) (upper : string -> string) (strftime : datetime -> string)
  (sim sim' : TradingSimulator) (sym : string) (current_time : datetime) :
  Book.one_per_symbol (Simulator.sim_engine sim) ->
  Book.no_empty_position (Simulator.sim_engine sim) ->
  Simulator._process_symbol_signals np upper strftime sim sym current_time
  = Ok sim' ->
  let before := Simulator.sim_engine sim in
  let after := Simulator.sim_engine sim' in
  let q0 := Engine.get_position_quantity before sym in
  let q1 := Engine.get_position_quantity after sym in
  sim_market_data sim' = sim_market_data sim /\
  sim_current_prices sim' = sim_current_prices sim /\
  (forall other, other <> sym ->
     Engine.get_position_quantity after other
     = Engine.get_position_quantity before other) /\
  (after = before
   \/ (q0 = 0%Z /\ closed_positions after = closed_positions before /\
       exists lots, (1 <= lots)%Z /\
         Z.abs q1 = (lots * Market.get_lot_size upper sym "DEC")%Z)
   \/ (q0 <> 0%Z /\ q1 = 0%Z /\
       exists record,
         closed_positions after = (closed_positions before ++ [record])%list /\
         cp_quantity record = q0 /\ cp_symbol record = sym)).
Proof.
  intros Hone Hne H. cbv zeta.
  assert (Hnd : NoDup (Book.symbols (positions (Simulator.sim_engine sim))))
    by apply Hone.
  assert (Hstay : forall s : TradingSimulator,
             sim_market_data s = sim_market_data sim ->
             sim_current_prices s = sim_current_prices sim ->
             Simulator.sim_engine s = Simulator.sim_engine sim ->
             sim_market_data s = sim_market_data sim /\
             sim_current_prices s = sim_current_prices sim /\
             (forall other, other <> sym ->
                Engine.get_position_quantity (Simulator.sim_engine s) other
                = Engine.get_position_quantity (Simulator.sim_engine sim) other) /\
             (Simulator.sim_engine s = Simulator.sim_engine sim
              \/ (Engine.get_position_quantity (Simulator.sim_engine sim) sym = 0%Z /\
                  closed_positions (Simulator.sim_engine s)
                  = closed_positions (Simulator.sim_engine sim) /\
                  exists lots, (1 <= lots)%Z /\
                    Z.abs (Engine.get_position_quantity (Simulator.sim_engine s) sym)
                    = (lots * Market.get_lot_size upper sym "DEC")%Z)
              \/ (Engine.get_position_quantity (Simulator.sim_engine sim) sym <> 0%Z /\
                  Engine.get_position_quantity (Simulator.sim_engine s) sym = 0%Z /\
                  exists record,
                    closed_positions (Simulator.sim_engine s)
                    = (closed_positions (Simulator.sim_engine sim) ++ [record])%list /\
                    cp_quantity record
                    = Engine.get_position_quantity (Simulator.sim_engine sim) sym /\
                    cp_symbol record = sym))).
  { intros s H1 H2 H3. rewrite H3. repeat split; try assumption. now left. }
  unfold Simulator._process_symbol_signals in H.
  destruct (Simulator.getitem (sim_market_data sim) sym) as [data|] eqn:Ed;
    cbn [Py.bind] in H; [|discriminate].
  destruct (List.length data <? 60)%nat.
  { inversion H; subst sim'. now apply Hstay. }
  cbv zeta in H.
  set (q0 := Engine.get_position_quantity (Simulator.sim_engine sim) sym) in *.
  destruct (fst (Simulator.generate_signal np (sim_strategy sim) data sym (Some q0)))
    as [sig|] eqn:Esig; cbn [Py.bind] in H; [|discriminate].
  destruct (object_signal_shape _ _ _ _ _ _ Esig) as [_ Hfit].
  unfold Signals.fits_position in Hfit.
  set (sim2 := Simulator.with_strategy sim
                 (snd (Simulator.generate_signal np (sim_strategy sim) data sym
                         (Some q0)))) in *.
  assert (He2 : Simulator.sim_engine sim2 = Simulator.sim_engine sim) by reflexivity.
  assert (Hp2 : sim_current_prices sim2 = sim_current_prices sim) by reflexivity.
  assert (Hd2 : sim_market_data sim2 = sim_market_data sim) by reflexivity.
  assert (Hentry : forall side,
             q0 = 0%Z ->
             Simulator.enter upper strftime sim2 sym side current_time = Ok sim' ->
             sim_market_data sim' = sim_market_data sim /\
             sim_current_prices sim' = sim_current_prices sim /\
             (forall other, other <> sym ->
                Engine.get_position_quantity (Simulator.sim_engine sim') other
                = Engine.get_position_quantity (Simulator.sim_engine sim) other) /\
             (Simulator.sim_engine sim' = Simulator.sim_engine sim
              \/ (q0 = 0%Z /\
                  closed_positions (Simulator.sim_engine sim')
                  = closed_positions (Simulator.sim_engine sim) /\
                  exists lots, (1 <= lots)%Z /\
                    Z.abs (Engine.get_position_quantity (Simulator.sim_engine sim') sym)
                    = (lots * Market.get_lot_size upper sym "DEC")%Z)
              \/ (q0 <> 0%Z /\
                  Engine.get_position_quantity (Simulator.sim_engine sim') sym = 0%Z /\
                  exists record,
                    closed_positions (Simulator.sim_engine sim')
                    = (closed_positions (Simulator.sim_engine sim) ++ [record])%list /\
                    cp_quantity record = q0 /\ cp_symbol record = sym))).
  { intros sd Hq0 Hen.
    destruct (enter_outcome _ _ _ _ _ _ _ Hen)
      as [lots [price [filled [o' [st' [Hlots [Hex Hs]]]]]]].
    rewrite He2, Hp2 in Hex.
    pose proof (lot_size_positive upper sym "DEC") as Hlot.
    subst sim'.
    change (Simulator.sim_engine (Simulator.with_engine sim2 st')) with st'.
    split; [reflexivity|]. split; [reflexivity|].
    destruct (execute_effect _ _ _ _ _ _ _ _ Hnd Hex) as [Es|[Hq Hlog]].
    - rewrite Es. split; [reflexivity|]. now left.
    - simpl symbol in Hq, Hlog.
      rewrite (flat_means_absent _ sym Hne Hq0) in Hlog.
      split.
      + intros other Hother. rewrite Hq.
        apply String.eqb_neq in Hother. rewrite Hother. lia.
      + right. left. split; [exact Hq0|]. split; [exact Hlog|].
        exists lots. split; [exact Hlots|].
        rewrite Hq, String.eqb_refl. fold q0. rewrite Hq0.
        unfold Engine.signed_quantity. simpl side. simpl quantity.
        destruct sd; nia. }
  assert (Hflat : signal sig = SIG_BUY \/ signal sig = SIG_SELL -> q0 = 0%Z).
  { intros [E|E]; rewrite E in Hfit; destruct Hfit as [F|F]; congruence. }
  destruct (Sig.eqb (signal sig) SIG_BUY && (q0 <=? 0)%Z)%bool eqn:Ebuy.
  { apply andb_prop in Ebuy. destruct Ebuy as [Eb _].
    apply (Hentry BUY); [|exact H].
    apply Hflat. left. destruct (signal sig); simpl in Eb; congruence. }
  destruct (Sig.eqb (signal sig) SIG_SELL && (q0 >=? 0)%Z)%bool eqn:Esell.
  { apply andb_prop in Esell. destruct Esell as [Eb _].
    apply (Hentry SELL); [|exact H].
    apply Hflat. right. destruct (signal sig); simpl in Eb; congruence. }
  destruct (Sig.eqb (signal sig) SIG_CLOSE && negb (q0 =? 0)%Z)%bool eqn:Eclose;
    [|inversion H; subst sim'; now apply Hstay].
  apply andb_prop in Eclose. destruct Eclose as [_ Enz].
  apply negb_true_iff, Z.eqb_neq in Enz.
  unfold Engine.get_current_position in H. rewrite He2 in H.
  destruct (dict_get (positions (Simulator.sim_engine sim)) sym) as [p|] eqn:G;
    [|inversion H; subst sim'; now apply Hstay].
  assert (Hpq : pos_quantity p = q0).
  { unfold q0, Engine.get_position_quantity. now rewrite G. }
  assert (Hps : pos_symbol p = sym).
  { destruct Hone as [_ Hkeys]. rewrite Forall_forall in Hkeys.
    apply (Hkeys (sym, p)). now apply dict_get_in. }
  cbv zeta in H.
  destruct (place_outcome _ _ _ _ _ H) as [price [filled [o' [st' [_ [Hex Hs]]]]]].
  rewrite He2, Hp2 in Hex.
  subst sim'.
  change (Simulator.sim_engine (Simulator.with_engine sim2 st')) with st'.
  split; [reflexivity|]. split; [reflexivity|].
  destruct (execute_effect _ _ _ _ _ _ _ _ Hnd Hex) as [Es|[Hq Hlog]].
  - rewrite Es. split; [reflexivity|]. now left.
  - simpl symbol in Hq, Hlog. rewrite G in Hlog.
    assert (Hsq : Engine.signed_quantity
                    (Simulator.market_order strftime sym
                       (if PositionM.is_long p then SELL else BUY)
                       (Z.abs (pos_quantity p)) current_time)
                  = (- q0)%Z).
    { unfold Engine.signed_quantity, PositionM.is_long. simpl side. simpl quantity.
      rewrite Hpq. destruct (q0 >? 0)%Z eqn:Eg.
      - apply Z.gtb_lt in Eg. lia.
      - assert (~ (0 < q0)%Z) by (intro Hc; apply Z.gtb_lt in Hc; congruence). lia. }
    rewrite Hsq in Hq, Hlog. rewrite Hpq in Hlog.
    assert (Hopp : (Engine.opposite_sign q0 (- q0)
                    && (Z.abs (- q0) >=? Z.abs q0)%Z)%bool = true).
    { apply andb_true_intro. split.
      - unfold Engine.opposite_sign.
        destruct (Z.lt_trichotomy q0 0) as [L|[L|L]]; [|contradiction|].
        + assert (E1 : (q0 <? 0)%Z = true) by (apply Z.ltb_lt; lia).
          assert (E2 : (- q0 >? 0)%Z = true) by (apply Z.gtb_lt; lia).
          rewrite E1, E2. apply orb_true_r.
        + assert (E1 : (q0 >? 0)%Z = true) by (apply Z.gtb_lt; lia).
          assert (E2 : (- q0 <? 0)%Z = true) by (apply Z.ltb_lt; lia).
          now rewrite E1, E2.
      - apply Z.geb_le. lia. }
    rewrite Hopp in Hlog. destruct Hlog as [fp [fts Hlog]].
    split.
    + intros other Hother. rewrite Hq.
      apply String.eqb_neq in Hother. rewrite Hother. lia.
    + right. right. split; [exact Enz|]. split.
      * rewrite Hq, String.eqb_refl. fold q0. lia.
      * eexists. split; [exact Hlog|]. simpl. now split.
Qed.

Lemma driver_step_opens_from_flat_or_closes_in_full_witness :
  exists sim',
    Simulator._process_symbol_signals Example.no_numpy Example.as_is Example.stamp
      Example.simulator "ACME"%string 60%Z = Ok sim' /\
    Engine.get_position_quantity (Simulator.sim_engine sim') "ACME"%string = 28%Z /\
    (Simulator.sim_engine sim' = Simulator.sim_engine Example.simulator
     \/ (Engine.get_position_quantity (Simulator.sim_engine Example.simulator) "ACME"%string
         = 0%Z /\
         closed_positions (Simulator.sim_engine sim')
         = closed_positions (Simulator.sim_engine Example.simulator) /\
         exists lots, (1 <= lots)%Z /\
           Z.abs (Engine.get_position_quantity (Simulator.sim_engine sim') "ACME"%string)
           = (lots * Market.get_lot_size Example.as_is "ACME"%string "DEC")%Z)
     \/ (Engine.get_position_quantity (Simulator.sim_engine Example.simulator) "ACME"%string
         <> 0%Z /\
         Engine.get_position_quantity (Simulator.sim_engine sim') "ACME"%string = 0%Z /\
         exists record,
           closed_positions (Simulator.sim_engine sim')
           = (closed_positions (Simulator.sim_engine Example.simulator) ++ [record])%list
           /\ cp_quantity record
              = Engine.get_position_quantity (Simulator.sim_engine Example.simulator)
                  "ACME"%string
           /\ cp_symbol record = "ACME"%string)).
Proof.
  destruct (Simulator._process_symbol_signals Example.no_numpy Example.as_is
              Example.stamp Example.simulator "ACME"%string 60%Z) as [sim'|e] eqn:E;
    [|vm_compute in E; discriminate].
  exists sim'. split; [reflexivity|]. split.
  - vm_compute in E. inversion E. reflexivity.
  - apply (driver_step_opens_from_flat_or_closes_in_full
             Example.no_numpy Example.as_is Example.stamp Example.simulator sim'
             "ACME"%string 60%Z).
    + split; constructor.
    + constructor.
    + exact E.
Defined.

(** ** strategies/combined_strategy.py: strength counts votes *)

Lemma votes_strength (votes : Z) :
  (0 <= votes <= 3)%Z -> Signals.unit_interval (Fin (inject_Z votes / 3)).
Proof.
  intro H. eexists. split; [reflexivity|].
  assert (H0 : 0 <= inject_Z votes).
  { change 0 with (inject_Z 0). rewrite <- Zle_Qle. lia. }
  assert (H3 : inject_Z votes <= 3).
  { change 3 with (inject_Z 3). rewrite <- Zle_Qle. lia. }
  split.
  - apply Qle_shift_div_l; lra.
  - apply Qle_shift_div_r; lra.
Qed.

Ltac vote_step H :=
  first
    [ match type of H with
      | context [match (if ?b then _ else _) with _ => _ end] =>
          let E := fresh "E" in destruct b eqn:E; cbv beta iota in H
      end
    | sig_step H ].

(** X29.  Strength of a combined signal.  Every signal of the combined
    strategy has a strength between 0 and 1: HOLD and CLOSE carry 1.0; a BUY
    or a SELL carries votes/3, where the votes are a whole number from 0 to 3
    that reaches the confirmation threshold. *)
Theorem combined_signal_strength_counts_votes
  (s : CombinedStrategy) (data : DataFrame) (sym : string) (pos : option Z)
  (sig : TradeSignal) :
  Combined.generate_signal s data sym pos = Ok sig ->
  Signals.unit_interval (strength sig) /\
  (signal sig = SIG_HOLD \/ signal sig = SIG_CLOSE -> strength sig = Fin 1) /\
  (signal sig = SIG_BUY \/ signal sig = SIG_SELL ->
   exists votes,
     (0 <= votes <= 3)%Z /\ (confirmation_threshold s <= votes)%Z /\
     strength sig = Fin (inject_Z votes / 3)).
Proof.
  intro H. unfold Combined.generate_signal, Sig.at_last_bar in H.
  cbv beta iota zeta in H.
  repeat vote_step H; cbn [strength signal];
    try (split; [apply unit_one|];
         split; [reflexivity|intros [?|?]; discriminate]);
    match goal with
    | Hv : (?v >=? confirmation_threshold s)%Z = true |- _ =>
        apply Z.geb_le in Hv;
        split; [apply votes_strength; lia|];
        split; [intros [?|?]; discriminate|];
        intros _; exists v; split; [lia|]; split; [exact Hv|reflexivity]
    end.
Qed.

Lemma combined_signal_strength_counts_votes_witness :
  exists sig,
    Combined.generate_signal (mkCombined Example.quick_rsi (mkEMA 1 2) 1)
      Example.falling "ACME" (Some 0%Z) = Ok sig /\
    signal sig = SIG_BUY /\ Signals.unit_interval (strength sig).
Proof.
  destruct (Combined.generate_signal (mkCombined Example.quick_rsi (mkEMA 1 2) 1)
              Example.falling "ACME" (Some 0%Z)) as [sig|e] eqn:E;
    [|vm_compute in E; discriminate].
  exists sig. split; [reflexivity|]. split.
  - vm_compute in E. inversion E. reflexivity.
  - apply (combined_signal_strength_counts_votes _ _ _ _ _ E).
Defined.

(** ** strategies/ema_strategy.py: strength of a crossover *)

Lemma ewm_from_positive (alpha prev : Q) (l : list Q) :
  0 < alpha -> alpha <= 1 -> 0 < prev -> Forall (fun x => 0 < x) l ->
  Forall (fun x => 0 < x) (Pd.ewm_from alpha prev l).
Proof.
  intros Ha0 Ha1. revert prev. induction l as [|x l IH]; intros prev Hp Hall; simpl.
  - constructor.
  - apply Forall_cons_iff in Hall. destruct Hall as [Hx Hl].
    assert (Hy : 0 < (1 - alpha) * prev + alpha * x) by nra.
    constructor; [exact Hy|]. now apply IH.
Qed.

Lemma ewm_mean_positive (span : nat) (l : list Q) (series : Pd.Series) :
  Forall (fun x => 0 < x) l ->
  Pd.ewm_mean span l = Ok series ->
  Forall (fun v => v = NaN \/ exists y, v = Fin y /\ 0 < y) series.
Proof.
  intros Hall H. unfold Pd.ewm_mean in H.
  destruct (span <? 1)%nat eqn:Es; [discriminate|].
  apply Nat.ltb_ge in Es. cbv zeta in H. inversion H; subst series; clear H.
  set (alpha := 2 / (inject_Z (Z.of_nat span) + 1)).
  assert (Hs : 1 <= inject_Z (Z.of_nat span)).
  { change 1 with (inject_Z 1). rewrite <- Zle_Qle. lia. }
  assert (Ha0 : 0 < alpha) by (apply Qlt_shift_div_l; lra).
  assert (Ha1 : alpha <= 1) by (apply Qle_shift_div_r; lra).
  assert (Hys : Forall (fun x => 0 < x)
                  match l with
                  | [] => []
                  | x :: r => x :: Pd.ewm_from alpha x r
                  end).
  { destruct l as [|x r]; [constructor|].
    apply Forall_cons_iff in Hall. destruct Hall as [Hx Hr].
    constructor; [exact Hx|]. now apply ewm_from_positive. }
  apply Forall_forall. intros v Hv. apply in_map_iff in Hv.
  destruct Hv as [[i y] [<- Hin]]. simpl.
  destruct (i + 1 <? span)%nat; [now left|]. right. exists y. split; [reflexivity|].
  apply in_combine_r in Hin. rewrite Forall_forall in Hys. now apply Hys.
Qed.

Lemma capped_separation (x y : Q) :
  0 < y ->
  Signals.unit_interval
    (XFloat.pymin
       (XFloat.mul (XFloat.div (XFloat.abs (XFloat.sub (Fin x) (Fin y))) (Fin y))
                   (Fin 10))
       (Fin 1)).
Proof.
  intro Hy. cbn [XFloat.sub XFloat.add XFloat.neg XFloat.abs XFloat.div].
  assert (E : Qeq_bool y 0 = false).
  { destruct (Qeq_bool y 0) eqn:Q; [apply Qeq_bool_iff in Q; lra|reflexivity]. }
  rewrite E. cbn [XFloat.mul]. unfold XFloat.pymin. cbn [XFloat.ltb].
  pose proof (Qabs_nonneg (x + - y)) as Habs.
  assert (Hsep : 0 <= Qabs (x + - y) / y) by (apply Qle_shift_div_l; lra).
  destruct (Py.ltb 1 (Qabs (x + - y) / y * 10)) eqn:L.
  - exists 1. split; [reflexivity|lra].
  - apply ltb_ge in L. eexists. split; [reflexivity|]. lra.
Qed.

Lemma last_is_positive (series : Pd.Series) (v : XFloat.t) :
  Forall (fun v => v = NaN \/ exists y, v = Fin y /\ 0 < y) series ->
  Pd.iloc_last series = Ok v -> XFloat.isnan v = false ->
  exists y, v = Fin y /\ 0 < y.
Proof.
  intros Hall Hl Hn. apply iloc_last_in in Hl. rewrite Forall_forall in Hall.
  destruct (Hall v Hl) as [->|H]; [discriminate|exact H].
Qed.

(** X30.  Strength of an EMA signal.  On bars with positive closes, every
    signal of the EMA strategy has a strength between 0 and 1: both averages
    are positive, so the relative separation of the two is a non-negative
    number, and ten times it is capped at 1. *)
Theorem ema_signal_strength_is_in_unit_interval
  (s : EMAStrategy) (data : DataFrame) (sym : string) (pos : option Z)
  (sig : TradeSignal) :
  Forall (fun b => 0 < bar_close b) data ->
  EMA.generate_signal s data sym pos = Ok sig ->
  Signals.unit_interval (strength sig) /\
  (signal sig = SIG_HOLD \/ signal sig = SIG_CLOSE -> strength sig = Fin 1).
Proof.
  intros Hpos H.
  assert (Hc : Forall (fun x => 0 < x) (col_close data)).
  { unfold col_close. apply Forall_forall. intros x Hx. apply in_map_iff in Hx.
    destruct Hx as [b [<- Hb]]. rewrite Forall_forall in Hpos. now apply Hpos. }
  unfold EMA.generate_signal, Sig.at_last_bar, EMA.calculate_ema in H.
  cbv zeta in H.
  destruct (List.length data <? ema_long_period s + 1)%nat.
  { repeat sig_step H; cbn [strength signal]; split;
      [apply unit_one|reflexivity]. }
  destruct (Pd.ewm_mean (ema_short_period s) (col_close data)) as [short_ema|] eqn:Es;
    cbn [Py.bind] in H; [|discriminate].
  destruct (Pd.ewm_mean (ema_long_period s) (col_close data)) as [long_ema|] eqn:El;
    cbn [Py.bind] in H; [|discriminate].
  pose proof (ewm_mean_positive _ _ _ Hc Es) as Hshort.
  pose proof (ewm_mean_positive _ _ _ Hc El) as Hlong.
  destruct (Pd.iloc_last short_ema) as [cs|] eqn:Ecs; cbn [Py.bind] in H; [|discriminate].
  destruct (Pd.iloc_last long_ema) as [cl|] eqn:Ecl; cbn [Py.bind] in H; [|discriminate].
  do 4 sig_step H.
  destruct (XFloat.isnan cs || XFloat.isnan cl)%bool eqn:En.
  { sig_step H. cbn [strength signal]. split; [apply unit_one|reflexivity]. }
  apply orb_false_elim in En. destruct En as [Ens Enl].
  destruct (last_is_positive _ _ Hshort Ecs Ens) as [x [-> Hx]].
  destruct (last_is_positive _ _ Hlong Ecl Enl) as [y [-> Hy]].
  repeat sig_step H; cbn [strength signal];
    try (split; [apply unit_one|reflexivity]);
    (split; [now apply capped_separation|intros [?|?]; discriminate]).
Qed.

Lemma ema_signal_strength_is_in_unit_interval_witness :
  exists sig,
    EMA.generate_signal (mkEMA 1 2) Example.turning "ACME" (Some 0%Z) = Ok sig /\
    signal sig = SIG_SELL /\ Signals.unit_interval (strength sig).
Proof.
  destruct (EMA.generate_signal (mkEMA 1 2) Example.turning "ACME" (Some 0%Z))
    as [sig|e] eqn:E; [|vm_compute in E; discriminate].
  exists sig. split; [reflexivity|]. split.
  - vm_compute in E. inversion E. reflexivity.
  - apply (ema_signal_strength_is_in_unit_interval (mkEMA 1 2) Example.turning "ACME"
             (Some 0%Z) sig).
    + repeat constructor.
    + exact E.
Defined.
